(** * SmartMetal extraction scripts: ASME B16.5 flanges and ASME B36.10 pipes

    A shallow embedding of [scripts/extraction/extract_asme_b165.py] and
    [scripts/extraction/extract_asme_b3610.py], and the properties of the
    table classifier, the header resolver, the row normaliser and the
    deduplication step of their drivers.

    Modelling conventions.
    - Python [str] values are Rocq [string]s of ASCII characters; [lower],
      [upper], [strip] and [isdigit] act on ASCII only.
    - A DataFrame is the list of its rows, a row the list of its cells.  A
      cell is [None], a float NaN, or a value given by its [str()] rendering.
    - A Python float is [FFin q] with [q] the exact value of a binary64
      number (a reduced fraction), an infinity or NaN.  [float(s)] follows
      the grammar of the language reference and rounds to nearest-even.
    - An exception that leaves a function is a [Raise] result. *)

From Stdlib Require Import List String Ascii ZArith QArith Qreduction Bool Lia Arith.
Import ListNotations.

Open Scope string_scope.
Open Scope bool_scope.

(** ** Python string primitives *)

Definition quote_char : ascii := ascii_of_nat 34.

Definition in_range (lo hi : nat) (c : ascii) : bool :=
  let n := nat_of_ascii c in (lo <=? n)%nat && (n <=? hi)%nat.

Definition lower_char (c : ascii) : ascii :=
  if in_range 65 90 c then ascii_of_nat (nat_of_ascii c + 32) else c.

Definition upper_char (c : ascii) : ascii :=
  if in_range 97 122 c then ascii_of_nat (nat_of_ascii c - 32) else c.

Fixpoint map_string (f : ascii -> ascii) (s : string) : string :=
  match s with
  | EmptyString => EmptyString
  | String c t => String (f c) (map_string f t)
  end.

(** [s.lower()] and [s.upper()]. *)
Definition lower (s : string) : string := map_string lower_char s.
Definition upper (s : string) : string := map_string upper_char s.

(** The characters [str.strip()] removes: tab, LF, VT, FF, CR, the four
    separators 28..31 and the space. *)
Definition is_space (c : ascii) : bool :=
  in_range 9 13 c || in_range 28 32 c.

Fixpoint lstrip (s : string) : string :=
  match s with
  | EmptyString => EmptyString
  | String c t => if is_space c then lstrip t else s
  end.

Fixpoint rev_string (acc s : string) : string :=
  match s with
  | EmptyString => acc
  | String c t => rev_string (String c acc) t
  end.

Definition rstrip (s : string) : string :=
  rev_string EmptyString (lstrip (rev_string EmptyString s)).

(** [s.strip()]. *)
Definition strip (s : string) : string := rstrip (lstrip s).

(** [s.replace(c, "")] for a one-character [c]. *)
Fixpoint remove_char (c : ascii) (s : string) : string :=
  match s with
  | EmptyString => EmptyString
  | String d t => if Ascii.eqb d c then remove_char c t else String d (remove_char c t)
  end.

(** [s.replace(c, "", 1)] for a one-character [c]. *)
Fixpoint remove_first_char (c : ascii) (s : string) : string :=
  match s with
  | EmptyString => EmptyString
  | String d t => if Ascii.eqb d c then t else String d (remove_first_char c t)
  end.

(** [s.startswith(p)]. *)
Definition startswith (s p : string) : bool := prefix p s.

(** [needle in hay]. *)
Fixpoint contains (needle hay : string) : bool :=
  prefix needle hay ||
  match hay with
  | EmptyString => false
  | String _ t => contains needle t
  end.

Definition is_digit (c : ascii) : bool := in_range 48 57 c.

Fixpoint all_digits (s : string) : bool :=
  match s with
  | EmptyString => true
  | String c t => is_digit c && all_digits t
  end.

(** [s.isdigit()]: non-empty and made of digits only. *)
Definition isdigit (s : string) : bool :=
  match s with
  | EmptyString => false
  | _ => all_digits s
  end.

(** [" ".join(l)]. *)
Fixpoint join_space (l : list string) : string :=
  match l with
  | [] => EmptyString
  | [s] => s
  | s :: t => s ++ " " ++ join_space t
  end.

(** Truthiness of a string: [not s] is [true] exactly for the empty one. *)
Definition truthy (s : string) : bool :=
  match s with EmptyString => false | _ => true end.

(** [str(n)] for a natural number, as used by the [Table_<idx>] label. *)
Definition digit_char (n : nat) : ascii := ascii_of_nat (48 + n mod 10).

Fixpoint str_nat_aux (fuel n : nat) (acc : string) : string :=
  match fuel with
  | O => acc
  | S f =>
      let acc' := String (digit_char n) acc in
      if (n <? 10)%nat then acc' else str_nat_aux f (n / 10) acc'
  end.

Definition str_nat (n : nat) : string := str_nat_aux (S n) n EmptyString.

(** ** Exceptions *)

Inductive exn : Type :=
| ValueError
| OverflowError
| IndexError.

Inductive result (A : Type) : Type :=
| Ok (a : A)
| Raise (e : exn).

Arguments Ok {A} a.
Arguments Raise {A} e.

Definition bind {A B : Type} (m : result A) (k : A -> result B) : result B :=
  match m with
  | Ok a => k a
  | Raise e => Raise e
  end.

Notation "x <- m ;; k" := (bind m (fun x => k))
  (at level 61, m at next level, right associativity).

(** [try: m except ValueError: return h]. *)
Definition except_ValueError {A : Type} (m : result A) (h : A) : result A :=
  match m with
  | Raise ValueError => Ok h
  | _ => m
  end.

(** ** Python floats *)

Inductive pyfloat : Type :=
| FFin (q : Q)
| FInf (neg : bool)
| FNan.

Open Scope Z_scope.

(** Rounding of the positive rational [n/d] to binary64, to nearest and ties
    to even, with overflow to infinity from [2^1024] on. *)
Definition b64_scale (n d ex : Z) : Z * Z :=
  if 0 <=? ex then (n, d * 2 ^ ex) else (n * 2 ^ (- ex), d).

Definition b64_exponent (n d : Z) : Z :=
  let ex := Z.max (Z.log2 n - Z.log2 d - 53) (-1074) in
  let '(a, b) := b64_scale n d ex in
  if 2 ^ 53 <=? a / b then ex + 1 else ex.

Definition b64_mantissa (n d ex : Z) : Z :=
  let '(a, b) := b64_scale n d ex in
  let m := a / b in
  let r := a mod b in
  if 2 * r <? b then m
  else if b <? 2 * r then m + 1
  else if Z.even m then m else m + 1.

Definition Q_of_scaled (m ex : Z) : Q :=
  if 0 <=? ex then Qred (Qmake (m * 2 ^ ex) 1)
  else Qred (Qmake m (Z.to_pos (2 ^ (- ex)))).

Definition b64_round (neg : bool) (n d : Z) : pyfloat :=
  if n =? 0 then FFin (Qmake 0 1)
  else
    let ex := b64_exponent n d in
    let m := b64_mantissa n d ex in
    if 1024 <=? Z.log2 m + ex then FInf neg
    else FFin (if neg then Qopp (Q_of_scaled m ex) else Q_of_scaled m ex).

(** The value [(-1)^neg * m * 10^e] as a float. *)
Definition float_of_decimal (neg : bool) (m e : Z) : pyfloat :=
  if 0 <=? e then b64_round neg (m * 10 ^ e) 1
  else b64_round neg m (10 ^ (- e)).

Definition digit_val (c : ascii) : option Z :=
  if is_digit c then Some (Z.of_nat (nat_of_ascii c - 48)) else None.

(** The rest of a [digitpart]: [(["_"] digit)*].  Returns the accumulated
    value, the number of digits read and the unread suffix. *)
Fixpoint digits_tail (acc : Z) (cnt : Z) (s : string) : Z * Z * string :=
  match s with
  | EmptyString => (acc, cnt, s)
  | String c t =>
      match digit_val c with
      | Some v => digits_tail (10 * acc + v) (cnt + 1) t
      | None =>
          if Ascii.eqb c "_" then
            match t with
            | String c2 t2 =>
                match digit_val c2 with
                | Some v => digits_tail (10 * acc + v) (cnt + 1) t2
                | None => (acc, cnt, s)
                end
            | EmptyString => (acc, cnt, s)
            end
          else (acc, cnt, s)
      end
  end.

(** [digitpart ::= digit (["_"] digit)*], continuing the value [acc]. *)
Definition digitpart (acc : Z) (s : string) : option (Z * Z * string) :=
  match s with
  | String c t =>
      match digit_val c with
      | Some v => Some (digits_tail (10 * acc + v) 1 t)
      | None => None
      end
  | EmptyString => None
  end.

(** [number ::= [digitpart] "." digitpart | digitpart ["."]]: the digits as
    one integer, the number of fraction digits, the unread suffix. *)
Definition number (s : string) : option (Z * Z * string) :=
  match digitpart 0 s with
  | Some (i, _, String "." t) =>
      match digitpart i t with
      | Some (m, k, r) => Some (m, k, r)
      | None => Some (i, 0, t)
      end
  | Some (i, _, r) => Some (i, 0, r)
  | None =>
      match s with
      | String "." t => digitpart 0 t
      | _ => None
      end
  end.

Definition sign (s : string) : bool * string :=
  match s with
  | String "-" t => (true, t)
  | String "+" t => (false, t)
  | _ => (false, s)
  end.

(** [exponent ::= ("e" | "E") [sign] digitpart], or nothing. *)
Definition exponent (s : string) : option Z :=
  match s with
  | EmptyString => Some 0
  | String c t =>
      if Ascii.eqb (lower_char c) "e" then
        let '(neg, u) := sign t in
        match digitpart 0 u with
        | Some (e, _, EmptyString) => Some (if neg then - e else e)
        | _ => None
        end
      else None
  end.

Definition absfloatvalue (neg : bool) (s : string) : result pyfloat :=
  let l := lower s in
  if String.eqb l "inf" || String.eqb l "infinity" then Ok (FInf neg)
  else if String.eqb l "nan" then Ok FNan
  else
    match number s with
    | Some (m, k, r) =>
        match exponent r with
        | Some e => Ok (float_of_decimal neg m (e - k))
        | None => Raise ValueError
        end
    | None => Raise ValueError
    end.

(** [float(s)] for a string [s]. *)
Definition float (s : string) : result pyfloat :=
  let '(neg, t) := sign (strip s) in absfloatvalue neg t.

(** The integer part of a rational, rounding towards zero. *)
Definition trunc (q : Q) : Z := Z.quot (Qnum q) (Zpos (Qden q)).

(** [int(x)] for a float [x]: truncation towards zero. *)
Definition int (x : pyfloat) : result Z :=
  match x with
  | FFin q => Ok (trunc q)
  | FInf _ => Raise OverflowError
  | FNan => Raise ValueError
  end.

Close Scope Z_scope.

(** ** Values held by a row dictionary *)

Inductive pyval : Type :=
| VNone
| VStr (s : string)
| VFloat (f : pyfloat)
| VInt (z : Z)
| VBool (b : bool).

Definition of_float (x : option pyfloat) : pyval :=
  match x with Some f => VFloat f | None => VNone end.

Definition of_int (x : option Z) : pyval :=
  match x with Some z => VInt z | None => VNone end.

Definition of_str (x : option string) : pyval :=
  match x with Some s => VStr s | None => VNone end.

(** [d[key]] on the items of a dictionary, [None] for a missing key. *)
Fixpoint lookup (key : string) (d : list (string * pyval)) : option pyval :=
  match d with
  | [] => None
  | (k, v) :: t => if String.eqb k key then Some v else lookup key t
  end.

(** [l'] keeps some elements of [l], in the order of [l]. *)
Inductive subseq {A : Type} : list A -> list A -> Prop :=
| subseq_nil : subseq [] []
| subseq_skip x l' l : subseq l' l -> subseq l' (x :: l)
| subseq_keep x l' l : subseq l' l -> subseq (x :: l') (x :: l).

(** ** DataFrames *)

(** A cell of a DataFrame: [None], a float NaN, or any other value, given by
    its [str()] rendering. *)
Inductive cell : Type :=
| CNone
| CNan
| CVal (s : string).

Definition str (c : cell) : string :=
  match c with
  | CNone => "None"
  | CNan => "nan"
  | CVal s => s
  end.

Definition DataFrame : Type := list (list cell).

(** [df.empty]: no row or no column. *)
Definition df_empty (df : DataFrame) : bool :=
  match df with
  | [] => true
  | r :: _ => (List.length r =? 0)%nat
  end.

(** [df.shape[1]] of a DataFrame with at least one row. *)
Definition shape1 (df : DataFrame) : nat :=
  match df with
  | [] => 0
  | r :: _ => List.length r
  end.

(** [df.iloc[0].tolist()]. *)
Definition iloc0 (df : DataFrame) : result (list cell) :=
  match df with
  | [] => Raise IndexError
  | r :: _ => Ok r
  end.

(** Both scripts define [is_nan], [normalise_header] and [to_float] with the
    same text; they are embedded once. *)
Definition is_nan (x : cell) : bool :=
  match x with
  | CVal _ => false
  | _ => true
  end.

(** [df.dropna(how="all").reset_index(drop=True)]. *)
Definition dropna_all (df : DataFrame) : DataFrame :=
  filter (fun r => negb (forallb is_nan r)) df.

Definition normalise_header (cols : list cell) : list string :=
  map (fun c => if is_nan c then EmptyString else strip (str c)) cols.

(** [" ".join(h.lower() for h in header)]. *)
Definition header_str_of (header : list string) : string :=
  join_space (map lower header).

(** The closure [get] of the row loop, over the column map and the row. *)
Definition get {F : Type} (col_map : F -> option nat) (vals : list cell)
    (col_key : F) : option string :=
  match col_map col_key with
  | None => None
  | Some idx =>
      match nth_error vals idx with
      | None => None
      | Some val => if is_nan val then None else Some (strip (str val))
      end
  end.

Definition to_float (x : option string) : result (option pyfloat) :=
  match x with
  | None => Ok None
  | Some x =>
      let s := strip (remove_char "," x) in
      except_ValueError (f <- float s ;; Ok (Some f)) None
  end.

(** The [try: nps_inch = float(nps_clean) except ValueError: nps_inch = None]
    block, the same in both scripts. *)
Definition nps_inch_of (nps_raw : string) : result (option pyfloat) :=
  let nps_clean := strip (remove_char quote_char nps_raw) in
  except_ValueError (f <- float nps_clean ;; Ok (Some f)) None.

(** ** [DataFrame.drop_duplicates(subset=...)], keeping the first row of each
    key.  pandas holds [None] and NaN of a float column as one missing
    value, which [na_key] reproduces for the key. *)
Section DropDuplicates.
Context {A K : Type} (K_eq_dec : forall a b : K, {a = b} + {a <> b}).
Variable key : A -> K.

Definition seen_in (k : K) (seen : list K) : bool :=
  if in_dec K_eq_dec k seen then true else false.

Fixpoint drop_duplicates_from (seen : list K) (l : list A) : list A :=
  match l with
  | [] => []
  | x :: t =>
      if seen_in (key x) seen then drop_duplicates_from seen t
      else x :: drop_duplicates_from (key x :: seen) t
  end.

Definition drop_duplicates (l : list A) : list A :=
  drop_duplicates_from [] l.
End DropDuplicates.

Definition na_key (x : option pyfloat) : option pyfloat :=
  match x with
  | Some FNan => None
  | _ => x
  end.

Definition pyfloat_eq_dec (a b : pyfloat) : {a = b} + {a <> b}.
Proof.
  decide equality.
  - destruct q as [n1 d1], q0 as [n2 d2].
    destruct (Z.eq_dec n1 n2); [| right; congruence].
    destruct (Pos.eq_dec d1 d2); [left | right]; congruence.
  - apply Bool.bool_dec.
Defined.

Definition option_eq_dec {A : Type} (dec : forall a b : A, {a = b} + {a <> b})
    (x y : option A) : {x = y} + {x <> y}.
Proof. decide equality. Defined.

Definition pair_eq_dec {A B : Type} (da : forall a b : A, {a = b} + {a <> b})
    (db : forall a b : B, {a = b} + {a <> b}) (x y : A * B) : {x = y} + {x <> y}.
Proof. decide equality. Defined.

(** ** extract_asme_b165.py *)

Module B165.

Definition STANDARD_NAME : string := "ASME B16.5-2022".
Definition SOURCE_FILE_NAME : string := "ASME B16.5.pdf".
Definition DEFAULT_FLANGE_CATEGORY : string := "CS".

Definition looks_like_flange_table (df : DataFrame) : bool :=
  if df_empty df || (shape1 df <? 4)%nat then false
  else
    match iloc0 df with
    | Raise _ => false
    | Ok first =>
        let header := normalise_header first in
        let header_str := header_str_of header in
        let has_nps := contains "nps" header_str || contains "nominal pipe size" header_str in
        let has_class := contains "class" header_str || contains "rating" header_str in
        let has_od := contains "outside" header_str || contains "o.d." header_str
                      || contains "od" header_str in
        let has_bc := contains "bolt circle" header_str || contains "bc" header_str in
        has_nps && (has_class || has_od || has_bc)
    end.

(** The keys of [col_map]. *)
Inductive field : Type :=
| nps | dn | od | thickness | bc | bolt_hole_dia | num_bolts | bolt_size
| bore | hub_dia | hub_len | weight.

Definition field_eq_dec (a b : field) : {a = b} + {a <> b}.
Proof. decide equality. Defined.

Definition col_map_t : Type := field -> option nat.

(** The initial dictionary: every key bound to [None]. *)
Definition col_map_init : col_map_t := fun _ => None.

(** [col_map[k] = idx]. *)
Definition set (m : col_map_t) (k : field) (idx : nat) : col_map_t :=
  fun k' => if field_eq_dec k' k then Some idx else m k'.

(** The [if]/[elif] chain of the header loop: the key the first true
    condition assigns, for the lower-cased column name. *)
Definition rule_of (lower : string) : option field :=
  if contains "nps" lower || contains "nominal" lower then Some nps
  else if startswith lower "dn" then Some dn
  else if contains "outside" lower && (contains "in" lower || contains "inch" lower)
    then Some od
  else if (contains "thickness" lower || contains "thick" lower)
          && (contains "in" lower || contains "inch" lower) then Some thickness
  else if contains "bolt circle" lower || contains "bc" lower then Some bc
  else if contains "bolt hole" lower || (contains "bolt" lower && contains "dia" lower)
    then Some bolt_hole_dia
  else if contains "number" lower && contains "bolt" lower || contains "no. of bolts" lower
    then Some num_bolts
  else if contains "bolt size" lower || (contains "bolt" lower && contains "size" lower)
    then Some bolt_size
  else if contains "bore" lower then Some bore
  else if contains "hub" lower && contains "dia" lower then Some hub_dia
  else if contains "hub" lower && (contains "length" lower || contains "len" lower)
    then Some hub_len
  else if contains "weight" lower && contains "kg" lower then Some weight
  else None.

(** One iteration of [for idx, col_name in enumerate(header)]. *)
Definition resolve_step (m : col_map_t) (idx : nat) (col_name : string) : col_map_t :=
  match rule_of (lower col_name) with
  | Some k => set m k idx
  | None => m
  end.

Fixpoint resolve_from (idx : nat) (header : list string) (m : col_map_t) : col_map_t :=
  match header with
  | [] => m
  | col_name :: t => resolve_from (S idx) t (resolve_step m idx col_name)
  end.

Definition resolve_columns (header : list string) : col_map_t :=
  resolve_from 0 header col_map_init.

Definition to_int (x : option string) : result (option Z) :=
  match x with
  | None => Ok None
  | Some x =>
      let s := strip (remove_char "," x) in
      except_ValueError (f <- float s ;; n <- int f ;; Ok (Some n)) None
  end.

(** The dictionary [row], key by key. *)
Record row : Type := mk_row {
  standard : string;
  nps_inch : option pyfloat;
  dn_mm : option Z;
  rating_class : option Z;
  type : string;
  facing : string;
  bore_inch : option pyfloat;
  od_inch : option pyfloat;
  thickness_inch : option pyfloat;
  hub_diameter_inch : option pyfloat;
  hub_length_inch : option pyfloat;
  bolt_circle_inch : option pyfloat;
  bolt_hole_diameter_inch : option pyfloat;
  number_of_bolts : option Z;
  bolt_size_inch : option string;
  weight_kg : option pyfloat;
  flange_category : string;
  b165_table : string;
  b165_page : option Z;
  source_file : string;
  is_active : bool
}.

(** [x or d] for an optional string argument. *)
Definition or_default (x : option string) (d : string) : string :=
  match x with
  | Some s => if truthy s then s else d
  | None => d
  end.

(** The body of [for _, raw_row in data.iterrows()]: [Ok None] for a row
    left by [continue], [Ok (Some r)] for an appended row. *)
Definition parse_flange_row (col_map : col_map_t) (rating_class : option Z)
    (flange_type facing : option string) (vals : list cell) : result (option row) :=
  match get col_map vals nps with
  | None => Ok None
  | Some nps_raw =>
      if negb (truthy nps_raw) then Ok None
      else
        nps_inch <- nps_inch_of nps_raw ;;
        dn_mm <- to_int (get col_map vals dn) ;;
        bore_inch <- to_float (get col_map vals bore) ;;
        od_inch <- to_float (get col_map vals od) ;;
        thickness_inch <- to_float (get col_map vals thickness) ;;
        hub_diameter_inch <- to_float (get col_map vals hub_dia) ;;
        hub_length_inch <- to_float (get col_map vals hub_len) ;;
        bolt_circle_inch <- to_float (get col_map vals bc) ;;
        bolt_hole_diameter_inch <- to_float (get col_map vals bolt_hole_dia) ;;
        number_of_bolts <- to_int (get col_map vals num_bolts) ;;
        weight_kg <- to_float (get col_map vals weight) ;;
        Ok (Some {|
          standard := STANDARD_NAME;
          nps_inch := nps_inch;
          dn_mm := dn_mm;
          rating_class := rating_class;
          type := or_default flange_type "WN";
          facing := or_default facing "RF";
          bore_inch := bore_inch;
          od_inch := od_inch;
          thickness_inch := thickness_inch;
          hub_diameter_inch := hub_diameter_inch;
          hub_length_inch := hub_length_inch;
          bolt_circle_inch := bolt_circle_inch;
          bolt_hole_diameter_inch := bolt_hole_diameter_inch;
          number_of_bolts := number_of_bolts;
          bolt_size_inch := get col_map vals bolt_size;
          weight_kg := weight_kg;
          flange_category := DEFAULT_FLANGE_CATEGORY;
          b165_table := EmptyString;
          b165_page := None;
          source_file := SOURCE_FILE_NAME;
          is_active := true
        |})
  end.

Fixpoint parse_data (col_map : col_map_t) (rating_class : option Z)
    (flange_type facing : option string) (data : list (list cell)) : result (list row) :=
  match data with
  | [] => Ok []
  | vals :: t =>
      r <- parse_flange_row col_map rating_class flange_type facing vals ;;
      rows <- parse_data col_map rating_class flange_type facing t ;;
      Ok (match r with Some x => x :: rows | None => rows end)
  end.

Definition parse_flange_rows (df : DataFrame) (rating_class : option Z)
    (flange_type facing : option string) : result (list row) :=
  let df := dropna_all df in
  first <- iloc0 df ;;
  let header := normalise_header first in
  let data := tl df in
  parse_data (resolve_columns header) rating_class flange_type facing data.

(** [r["b165_table"] = f"Table_{idx}"; r["b165_page"] = None]. *)
Definition stamp (idx : nat) (r : row) : row :=
  {| standard := standard r; nps_inch := nps_inch r; dn_mm := dn_mm r;
     rating_class := rating_class r; type := type r; facing := facing r;
     bore_inch := bore_inch r; od_inch := od_inch r;
     thickness_inch := thickness_inch r;
     hub_diameter_inch := hub_diameter_inch r;
     hub_length_inch := hub_length_inch r;
     bolt_circle_inch := bolt_circle_inch r;
     bolt_hole_diameter_inch := bolt_hole_diameter_inch r;
     number_of_bolts := number_of_bolts r;
     bolt_size_inch := bolt_size_inch r; weight_kg := weight_kg r;
     flange_category := flange_category r;
     b165_table := "Table_" ++ str_nat idx;
     b165_page := None;
     source_file := source_file r; is_active := is_active r |}.

(** The table loop of [main]; [tables] holds what [extract_tables]
    returned and [idx] counts the tables already seen. *)
Fixpoint collect_rows (idx : nat) (tables : list (option DataFrame)) : result (list row) :=
  match tables with
  | [] => Ok []
  | odf :: t =>
      here <-
        match odf with
        | None => Ok []
        | Some df =>
            if df_empty df then Ok []
            else if negb (looks_like_flange_table df) then Ok []
            else
              rows <- parse_flange_rows df None None None ;;
              Ok (map (stamp idx) rows)
        end ;;
      rest <- collect_rows (S idx) t ;;
      Ok (here ++ rest)%list
  end.

Definition key_t : Type := option pyfloat * option Z * string * string.

Definition key_eq_dec : forall a b : key_t, {a = b} + {a <> b} :=
  pair_eq_dec (pair_eq_dec (pair_eq_dec (option_eq_dec pyfloat_eq_dec)
    (option_eq_dec Z.eq_dec)) string_dec) string_dec.

(** [subset=["nps_inch", "rating_class", "type", "facing"]]. *)
Definition dedup_key (r : row) : key_t :=
  (na_key (nps_inch r), rating_class r, type r, facing r).

(** [main] after [extract_tables]: [Ok None] when it returns on the
    warning without writing, [Ok (Some rows)] with the rows written. *)
Definition main (tables : list (option DataFrame)) : result (option (list row)) :=
  all_rows <- collect_rows 0 tables ;;
  match all_rows with
  | [] => Ok None
  | _ => Ok (Some (drop_duplicates key_eq_dec dedup_key all_rows))
  end.

(** The items of the dictionary [row], in the order of the literal. *)
Definition to_dict (r : row) : list (string * pyval) :=
  [ ("standard", VStr (standard r));
    ("nps_inch", of_float (nps_inch r));
    ("dn_mm", of_int (dn_mm r));
    ("rating_class", of_int (rating_class r));
    ("type", VStr (type r));
    ("facing", VStr (facing r));
    ("bore_inch", of_float (bore_inch r));
    ("od_inch", of_float (od_inch r));
    ("thickness_inch", of_float (thickness_inch r));
    ("hub_diameter_inch", of_float (hub_diameter_inch r));
    ("hub_length_inch", of_float (hub_length_inch r));
    ("bolt_circle_inch", of_float (bolt_circle_inch r));
    ("bolt_hole_diameter_inch", of_float (bolt_hole_diameter_inch r));
    ("number_of_bolts", of_int (number_of_bolts r));
    ("bolt_size_inch", of_str (bolt_size_inch r));
    ("weight_kg", of_float (weight_kg r));
    ("flange_category", VStr (flange_category r));
    ("b165_table", VStr (b165_table r));
    ("b165_page", of_int (b165_page r));
    ("source_file", VStr (source_file r));
    ("is_active", VBool (is_active r)) ].

Definition item (r : row) (key : string) : option pyval := lookup key (to_dict r).

(** The dictionary key that [get(k)] feeds in the row literal. *)
Definition fed_key (k : field) : string :=
  match k with
  | nps => "nps_inch"
  | dn => "dn_mm"
  | od => "od_inch"
  | thickness => "thickness_inch"
  | bc => "bolt_circle_inch"
  | bolt_hole_dia => "bolt_hole_diameter_inch"
  | num_bolts => "number_of_bolts"
  | bolt_size => "bolt_size_inch"
  | bore => "bore_inch"
  | hub_dia => "hub_diameter_inch"
  | hub_len => "hub_length_inch"
  | weight => "weight_kg"
  end.

End B165.

(** ** extract_asme_b3610.py *)

Module B3610.

Definition STANDARD_NAME : string := "ASME B36.10M-2022".
Definition SOURCE_FILE_NAME : string := "ASME B36.10-2022.pdf".
Definition DEFAULT_PIPE_CATEGORY : string := "CS".

Definition looks_like_pipe_table (df : DataFrame) : bool :=
  if df_empty df || (shape1 df <? 4)%nat then false
  else
    match iloc0 df with
    | Raise _ => false
    | Ok first =>
        let header := normalise_header first in
        let header_str := header_str_of header in
        let has_nps := contains "nps" header_str || contains "nominal pipe size" header_str in
        let has_od := contains "outside" header_str || contains "o.d." header_str
                      || contains "od" header_str in
        let has_wall := contains "wall" header_str in
        has_nps && has_od && has_wall
    end.

Definition pressure_series_from_schedule (schedule : string) : string :=
  let sch := remove_char " " (upper schedule) in
  if String.eqb sch "STD" || String.eqb sch "40" || String.eqb sch "40S" then "STD"
  else if String.eqb sch "XS" || String.eqb sch "80" || String.eqb sch "80S" then "XS"
  else if String.eqb sch "XXS" then "XXS"
  else EmptyString.

(** The keys of [col_map]. *)
Inductive field : Type :=
| nps | dn | od_in | od_mm | wall_in | wall_mm | wt_lb_ft | wt_kg_m | schedule.

Definition field_eq_dec (a b : field) : {a = b} + {a <> b}.
Proof. decide equality. Defined.

Definition col_map_t : Type := field -> option nat.

Definition col_map_init : col_map_t := fun _ => None.

Definition set (m : col_map_t) (k : field) (idx : nat) : col_map_t :=
  fun k' => if field_eq_dec k' k then Some idx else m k'.

(** The [if]/[elif] chain of the header loop. *)
Definition rule_of (lower : string) : option field :=
  if contains "nps" lower || contains "nominal" lower then Some nps
  else if startswith lower "dn" then Some dn
  else if contains "outside" lower && (contains "in" lower || contains "inch" lower)
    then Some od_in
  else if contains "outside" lower && (contains "mm" lower || contains "millimeter" lower)
    then Some od_mm
  else if (contains "wall" lower || contains "thick" lower)
          && (contains "in" lower || contains "inch" lower) then Some wall_in
  else if (contains "wall" lower || contains "thick" lower)
          && (contains "mm" lower || contains "millimeter" lower) then Some wall_mm
  else if (contains "weight" lower || contains "wt" lower)
          && (contains "lb" lower || contains "lbs" lower) then Some wt_lb_ft
  else if (contains "weight" lower || contains "wt" lower) && contains "kg" lower
    then Some wt_kg_m
  else if contains "sched" lower || contains "sch" lower then Some schedule
  else None.

Definition resolve_step (m : col_map_t) (idx : nat) (col_name : string) : col_map_t :=
  match rule_of (lower col_name) with
  | Some k => set m k idx
  | None => m
  end.

Fixpoint resolve_from (idx : nat) (header : list string) (m : col_map_t) : col_map_t :=
  match header with
  | [] => m
  | col_name :: t => resolve_from (S idx) t (resolve_step m idx col_name)
  end.

Definition resolve_columns (header : list string) : col_map_t :=
  resolve_from 0 header col_map_init.

(** [int(float(dn_val)) if dn_val and
    dn_val.replace(".", "", 1).isdigit() else None]; no handler surrounds
    it. *)
Definition dn_mm_of (dn_val : option string) : result (option Z) :=
  match dn_val with
  | None => Ok None
  | Some v =>
      if truthy v && isdigit (remove_first_char "." v) then
        f <- float v ;; n <- int f ;; Ok (Some n)
      else Ok None
  end.

(** The dictionary [row], key by key; the keys [od_mm] and [schedule]
    carry a trailing underscore, their names being those of two keys of
    [col_map]. *)
Record row : Type := mk_row {
  standard : string;
  nps_inch : option pyfloat;
  dn_mm : option Z;
  od_inch : option pyfloat;
  od_mm_ : option pyfloat;
  schedule_ : string;
  wall_thickness_inch : option pyfloat;
  wall_thickness_mm : option pyfloat;
  weight_lb_per_ft : option pyfloat;
  weight_kg_per_m : option pyfloat;
  pipe_category : string;
  pressure_series : string;
  nps_display : string;
  b3610_table : string;
  b3610_page : option Z;
  source_file : string;
  is_active : bool
}.

(** [get("schedule") or ""]. *)
Definition or_empty (x : option string) : string :=
  match x with
  | Some s => s
  | None => EmptyString
  end.

Definition parse_pipe_row (col_map : col_map_t) (vals : list cell) : result (option row) :=
  match get col_map vals nps with
  | None => Ok None
  | Some nps_raw =>
      if negb (truthy nps_raw) then Ok None
      else
        dn_mm <- dn_mm_of (get col_map vals dn) ;;
        od_inch <- to_float (get col_map vals od_in) ;;
        od_mm <- to_float (get col_map vals od_mm) ;;
        wall_inch <- to_float (get col_map vals wall_in) ;;
        wall_mm <- to_float (get col_map vals wall_mm) ;;
        wt_lb_ft <- to_float (get col_map vals wt_lb_ft) ;;
        wt_kg_m <- to_float (get col_map vals wt_kg_m) ;;
        let schedule := or_empty (get col_map vals schedule) in
        let nps_display := strip nps_raw in
        nps_inch <- nps_inch_of nps_raw ;;
        Ok (Some {|
          standard := STANDARD_NAME;
          nps_inch := nps_inch;
          dn_mm := dn_mm;
          od_inch := od_inch;
          od_mm_ := od_mm;
          schedule_ := schedule;
          wall_thickness_inch := wall_inch;
          wall_thickness_mm := wall_mm;
          weight_lb_per_ft := wt_lb_ft;
          weight_kg_per_m := wt_kg_m;
          pipe_category := DEFAULT_PIPE_CATEGORY;
          pressure_series := pressure_series_from_schedule schedule;
          nps_display := nps_display;
          b3610_table := EmptyString;
          b3610_page := None;
          source_file := SOURCE_FILE_NAME;
          is_active := true
        |})
  end.

Fixpoint parse_data (col_map : col_map_t) (data : list (list cell)) : result (list row) :=
  match data with
  | [] => Ok []
  | vals :: t =>
      r <- parse_pipe_row col_map vals ;;
      rows <- parse_data col_map t ;;
      Ok (match r with Some x => x :: rows | None => rows end)
  end.

Definition parse_pipe_rows (df : DataFrame) : result (list row) :=
  let df := dropna_all df in
  first <- iloc0 df ;;
  let header := normalise_header first in
  let data := tl df in
  parse_data (resolve_columns header) data.

Definition stamp (idx : nat) (r : row) : row :=
  {| standard := standard r; nps_inch := nps_inch r; dn_mm := dn_mm r;
     od_inch := od_inch r; od_mm_ := od_mm_ r; schedule_ := schedule_ r;
     wall_thickness_inch := wall_thickness_inch r;
     wall_thickness_mm := wall_thickness_mm r;
     weight_lb_per_ft := weight_lb_per_ft r;
     weight_kg_per_m := weight_kg_per_m r;
     pipe_category := pipe_category r;
     pressure_series := pressure_series r;
     nps_display := nps_display r;
     b3610_table := "Table_" ++ str_nat idx;
     b3610_page := None;
     source_file := source_file r; is_active := is_active r |}.

Fixpoint collect_rows (idx : nat) (tables : list (option DataFrame)) : result (list row) :=
  match tables with
  | [] => Ok []
  | odf :: t =>
      here <-
        match odf with
        | None => Ok []
        | Some df =>
            if df_empty df then Ok []
            else if negb (looks_like_pipe_table df) then Ok []
            else
              rows <- parse_pipe_rows df ;;
              Ok (map (stamp idx) rows)
        end ;;
      rest <- collect_rows (S idx) t ;;
      Ok (here ++ rest)%list
  end.

Definition key_t : Type := option pyfloat * string * option pyfloat.

Definition key_eq_dec : forall a b : key_t, {a = b} + {a <> b} :=
  pair_eq_dec (pair_eq_dec (option_eq_dec pyfloat_eq_dec) string_dec)
    (option_eq_dec pyfloat_eq_dec).

(** [subset=["nps_inch", "schedule", "wall_thickness_inch"]]. *)
Definition dedup_key (r : row) : key_t :=
  (na_key (nps_inch r), schedule_ r, na_key (wall_thickness_inch r)).

Definition main (tables : list (option DataFrame)) : result (option (list row)) :=
  all_rows <- collect_rows 0 tables ;;
  match all_rows with
  | [] => Ok None
  | _ => Ok (Some (drop_duplicates key_eq_dec dedup_key all_rows))
  end.

(** The items of the dictionary [row], in the order of the literal. *)
Definition to_dict (r : row) : list (string * pyval) :=
  [ ("standard", VStr (standard r));
    ("nps_inch", of_float (nps_inch r));
    ("dn_mm", of_int (dn_mm r));
    ("od_inch", of_float (od_inch r));
    ("od_mm", of_float (od_mm_ r));
    ("schedule", VStr (schedule_ r));
    ("wall_thickness_inch", of_float (wall_thickness_inch r));
    ("wall_thickness_mm", of_float (wall_thickness_mm r));
    ("weight_lb_per_ft", of_float (weight_lb_per_ft r));
    ("weight_kg_per_m", of_float (weight_kg_per_m r));
    ("pipe_category", VStr (pipe_category r));
    ("pressure_series", VStr (pressure_series r));
    ("nps_display", VStr (nps_display r));
    ("b3610_table", VStr (b3610_table r));
    ("b3610_page", of_int (b3610_page r));
    ("source_file", VStr (source_file r));
    ("is_active", VBool (is_active r)) ].

Definition item (r : row) (key : string) : option pyval := lookup key (to_dict r).

(** The dictionary key that [get(k)] feeds in the row literal. *)
Definition fed_key (k : field) : string :=
  match k with
  | nps => "nps_inch"
  | dn => "dn_mm"
  | od_in => "od_inch"
  | od_mm => "od_mm"
  | wall_in => "wall_thickness_inch"
  | wall_mm => "wall_thickness_mm"
  | wt_lb_ft => "weight_lb_per_ft"
  | wt_kg_m => "weight_kg_per_m"
  | schedule => "schedule"
  end.

End B3610.

(** What every row of the flange driver holds in the last three parts of
    its key. *)
Definition default_context (r : B165.row) : Prop :=
  B165.rating_class r = None /\ B165.type r = "WN" /\ B165.facing r = "RF".

(** ** Notions used by the properties of the whole scripts *)

(** Every character of [s] satisfies [p]. *)
Fixpoint all_chars (p : ascii -> bool) (s : string) : bool :=
  match s with
  | EmptyString => true
  | String c t => p c && all_chars p t
  end.

Definition not_space (c : ascii) : bool := negb (Ascii.eqb c " ").

(** The test [if not nps_raw: continue] of the row loops, on the cell under
    key [k]: [true] when the row goes on. *)
Definition cell_present {F : Type} (col_map : F -> option nat) (vals : list cell)
    (k : F) : bool :=
  match get col_map vals k with
  | Some s => truthy s
  | None => false
  end.

(** A character of an unsigned decimal numeral: a digit or the dot. *)
Definition digit_or_dot (c : ascii) : bool := is_digit c || Ascii.eqb c ".".

(** * Properties *)

Open Scope list_scope.
Open Scope nat_scope.

(** ** The float model on a few literals *)

Example float_6_00 : float "6.00" = Ok (FFin (6 # 1)).
Proof. vm_compute. reflexivity. Qed.
Example float_4_75 : float "4.75" = Ok (FFin (19 # 4)).
Proof. vm_compute. reflexivity. Qed.
Example float_frac : float "1/8" = Raise ValueError.
Proof. vm_compute. reflexivity. Qed.
Example float_tenth : float "0.1" = Ok (FFin (3602879701896397 # 36028797018963968)).
Proof. vm_compute. reflexivity. Qed.
Example float_big : float "1e309" = Ok (FInf false).
Proof. vm_compute. reflexivity. Qed.
Example float_max : float "1.7976931348623157e308" = Ok (FFin (179769313486231570814527423731704356798070567525844996598917476803157260780028538760589558632766878171540458953514382464234321326889464182768467546703537516986049910576551282076245490090389328944075868508455133942304583236903222948165808559332123348274797826204144723168738177180919299881250404026184124858368 # 1)).
Proof. vm_compute. reflexivity. Qed.
Example float_round_up : bind (float "0.99999999999999999999") int = Ok 1%Z.
Proof. vm_compute. reflexivity. Qed.
Example float_sub : float "5e-324" = float "4e-324".
Proof. vm_compute. reflexivity. Qed.
Example float_under : float "2e-324" = Ok (FFin 0).
Proof. vm_compute. reflexivity. Qed.
Example strip_ex : strip "  a b	" = "a b".
Proof. vm_compute. reflexivity. Qed.
Example str_nat_ex : str_nat 120 = "120".
Proof. vm_compute. reflexivity. Qed.

(** ** Characters and strings *)

(** Splits conjunctions only, leaving equations to be computed. *)
Ltac split_all := repeat match goal with |- _ /\ _ => split end.

Ltac by_ascii c := destruct c as [[] [] [] [] [] [] [] []]; vm_compute; reflexivity.

Lemma upper_char_idem (c : ascii) : upper_char (upper_char c) = upper_char c.
Proof. by_ascii c. Qed.

Lemma upper_lower_char (c : ascii) : upper_char (lower_char c) = upper_char c.
Proof. by_ascii c. Qed.

Lemma upper_char_space (c : ascii) :
  Ascii.eqb (upper_char c) " " = Ascii.eqb c " ".
Proof. by_ascii c. Qed.

Lemma upper_idem (s : string) : upper (upper s) = upper s.
Proof.
  induction s as [| c s IH]; simpl; [reflexivity |].
  unfold upper in *; simpl. now rewrite upper_char_idem, IH.
Qed.

Lemma upper_lower (s : string) : upper (lower s) = upper s.
Proof.
  induction s as [| c s IH]; simpl; [reflexivity |].
  unfold upper, lower in *; simpl. now rewrite upper_lower_char, IH.
Qed.

Lemma remove_space_upper (s : string) :
  remove_char " " (upper s) = upper (remove_char " " s).
Proof.
  induction s as [| c s IH]; [reflexivity |].
  unfold upper in *; simpl. rewrite upper_char_space.
  destruct (Ascii.eqb c " "); simpl; now rewrite IH.
Qed.

Lemma remove_char_idem (c : ascii) (s : string) :
  remove_char c (remove_char c s) = remove_char c s.
Proof.
  induction s as [| d s IH]; [reflexivity |]. simpl.
  destruct (Ascii.eqb d c) eqn:E; [assumption |].
  simpl. now rewrite E, IH.
Qed.

(** ** Deduplication *)

Section DropDuplicatesFacts.
Context {A K : Type} (dec : forall a b : K, {a = b} + {a <> b}).
Variable key : A -> K.

Abbreviation dd := (drop_duplicates_from dec key).

Lemma seen_in_true k seen : seen_in dec k seen = true <-> In k seen.
Proof. unfold seen_in. destruct (in_dec dec k seen); split; auto; discriminate. Qed.

Lemma seen_in_false k seen : seen_in dec k seen = false <-> ~ In k seen.
Proof. unfold seen_in. destruct (in_dec dec k seen); split; auto; try discriminate; contradiction. Qed.

Lemma dd_subseq l : forall seen, subseq (dd seen l) l.
Proof.
  induction l as [| x l IH]; intros seen; simpl; [constructor |].
  destruct (seen_in dec (key x) seen); constructor; apply IH.
Qed.

Lemma dd_fresh l : forall seen y, In y (dd seen l) -> ~ In (key y) seen.
Proof.
  induction l as [| x l IH]; intros seen y; simpl; [tauto |].
  destruct (seen_in dec (key x) seen) eqn:E.
  - apply IH.
  - intros [<- | H]; [now apply seen_in_false |].
    intros Hs. apply (IH _ _ H). now right.
Qed.

Lemma dd_nodup l : forall seen, NoDup (map key (dd seen l)).
Proof.
  induction l as [| x l IH]; intros seen; simpl; [constructor |].
  destruct (seen_in dec (key x) seen); [apply IH |].
  simpl. constructor; [| apply IH].
  intros H. apply in_map_iff in H. destruct H as (y & Hk & Hy).
  apply dd_fresh in Hy. apply Hy. left. congruence.
Qed.

Lemma dd_first l : forall seen y, In y (dd seen l) ->
  exists l1 l2, l = l1 ++ y :: l2 /\ forall z, In z l1 -> key z <> key y.
Proof.
  induction l as [| x l IH]; intros seen y; simpl; [tauto |].
  destruct (seen_in dec (key x) seen) eqn:E.
  - intros H. pose proof (dd_fresh _ _ _ H) as Hf.
    destruct (IH _ _ H) as (l1 & l2 & -> & Hl1).
    exists (x :: l1), l2. split; [reflexivity |].
    intros z [<- | Hz]; [| now apply Hl1].
    intros Hk. apply Hf. rewrite <- Hk. now apply seen_in_true.
  - intros [<- | H].
    + exists [], l. split; [reflexivity |]. intros z [].
    + pose proof (dd_fresh _ _ _ H) as Hf.
      destruct (IH _ _ H) as (l1 & l2 & -> & Hl1).
      exists (x :: l1), l2. split; [reflexivity |].
      intros z [<- | Hz]; [| now apply Hl1].
      intros Hk. apply Hf. left. exact Hk.
Qed.

Lemma dd_complete l : forall seen x, In x l -> ~ In (key x) seen ->
  exists y, In y (dd seen l) /\ key y = key x.
Proof.
  induction l as [| a l IH]; intros seen x; simpl; [tauto |].
  intros [-> | Hx] Hs.
  - apply seen_in_false in Hs. rewrite Hs. exists x. split; [now left | reflexivity].
  - destruct (seen_in dec (key a) seen) eqn:E; [now apply IH |].
    destruct (dec (key a) (key x)) as [Heq | Hne].
    + exists a. split; [now left | assumption].
    + destruct (IH (key a :: seen) x Hx) as (y & Hy & Hk).
      * intros [H | H]; [contradiction | now apply Hs].
      * exists y. split; [now right | assumption].
Qed.

Lemma dd_fixed l : forall seen, NoDup (map key l) ->
  (forall x, In x l -> ~ In (key x) seen) -> dd seen l = l.
Proof.
  induction l as [| x l IH]; intros seen Hnd Hs; simpl; [reflexivity |].
  simpl in Hnd. inversion Hnd as [| ? ? Hx Hnd']; subst.
  assert (E : seen_in dec (key x) seen = false)
    by (apply seen_in_false, Hs; now left).
  rewrite E. f_equal. apply IH; [assumption |].
  intros z Hz [H | H].
  - apply Hx. rewrite H. now apply in_map.
  - apply (Hs z); [now right | assumption].
Qed.
End DropDuplicatesFacts.

(** C8. [drop_duplicates] keeps, in input order, exactly the first record of
    each key (keys compared by equality, a missing component equal to a
    missing one), and leaves its own output, and any list whose keys are
    already distinct, unchanged. *)
Theorem drop_duplicates_first_wins_idempotent
    {A K : Type} (dec : forall a b : K, {a = b} + {a <> b}) (key : A -> K)
    (l : list A) :
  let out := drop_duplicates dec key l in
  subseq out l /\
  NoDup (map key out) /\
  (forall y, In y out ->
     exists l1 l2, l = l1 ++ y :: l2 /\ forall z, In z l1 -> key z <> key y) /\
  (forall x, In x l -> exists y, In y out /\ key y = key x) /\
  drop_duplicates dec key out = out /\
  (NoDup (map key l) -> out = l).
Proof.
  unfold drop_duplicates. cbv zeta. split_all.
  - apply dd_subseq.
  - apply dd_nodup.
  - apply dd_first.
  - intros x Hx. apply dd_complete; auto.
  - apply dd_fixed; [apply dd_nodup | intros x _ []].
  - intros Hnd. apply dd_fixed; [assumption | intros x _ []].
Qed.

(** ** Header resolution *)

Lemma last_split {A : Type} (P : A -> Prop) (Pdec : forall a, {P a} + {~ P a})
    (l : list A) :
  (forall c, In c l -> ~ P c) \/
  (exists h1 c h2, l = h1 ++ c :: h2 /\ P c /\ forall c', In c' h2 -> ~ P c').
Proof.
  induction l as [| a l [IH | (h1 & c & h2 & -> & Hc & Hh2)]].
  - left. intros c [].
  - destruct (Pdec a) as [Ha | Ha].
    + right. exists [], a, l. auto.
    + left. intros c [<- | Hc]; auto.
  - right. exists (a :: h1), c, h2. auto.
Qed.

Lemma nth_error_after {A : Type} (h1 h2 : list A) (c c' : A) (j' : nat) :
  List.length h1 < j' -> nth_error (h1 ++ c :: h2) j' = Some c' -> In c' h2.
Proof.
  intros Hlt H.
  rewrite nth_error_app2 in H by lia.
  destruct (j' - List.length h1) as [| n] eqn:E; [lia |].
  simpl in H. eapply nth_error_In; eassumption.
Qed.

(** The header loops of the two scripts differ in the keys and the rules
    only.  The section proves their common properties from the two equations
    that define the loop; each script then supplies its own loop. *)
Section Resolver.
Context {F : Type} (dec : forall a b : F, {a = b} + {a <> b}).
Variable rule : string -> option F.
Variable resolve_from : nat -> list string -> (F -> option nat) -> F -> option nat.

Hypothesis resolve_nil : forall idx m, resolve_from idx [] m = m.
Hypothesis resolve_cons : forall idx c t m,
  resolve_from idx (c :: t) m =
  resolve_from (S idx) t
    (match rule (lower c) with
     | Some k => fun k' => if dec k' k then Some idx else m k'
     | None => m
     end).

Lemma resolve_from_keep : forall header idx m k,
  (forall c, In c header -> rule (lower c) <> Some k) ->
  resolve_from idx header m k = m k.
Proof.
  intros header; induction header as [| c header IH]; intros idx m k Hno.
  - now rewrite resolve_nil.
  - rewrite resolve_cons, IH by (intros c' Hc'; apply Hno; now right).
    destruct (rule (lower c)) as [k' |] eqn:E; [| reflexivity].
    destruct (dec k k') as [-> | Hne]; [| reflexivity].
    exfalso. apply (Hno c); [now left | exact E].
Qed.

Lemma resolve_from_last : forall h1 idx m c h2 k,
  rule (lower c) = Some k ->
  (forall c', In c' h2 -> rule (lower c') <> Some k) ->
  resolve_from idx (h1 ++ c :: h2) m k = Some (idx + List.length h1).
Proof.
  intros h1; induction h1 as [| a h1 IH]; intros idx m c h2 k Hc Hh2.
  - simpl. rewrite resolve_cons, resolve_from_keep by assumption.
    rewrite Hc. destruct (dec k k); [f_equal; lia | contradiction].
  - simpl. rewrite resolve_cons, IH by assumption. f_equal. lia.
Qed.

Lemma resolve_from_last_match header m k j :
  m k = None ->
  resolve_from 0 header m k = Some j <->
  exists c, nth_error header j = Some c /\ rule (lower c) = Some k /\
    forall j' c', j < j' -> nth_error header j' = Some c' ->
      rule (lower c') <> Some k.
Proof.
  intros Hm. split.
  - intros H.
    destruct (last_split (fun c => rule (lower c) = Some k)
                (fun c => option_eq_dec dec _ _) header)
      as [Hno | (h1 & c & h2 & -> & Hc & Hh2)].
    + rewrite resolve_from_keep in H by assumption. congruence.
    + rewrite resolve_from_last in H by assumption.
      injection H as <-. exists c. simpl. split_all.
      * rewrite nth_error_app2 by lia. now rewrite Nat.sub_diag.
      * assumption.
      * intros j' c' Hlt Hn. apply Hh2. eapply nth_error_after; eassumption.
  - intros (c & Hn & Hc & Hlater).
    destruct (nth_error_split _ _ Hn) as (h1 & h2 & -> & Hlen).
    rewrite resolve_from_last; [now rewrite Hlen | assumption |].
    intros c' Hin. destruct (In_nth_error _ _ Hin) as (n & Hn').
    apply (Hlater (S (List.length h1 + n)) c'); [lia |].
    rewrite nth_error_app2 by lia.
    replace (S (List.length h1 + n) - List.length h1) with (S n) by lia.
    exact Hn'.
Qed.

Lemma resolve_from_unresolved header m k :
  m k = None ->
  resolve_from 0 header m k = None <->
  forall j c, nth_error header j = Some c -> rule (lower c) <> Some k.
Proof.
  intros Hm. split.
  - intros H j c Hn Hc.
    destruct (last_split (fun c => rule (lower c) = Some k)
                (fun c => option_eq_dec dec _ _) header)
      as [Hno | (h1 & c0 & h2 & -> & Hc0 & Hh2)].
    + apply (Hno c); [eapply nth_error_In; eassumption | assumption].
    + rewrite resolve_from_last in H by assumption. discriminate.
  - intros Hno. rewrite resolve_from_keep; [assumption |].
    intros c Hin. destruct (In_nth_error _ _ Hin) as (n & Hn). eauto.
Qed.
End Resolver.

Lemma B165_resolve_columns_last header k j :
  B165.resolve_columns header k = Some j <->
  exists c, nth_error header j = Some c /\ B165.rule_of (lower c) = Some k /\
    forall j' c', j < j' -> nth_error header j' = Some c' ->
      B165.rule_of (lower c') <> Some k.
Proof.
  apply (resolve_from_last_match B165.field_eq_dec B165.rule_of B165.resolve_from);
    reflexivity.
Qed.

Lemma B3610_resolve_columns_last header k j :
  B3610.resolve_columns header k = Some j <->
  exists c, nth_error header j = Some c /\ B3610.rule_of (lower c) = Some k /\
    forall j' c', j < j' -> nth_error header j' = Some c' ->
      B3610.rule_of (lower c') <> Some k.
Proof.
  apply (resolve_from_last_match B3610.field_eq_dec B3610.rule_of B3610.resolve_from);
    reflexivity.
Qed.

Lemma B165_resolve_columns_unresolved header k :
  B165.resolve_columns header k = None <->
  forall j c, nth_error header j = Some c -> B165.rule_of (lower c) <> Some k.
Proof.
  apply (resolve_from_unresolved B165.field_eq_dec B165.rule_of B165.resolve_from);
    reflexivity.
Qed.

Lemma B3610_resolve_columns_unresolved header k :
  B3610.resolve_columns header k = None <->
  forall j c, nth_error header j = Some c -> B3610.rule_of (lower c) <> Some k.
Proof.
  apply (resolve_from_unresolved B3610.field_eq_dec B3610.rule_of B3610.resolve_from);
    reflexivity.
Qed.

Section ResolverInjective.
Context {F : Type} (rule : string -> option F).
Variable resolve_columns : list string -> F -> option nat.

Hypothesis resolve_last : forall header k j,
  resolve_columns header k = Some j ->
  exists c, nth_error header j = Some c /\ rule (lower c) = Some k.

(** A column index is bound to one key at most. *)
Lemma resolve_columns_injective header k1 k2 j :
  resolve_columns header k1 = Some j -> resolve_columns header k2 = Some j ->
  k1 = k2.
Proof.
  intros H1 H2.
  destruct (resolve_last _ _ _ H1) as (c1 & Hn1 & Hr1).
  destruct (resolve_last _ _ _ H2) as (c2 & Hn2 & Hr2).
  congruence.
Qed.
End ResolverInjective.

Lemma B3610_resolve_columns_bound header k :
  (exists j c, nth_error header j = Some c /\ B3610.rule_of (lower c) = Some k) ->
  exists a, B3610.resolve_columns header k = Some a.
Proof.
  intros (j & c & Hn & Hc).
  destruct (B3610.resolve_columns header k) as [a |] eqn:E; [now exists a |].
  exfalso. eapply B3610_resolve_columns_unresolved; eassumption.
Qed.

Lemma B3610_resolve_columns_distinct header k1 k2 a b :
  k1 <> k2 ->
  B3610.resolve_columns header k1 = Some a ->
  B3610.resolve_columns header k2 = Some b -> a <> b.
Proof.
  intros Hne H1 H2 ->. apply Hne.
  apply (resolve_columns_injective B3610.rule_of B3610.resolve_columns) with header b;
    try assumption.
  intros h k j H. apply B3610_resolve_columns_last in H.
  destruct H as (c & Hn & Hc & _). eauto.
Qed.

(** C1 (as amended).  Per column the first rule of the chain that matches
    decides the key; per key the last column deciding for it is bound, in
    both scripts: a later column overwrites the binding of an earlier
    one.  A key for which no column decides is unresolved. *)
Theorem resolve_columns_last_match_wins :
  (forall header k j,
     B165.resolve_columns header k = Some j <->
     exists c, nth_error header j = Some c /\ B165.rule_of (lower c) = Some k /\
       forall j' c', j < j' -> nth_error header j' = Some c' ->
         B165.rule_of (lower c') <> Some k) /\
  (forall header k,
     B165.resolve_columns header k = None <->
     forall j c, nth_error header j = Some c -> B165.rule_of (lower c) <> Some k) /\
  (forall header k j,
     B3610.resolve_columns header k = Some j <->
     exists c, nth_error header j = Some c /\ B3610.rule_of (lower c) = Some k /\
       forall j' c', j < j' -> nth_error header j' = Some c' ->
         B3610.rule_of (lower c') <> Some k) /\
  (forall header k,
     B3610.resolve_columns header k = None <->
     forall j c, nth_error header j = Some c -> B3610.rule_of (lower c) <> Some k).
Proof.
  split_all;
    first [ apply B165_resolve_columns_last | apply B3610_resolve_columns_last
          | apply B165_resolve_columns_unresolved
          | apply B3610_resolve_columns_unresolved ].
Qed.

(** The header [NPS | Nominal Pipe Size | OD (in) | Wall (in)]: columns 0
    and 1 both decide for the key [nps], which ends bound to column 1. *)
Lemma resolve_columns_last_match_wins_witness :
  B165.resolve_columns ["NPS"; "Nominal Pipe Size"; "OD (in)"; "Wall (in)"] B165.nps
    = Some 1 /\
  B3610.resolve_columns ["NPS"; "Nominal Pipe Size"; "OD (in)"; "Wall (in)"] B3610.nps
    = Some 1.
Proof.
  destruct resolve_columns_last_match_wins as (H1 & _ & H3 & _).
  split; [apply H1 | apply H3];
    (exists "Nominal Pipe Size";
     split; [reflexivity | split; [vm_compute; reflexivity |]];
     intros [| [| [| [| j']]]] c' Hlt Hn; try lia;
     [ injection Hn as <-; vm_compute; discriminate
     | injection Hn as <-; vm_compute; discriminate
     | destruct j'; discriminate ]).
Defined.

(** C1 (as stated) fails: first-match-wins per key does not hold of either
    header loop. *)
Lemma first_match_wins_counterexample :
  ~ (forall header k i j ci cj,
       i < j -> nth_error header i = Some ci -> nth_error header j = Some cj ->
       B165.rule_of (lower ci) = Some k -> B165.rule_of (lower cj) = Some k ->
       B165.resolve_columns header k = Some i) /\
  ~ (forall header k i j ci cj,
       i < j -> nth_error header i = Some ci -> nth_error header j = Some cj ->
       B3610.rule_of (lower ci) = Some k -> B3610.rule_of (lower cj) = Some k ->
       B3610.resolve_columns header k = Some i).
Proof.
  split; intros H;
    specialize (H ["NPS"; "Nominal Pipe Size"; "OD (in)"; "Wall (in)"]);
    [ specialize (H B165.nps 0 1 "NPS" "Nominal Pipe Size")
    | specialize (H B3610.nps 0 1 "NPS" "Nominal Pipe Size") ];
    specialize (H ltac:(lia) eq_refl eq_refl eq_refl eq_refl);
    vm_compute in H; discriminate.
Qed.

(** ** Inch and millimetre columns of a pipe header *)

Lemma prefix_cons (a b : ascii) (s1 s2 : string) :
  prefix (String a s1) (String b s2) = if ascii_dec a b then prefix s1 s2 else false.
Proof. reflexivity. Qed.

Lemma prefix_inch_in (s : string) : prefix "inch" s = true -> prefix "in" s = true.
Proof.
  destruct s as [| c1 [| c2 s]]; try discriminate.
  - rewrite prefix_cons. destruct (ascii_dec "i" c1); discriminate.
  - rewrite !prefix_cons.
    destruct (ascii_dec "i" c1); [| discriminate].
    destruct (ascii_dec "n" c2); [now destruct s | discriminate].
Qed.

Lemma contains_inch_in (s : string) :
  contains "inch" s = true -> contains "in" s = true.
Proof.
  induction s as [| c s IH].
  - simpl. discriminate.
  - change (contains "inch" (String c s))
      with (prefix "inch" (String c s) || contains "inch" s).
    change (contains "in" (String c s))
      with (prefix "in" (String c s) || contains "in" s).
    intros H. apply orb_prop in H. destruct H as [H | H].
    + now rewrite (prefix_inch_in _ H).
    + rewrite (IH H). apply orb_true_r.
Qed.

(** C3 (as amended).  In a pipe header, let column [i] be inch-qualified and
    column [j] millimetre-qualified for the same quantity, neither being
    claimed by the [nps] or [dn] rule, and let the millimetre cell hold the
    letters [in] nowhere.  Then the two columns decide for the two distinct
    keys of that quantity and both keys are bound, to different columns;
    the cell [outside diameter (mm)] in particular is not taken by the inch
    rule. *)
Theorem pipe_inch_mm_columns_distinct (header : list string) (i j : nat)
    (ci cj : string) :
  nth_error header i = Some ci -> nth_error header j = Some cj ->
  contains "nps" (lower ci) || contains "nominal" (lower ci)
    || startswith (lower ci) "dn" = false ->
  contains "nps" (lower cj) || contains "nominal" (lower cj)
    || startswith (lower cj) "dn" = false ->
  contains "in" (lower ci) = true ->
  contains "in" (lower cj) = false ->
  contains "mm" (lower cj) || contains "millimeter" (lower cj) = true ->
  (contains "outside" (lower ci) = true -> contains "outside" (lower cj) = true ->
   B3610.rule_of (lower ci) = Some B3610.od_in /\
   B3610.rule_of (lower cj) = Some B3610.od_mm /\
   exists a b, B3610.resolve_columns header B3610.od_in = Some a /\
               B3610.resolve_columns header B3610.od_mm = Some b /\ a <> b) /\
  (contains "outside" (lower ci) = false -> contains "outside" (lower cj) = false ->
   contains "wall" (lower ci) || contains "thick" (lower ci) = true ->
   contains "wall" (lower cj) || contains "thick" (lower cj) = true ->
   B3610.rule_of (lower ci) = Some B3610.wall_in /\
   B3610.rule_of (lower cj) = Some B3610.wall_mm /\
   exists a b, B3610.resolve_columns header B3610.wall_in = Some a /\
               B3610.resolve_columns header B3610.wall_mm = Some b /\ a <> b) /\
  B3610.rule_of (lower "outside diameter (mm)") = Some B3610.od_mm.
Proof.
  intros Hi Hj Hci Hcj Hin_i Hin_j Hmm.
  apply orb_false_elim in Hci. destruct Hci as [Hci Hdn_i].
  apply orb_false_elim in Hci. destruct Hci as [Hnps_i Hnom_i].
  apply orb_false_elim in Hcj. destruct Hcj as [Hcj Hdn_j].
  apply orb_false_elim in Hcj. destruct Hcj as [Hnps_j Hnom_j].
  assert (Hinch_j : contains "inch" (lower cj) = false).
  { destruct (contains "inch" (lower cj)) eqn:E; [| reflexivity].
    apply contains_inch_in in E. congruence. }
  split; [| split].
  - intros Ho_i Ho_j.
    assert (Ri : B3610.rule_of (lower ci) = Some B3610.od_in).
    { unfold B3610.rule_of. now rewrite Hnps_i, Hnom_i, Hdn_i, Ho_i, Hin_i. }
    assert (Rj : B3610.rule_of (lower cj) = Some B3610.od_mm).
    { unfold B3610.rule_of.
      now rewrite Hnps_j, Hnom_j, Hdn_j, Ho_j, Hin_j, Hinch_j, Hmm. }
    split_all; try assumption.
    destruct (B3610_resolve_columns_bound header B3610.od_in) as (a & Ha); [eauto |].
    destruct (B3610_resolve_columns_bound header B3610.od_mm) as (b & Hb); [eauto |].
    exists a, b. split_all; try assumption.
    eapply B3610_resolve_columns_distinct; [| eassumption | eassumption].
    discriminate.
  - intros Ho_i Ho_j Hw_i Hw_j.
    assert (Ri : B3610.rule_of (lower ci) = Some B3610.wall_in).
    { unfold B3610.rule_of. now rewrite Hnps_i, Hnom_i, Hdn_i, Ho_i, Hw_i, Hin_i. }
    assert (Rj : B3610.rule_of (lower cj) = Some B3610.wall_mm).
    { unfold B3610.rule_of.
      now rewrite Hnps_j, Hnom_j, Hdn_j, Ho_j, Hw_j, Hin_j, Hinch_j, Hmm. }
    split_all; try assumption.
    destruct (B3610_resolve_columns_bound header B3610.wall_in) as (a & Ha); [eauto |].
    destruct (B3610_resolve_columns_bound header B3610.wall_mm) as (b & Hb); [eauto |].
    exists a, b. split_all; try assumption.
    eapply B3610_resolve_columns_distinct; [| eassumption | eassumption].
    discriminate.
  - vm_compute. reflexivity.
Qed.

(** The header of the docstring of [parse_pipe_rows], columns 2 and 3. *)
Lemma pipe_inch_mm_columns_distinct_witness :
  B3610.rule_of (lower "Outside Diameter (in)") = Some B3610.od_in /\
  B3610.rule_of (lower "Outside Diameter (mm)") = Some B3610.od_mm /\
  exists a b,
    B3610.resolve_columns
      ["NPS"; "DN"; "Outside Diameter (in)"; "Outside Diameter (mm)";
       "Wall (in)"; "Wall (mm)"] B3610.od_in = Some a /\
    B3610.resolve_columns
      ["NPS"; "DN"; "Outside Diameter (in)"; "Outside Diameter (mm)";
       "Wall (in)"; "Wall (mm)"] B3610.od_mm = Some b /\ a <> b.
Proof.
  apply (pipe_inch_mm_columns_distinct
           ["NPS"; "DN"; "Outside Diameter (in)"; "Outside Diameter (mm)";
            "Wall (in)"; "Wall (mm)"] 2 3
           "Outside Diameter (in)" "Outside Diameter (mm)");
    reflexivity.
Defined.

(** C3 (as stated) fails: in the accepted header below column 1 is
    inch-qualified and column 2 millimetre-qualified for the outside
    diameter, yet both decide for [od_in] ([minimum] holds the letters
    [in]) and [od_mm] stays unresolved. *)
Lemma pipe_inch_mm_same_field_counterexample :
  let header := ["NPS"; "Outside Diameter (in)"; "Outside Diameter minimum (mm)";
                 "Wall (in)"] in
  B3610.looks_like_pipe_table [map CVal header] = true /\
  contains "(in)" (lower "Outside Diameter (in)") = true /\
  contains "(mm)" (lower "Outside Diameter minimum (mm)") = true /\
  B3610.rule_of (lower "Outside Diameter (in)") = Some B3610.od_in /\
  B3610.rule_of (lower "Outside Diameter minimum (mm)") = Some B3610.od_in /\
  B3610.resolve_columns (normalise_header (map CVal header)) B3610.od_in = Some 2 /\
  B3610.resolve_columns (normalise_header (map CVal header)) B3610.od_mm = None.
Proof. vm_compute. split_all; reflexivity. Qed.

(** ** Schedule to pressure series *)

(** C9.  [pressure_series_from_schedule] is a function of the upper-cased
    schedule with its spaces removed: STD, 40, 40S give STD; XS, 80, 80S give
    XS; XXS gives XXS; anything else gives the empty string.  Case and
    spaces of the argument do not change the result. *)
Theorem pressure_series_total_case_space_insensitive (s : string) :
  let f := B3610.pressure_series_from_schedule in
  let sch := remove_char " " (upper s) in
  (In sch ["STD"; "40"; "40S"] -> f s = "STD") /\
  (In sch ["XS"; "80"; "80S"] -> f s = "XS") /\
  (sch = "XXS" -> f s = "XXS") /\
  (~ In sch ["STD"; "40"; "40S"; "XS"; "80"; "80S"; "XXS"] -> f s = EmptyString) /\
  f (upper s) = f s /\ f (lower s) = f s /\ f (remove_char " " s) = f s /\
  f "40S" = "STD" /\ f " xs " = "XS" /\ f "150" = EmptyString.
Proof.
  cbv zeta. unfold B3610.pressure_series_from_schedule.
  rewrite upper_idem, upper_lower.
  replace (remove_char " " (upper (remove_char " " s)))
    with (remove_char " " (upper s))
    by (now rewrite <- (remove_space_upper s), remove_char_idem).
  set (sch := remove_char " " (upper s)).
  split_all.
  - intros [<- | [<- | [<- | []]]]; reflexivity.
  - intros [<- | [<- | [<- | []]]]; reflexivity.
  - intros ->. reflexivity.
  - intros H.
    repeat match goal with
    | |- context [String.eqb sch ?x] =>
        destruct (String.eqb_spec sch x) as [E | _];
        [exfalso; apply H; rewrite E; simpl; tauto |]
    end.
    reflexivity.
  - reflexivity.
  - reflexivity.
  - reflexivity.
  - reflexivity.
  - reflexivity.
  - reflexivity.
Qed.

Lemma pressure_series_total_case_space_insensitive_witness :
  B3610.pressure_series_from_schedule "Sch 40s" = EmptyString /\
  B3610.pressure_series_from_schedule " 8 0 s" = "XS".
Proof.
  destruct (pressure_series_total_case_space_insensitive "Sch 40s")
    as (_ & _ & _ & H4 & _).
  destruct (pressure_series_total_case_space_insensitive " 8 0 s")
    as (_ & H2 & _).
  split.
  - apply H4. vm_compute. intuition discriminate.
  - apply H2. vm_compute. tauto.
Defined.

(** Four pipe rows of one table, the third repeating the key of the first:
    deduplicating twice gives what deduplicating once gives, three rows. *)
Lemma drop_duplicates_first_wins_idempotent_witness :
  let df := [ [CVal "NPS"; CVal "Outside Diameter (in)"; CVal "Wall (in)"; CVal "Schedule"];
              [CVal "2"; CVal "2.375"; CVal "0.154"; CVal "40"];
              [CVal "1/8"; CVal "0.405"; CVal "N/A"; CNan];
              [CVal "2.0"; CVal "2.38"; CVal "0.154"; CVal "40"];
              [CVal "2"; CVal "2.375"; CVal "0.218"; CVal "80"] ] in
  let l := match B3610.parse_pipe_rows df with Ok rows => rows | Raise _ => [] end in
  let out := drop_duplicates B3610.key_eq_dec B3610.dedup_key l in
  List.length l = 4 /\ List.length out = 3 /\
  drop_duplicates B3610.key_eq_dec B3610.dedup_key out = out.
Proof.
  cbv zeta. split; [vm_compute; reflexivity |]. split; [vm_compute; reflexivity |].
  match goal with
  | |- drop_duplicates ?dec ?key ?out = _ =>
      destruct (drop_duplicates_first_wins_idempotent dec key out)
        as (_ & _ & _ & _ & _ & H)
  end.
  apply H. vm_compute.
  repeat constructor; simpl; intuition discriminate.
Defined.

(** ** The flange scenario *)

(** C2.  On the table [NPS | Class | OD (in) | Bolt Circle (in)] with the
    row [2 | 150 | 6.00 | 4.75] the flange script emits one row with
    [nps_inch = 2.0], [bolt_circle_inch = 4.75], [type = WN],
    [facing = RF], [rating_class = None], and with [od_inch = None]: no
    rule of the header loop matches [OD (in)], so the key [od] stays
    unresolved. *)
Theorem flange_scenario_od_inch_is_none :
  let header := [CVal "NPS"; CVal "Class"; CVal "OD (in)"; CVal "Bolt Circle (in)"] in
  let df := [header; [CVal "2"; CVal "150"; CVal "6.00"; CVal "4.75"]] in
  B165.looks_like_flange_table df = true /\
  B165.rule_of (lower "OD (in)") = None /\
  B165.resolve_columns (normalise_header header) B165.od = None /\
  exists r,
    B165.parse_flange_rows df None None None = Ok [r] /\
    B165.main [Some df] = Ok (Some [B165.stamp 0 r]) /\
    B165.item r "nps_inch" = Some (VFloat (FFin (2 # 1))) /\
    B165.item r "od_inch" = Some VNone /\
    B165.item r "bolt_circle_inch" = Some (VFloat (FFin (19 # 4))) /\
    B165.item r "type" = Some (VStr "WN") /\
    B165.item r "facing" = Some (VStr "RF") /\
    B165.item r "rating_class" = Some VNone.
Proof.
  cbv zeta. split_all; try (vm_compute; reflexivity).
  eexists. split_all; vm_compute; reflexivity.
Qed.

(** ** Fractional sizes *)

(** C5.  For the size [1/8] both scripts leave [nps_inch] at [None].  The
    pipe row carries the text under [nps_display]; the flange row has no
    such key and holds the text under no key: the rows emitted for [1/8]
    and for [1/4] are equal. *)
Theorem flange_fractional_nps_text_not_kept :
  let header := [CVal "NPS"; CVal "DN"; CVal "Outside Diameter (in)"; CVal "Wall (in)"] in
  let df8 := [header; [CVal "1/8"; CVal "6"; CVal "0.405"; CVal "0.068"]] in
  let df4 := [header; [CVal "1/4"; CVal "6"; CVal "0.405"; CVal "0.068"]] in
  B165.looks_like_flange_table df8 = true /\
  B3610.looks_like_pipe_table df8 = true /\
  (exists p,
     B3610.parse_pipe_rows df8 = Ok [p] /\
     B3610.item p "nps_inch" = Some VNone /\
     B3610.item p "nps_display" = Some (VStr "1/8")) /\
  (exists r,
     B165.parse_flange_rows df8 None None None = Ok [r] /\
     B165.parse_flange_rows df4 None None None = Ok [r] /\
     B165.item r "nps_inch" = Some VNone /\
     B165.item r "nps_display" = None /\
     forall key, B165.item r key <> Some (VStr "1/8")).
Proof.
  cbv zeta. split_all; try (vm_compute; reflexivity).
  - eexists. split_all; vm_compute; reflexivity.
  - eexists. split_all; try (vm_compute; reflexivity).
    intros key. unfold B165.item, B165.to_dict. cbn [lookup].
    repeat match goal with
    | |- context [String.eqb ?k key] => destruct (String.eqb k key)
    end; vm_compute; discriminate.
Qed.

(** ** Exceptions leaving the row loop *)

(** C7.  [int(float(s))] raises [OverflowError] on an infinity, which the
    handler of [to_int] does not catch and which the pipe script does not
    guard against: on the accepted tables below, a DN cell [inf] (flange)
    and a DN cell of 310 digits (pipe), the row loops raise. *)
Theorem row_normalization_raises_overflow :
  let fdf := [ [CVal "NPS"; CVal "DN"; CVal "OD (in)"; CVal "Bolt Circle (in)"];
               [CVal "2"; CVal "inf"; CVal "6.00"; CVal "4.75"] ] in
  let big := "1000000000000000000000000000000000000000000000000000000000000000000000000000000000000000000000000000000000000000000000000000000000000000000000000000000000000000000000000000000000000000000000000000000000000000000000000000000000000000000000000000000000000000000000000000000000000000000000000000000000000000000000" in
  let pdf := [ [CVal "NPS"; CVal "DN"; CVal "Outside Diameter (in)"; CVal "Wall (in)"];
               [CVal "2"; CVal big; CVal "2.375"; CVal "0.154"] ] in
  B165.looks_like_flange_table fdf = true /\
  B165.to_int (Some "inf") = Raise OverflowError /\
  B165.parse_flange_rows fdf None None None = Raise OverflowError /\
  B165.main [Some fdf] = Raise OverflowError /\
  B3610.looks_like_pipe_table pdf = true /\
  String.length big = 310 /\
  B3610.parse_pipe_rows pdf = Raise OverflowError /\
  B3610.main [Some pdf] = Raise OverflowError.
Proof. cbv zeta. split_all; vm_compute; reflexivity. Qed.

(** ** Unresolved keys *)

Lemma get_unresolved {F : Type} (col_map : F -> option nat) (vals : list cell) (k : F) :
  col_map k = None -> get col_map vals k = None.
Proof. intros H. unfold get. now rewrite H. Qed.

(** Inversion of a chain of [bind]s that ends in [Ok]. *)
Ltac invert_binds H :=
  repeat match type of H with
  | bind ?m _ = Ok _ =>
      let E := fresh "E" in
      destruct m eqn:E; cbn [bind] in H; [| discriminate H]
  end.

Lemma flange_row_unresolved col_map rating_class flange_type facing vals k r :
  col_map k = None ->
  B165.parse_flange_row col_map rating_class flange_type facing vals = Ok (Some r) ->
  B165.item r (B165.fed_key k) = Some VNone.
Proof.
  intros Hk H. pose proof (get_unresolved col_map vals k Hk) as G.
  unfold B165.parse_flange_row in H.
  destruct (get col_map vals B165.nps) as [nps_raw |] eqn:Hnps; [| discriminate].
  destruct (negb (truthy nps_raw)); [discriminate |].
  destruct k; try congruence; rewrite G in H;
    cbn [to_float B165.to_int] in H; invert_binds H;
    injection H as <-;
    repeat match goal with
    | E : Ok _ = Ok _ |- _ => injection E as <-
    end; reflexivity.
Qed.

Lemma pipe_row_unresolved col_map vals k r :
  col_map k = None -> k <> B3610.schedule ->
  B3610.parse_pipe_row col_map vals = Ok (Some r) ->
  B3610.item r (B3610.fed_key k) = Some VNone.
Proof.
  intros Hk Hs H. pose proof (get_unresolved col_map vals k Hk) as G.
  unfold B3610.parse_pipe_row in H.
  destruct (get col_map vals B3610.nps) as [nps_raw |] eqn:Hnps; [| discriminate].
  destruct (negb (truthy nps_raw)); [discriminate |].
  destruct k; try congruence; rewrite G in H;
    cbn [to_float B3610.dn_mm_of] in H; invert_binds H;
    injection H as <-;
    repeat match goal with
    | E : Ok _ = Ok _ |- _ => injection E as <-
    end; reflexivity.
Qed.

Lemma pipe_row_unresolved_schedule col_map vals r :
  col_map B3610.schedule = None ->
  B3610.parse_pipe_row col_map vals = Ok (Some r) ->
  B3610.item r "schedule" = Some (VStr EmptyString) /\
  B3610.item r "pressure_series" = Some (VStr EmptyString).
Proof.
  intros Hk H. pose proof (get_unresolved col_map vals _ Hk) as G.
  unfold B3610.parse_pipe_row in H.
  destruct (get col_map vals B3610.nps) as [nps_raw |] eqn:Hnps; [| discriminate].
  destruct (negb (truthy nps_raw)); [discriminate |].
  rewrite G in H. invert_binds H. injection H as <-. split; reflexivity.
Qed.

(** C4 (as amended).  A key that the header loop left unresolved makes
    [get] return [None] without raising, and every row the loop emits holds
    [None] under the dictionary key fed by it, with one exception: the pipe
    row holds the empty string under [schedule] (and under
    [pressure_series]).  With [nps] unresolved no row is emitted. *)
Theorem unresolved_key_yields_none :
  (forall (col_map : B165.col_map_t) vals k,
     col_map k = None -> get col_map vals k = None) /\
  (forall (col_map : B3610.col_map_t) vals k,
     col_map k = None -> get col_map vals k = None) /\
  (forall col_map rating_class flange_type facing vals k r,
     col_map k = None ->
     B165.parse_flange_row col_map rating_class flange_type facing vals = Ok (Some r) ->
     B165.item r (B165.fed_key k) = Some VNone) /\
  (forall col_map vals k r,
     col_map k = None -> k <> B3610.schedule ->
     B3610.parse_pipe_row col_map vals = Ok (Some r) ->
     B3610.item r (B3610.fed_key k) = Some VNone) /\
  (forall col_map vals r,
     col_map B3610.schedule = None ->
     B3610.parse_pipe_row col_map vals = Ok (Some r) ->
     B3610.item r "schedule" = Some (VStr EmptyString) /\
     B3610.item r "pressure_series" = Some (VStr EmptyString)) /\
  (forall col_map rating_class flange_type facing vals,
     col_map B165.nps = None ->
     B165.parse_flange_row col_map rating_class flange_type facing vals = Ok None) /\
  (forall col_map vals,
     col_map B3610.nps = None -> B3610.parse_pipe_row col_map vals = Ok None).
Proof.
  split_all.
  - intros. now apply get_unresolved.
  - intros. now apply get_unresolved.
  - apply flange_row_unresolved.
  - apply pipe_row_unresolved.
  - apply pipe_row_unresolved_schedule.
  - intros col_map rc ft fc vals H. unfold B165.parse_flange_row.
    now rewrite (get_unresolved _ _ _ H).
  - intros col_map vals H. unfold B3610.parse_pipe_row.
    now rewrite (get_unresolved _ _ _ H).
Qed.

(** The pipe header [NPS | DN | Outside Diameter (in) | Wall (in)] leaves
    [od_mm] and [schedule] unresolved. *)
Lemma unresolved_key_yields_none_witness :
  let col_map := B3610.resolve_columns
                   ["NPS"; "DN"; "Outside Diameter (in)"; "Wall (in)"] in
  let vals := [CVal "2"; CVal "50"; CVal "2.375"; CVal "0.154"] in
  match B3610.parse_pipe_row col_map vals with
  | Ok (Some r) =>
      B3610.item r "od_mm" = Some VNone /\
      B3610.item r "schedule" = Some (VStr EmptyString)
  | _ => False
  end.
Proof.
  cbv zeta.
  destruct unresolved_key_yields_none as (_ & _ & _ & H4 & H5 & _).
  destruct (B3610.parse_pipe_row _ _) as [[r |] | e] eqn:E;
    [| vm_compute in E; discriminate E | vm_compute in E; discriminate E].
  split.
  - apply (H4 _ _ B3610.od_mm r) in E; [exact E | reflexivity | discriminate].
  - apply (H5 _ _ r) in E; [apply E | reflexivity].
Defined.

(** C4 (as stated) fails: with no schedule column the pipe row stores the
    empty string, not [None], under [schedule]. *)
Lemma unresolved_schedule_counterexample :
  let header := [CVal "NPS"; CVal "DN"; CVal "Outside Diameter (in)"; CVal "Wall (in)"] in
  let df := [header; [CVal "2"; CVal "50"; CVal "2.375"; CVal "0.154"]] in
  B3610.looks_like_pipe_table df = true /\
  B3610.resolve_columns (normalise_header header) B3610.schedule = None /\
  exists r,
    B3610.parse_pipe_rows df = Ok [r] /\
    B3610.item r "schedule" = Some (VStr EmptyString) /\
    B3610.item r "schedule" <> Some VNone.
Proof.
  cbv zeta. split_all; try (vm_compute; reflexivity).
  eexists. split_all; try (vm_compute; reflexivity).
  vm_compute. discriminate.
Qed.

(** ** Integer coercion *)

Lemma float_raises_ValueError (s : string) (e : exn) :
  float s = Raise e -> e = ValueError.
Proof.
  unfold float. destruct (sign (strip s)) as [neg t].
  unfold absfloatvalue.
  destruct (String.eqb (lower t) "inf" || String.eqb (lower t) "infinity");
    [discriminate |].
  destruct (String.eqb (lower t) "nan"); [discriminate |].
  destruct (number t) as [[[m k] r] |]; [| congruence].
  destruct (exponent r); [discriminate | congruence].
Qed.

(** [to_float] and the NPS coercion return for every cell; [to_int] raises
    on an infinite float only. *)
Lemma to_float_returns (x : option string) : exists r, to_float x = Ok r.
Proof.
  destruct x as [x |]; [| now exists None].
  unfold to_float.
  destruct (float (strip (remove_char "," x))) as [f | e] eqn:E.
  - now exists (Some f).
  - rewrite (float_raises_ValueError _ _ E). now exists None.
Qed.

Lemma nps_inch_of_returns (nps_raw : string) : exists r, nps_inch_of nps_raw = Ok r.
Proof.
  unfold nps_inch_of.
  destruct (float (strip (remove_char quote_char nps_raw))) as [f | e] eqn:E.
  - now exists (Some f).
  - rewrite (float_raises_ValueError _ _ E). now exists None.
Qed.

Lemma to_int_raises_on_infinity (x : string) (e : exn) :
  B165.to_int (Some x) = Raise e ->
  e = OverflowError /\ exists neg, float (strip (remove_char "," x)) = Ok (FInf neg).
Proof.
  unfold B165.to_int.
  destruct (float (strip (remove_char "," x))) as [[q | neg |] | e'] eqn:E;
    cbn [bind int except_ValueError].
  - discriminate.
  - intros H. injection H as <-. eauto.
  - discriminate.
  - rewrite (float_raises_ValueError _ _ E). discriminate.
Qed.

(** C6 (as amended).  The flange [to_int] removes commas and surrounding
    whitespace, parses the rest as a float and truncates a finite value to
    an integer; it returns [None] for [None], for text that is no float and
    for NaN.  The pipe script has no such function: [dn_mm] is
    [int(float(cell))] only for a cell that, one dot removed, is made of
    digits, and [None] for every other cell, a comma-grouped one
    included. *)
Theorem integer_coercion_by_script :
  B165.to_int None = Ok None /\
  (forall x q, float (strip (remove_char "," x)) = Ok (FFin q) ->
     B165.to_int (Some x) = Ok (Some (trunc q))) /\
  (forall x, float (strip (remove_char "," x)) = Ok FNan ->
     B165.to_int (Some x) = Ok None) /\
  (forall x e, float (strip (remove_char "," x)) = Raise e ->
     B165.to_int (Some x) = Ok None) /\
  B165.to_int (Some "1,000") = Ok (Some 1000%Z) /\
  B165.to_int (Some " 50.0 ") = Ok (Some 50%Z) /\
  B165.to_int (Some "N/A") = Ok None /\
  B3610.dn_mm_of None = Ok None /\
  (forall v, truthy v && isdigit (remove_first_char "." v) = false ->
     B3610.dn_mm_of (Some v) = Ok None) /\
  (forall v q, truthy v && isdigit (remove_first_char "." v) = true ->
     float v = Ok (FFin q) -> B3610.dn_mm_of (Some v) = Ok (Some (trunc q))) /\
  B3610.dn_mm_of (Some "1,000") = Ok None /\
  B3610.dn_mm_of (Some "50.0") = Ok (Some 50%Z).
Proof.
  split_all.
  - reflexivity.
  - intros x q H. unfold B165.to_int. now rewrite H.
  - intros x H. unfold B165.to_int. now rewrite H.
  - intros x e H. unfold B165.to_int. rewrite H.
    now rewrite (float_raises_ValueError _ _ H).
  - vm_compute. reflexivity.
  - vm_compute. reflexivity.
  - vm_compute. reflexivity.
  - reflexivity.
  - intros v H. unfold B3610.dn_mm_of. now rewrite H.
  - intros v q Hg H. unfold B3610.dn_mm_of. now rewrite Hg, H.
  - vm_compute. reflexivity.
  - vm_compute. reflexivity.
Qed.

Lemma integer_coercion_by_script_witness :
  B165.to_int (Some "12,500.9") = Ok (Some 12500%Z) /\
  B165.to_int (Some "abc") = Ok None /\
  B3610.dn_mm_of (Some "12,500") = Ok None /\
  B3610.dn_mm_of (Some "100.") = Ok (Some 100%Z).
Proof.
  destruct integer_coercion_by_script
    as (_ & H2 & _ & H4 & _ & _ & _ & _ & H9 & H10 & _).
  split_all.
  - apply (H2 "12,500.9" (6872442453832499 # 549755813888)%Q).
    vm_compute. reflexivity.
  - apply (H4 "abc" ValueError). vm_compute. reflexivity.
  - apply H9. vm_compute. reflexivity.
  - apply (H10 "100." (100 # 1)%Q); vm_compute; reflexivity.
Defined.

(** C6 (as stated) fails: the pipe script coerces [1,000] to [None], and
    the flange [to_int] raises on [inf]. *)
Lemma integer_coercion_counterexample :
  B3610.dn_mm_of (Some "1,000") = Ok None /\
  B3610.dn_mm_of (Some "1,000") <> Ok (Some 1000%Z) /\
  B165.to_int (Some "inf") = Raise OverflowError.
Proof.
  split_all.
  - vm_compute. reflexivity.
  - vm_compute. discriminate.
  - vm_compute. reflexivity.
Qed.

(** ** The flange driver *)

Lemma parse_flange_row_default col_map vals r :
  B165.parse_flange_row col_map None None None vals = Ok (Some r) ->
  default_context r.
Proof.
  unfold B165.parse_flange_row. intros H.
  destruct (get col_map vals B165.nps) as [nps_raw |]; [| discriminate].
  destruct (negb (truthy nps_raw)); [discriminate |].
  invert_binds H. injection H as <-. repeat split.
Qed.

Lemma parse_data_default col_map data : forall rows,
  B165.parse_data col_map None None None data = Ok rows ->
  Forall default_context rows.
Proof.
  induction data as [| vals data IH]; cbn [B165.parse_data]; intros rows H.
  - injection H as <-. constructor.
  - invert_binds H. injection H as <-.
    match goal with
    | E : B165.parse_flange_row _ _ _ _ _ = Ok ?o |- _ =>
        destruct o as [x |]; [constructor; [eapply parse_flange_row_default; eassumption |] |]
    end; exact (IH _ eq_refl).
Qed.

Lemma collect_rows_default tables : forall idx rows,
  B165.collect_rows idx tables = Ok rows -> Forall default_context rows.
Proof.
  induction tables as [| odf tables IH]; cbn [B165.collect_rows];
    intros idx rows H.
  - injection H as <-. constructor.
  - invert_binds H. injection H as <-.
    apply Forall_app. split; [| eapply IH; eassumption].
    destruct odf as [df |]; [| injection E as <-; constructor].
    destruct (df_empty df); [injection E as <-; constructor |].
    destruct (negb (B165.looks_like_flange_table df));
      [injection E as <-; constructor |].
    invert_binds E. injection E as <-.
    match goal with
    | E : B165.parse_flange_rows _ _ _ _ = Ok _ |- _ =>
        unfold B165.parse_flange_rows in E; invert_binds E;
        apply parse_data_default in E; rewrite Forall_forall in E;
        apply Forall_map, Forall_forall; intros r Hr; exact (E r Hr)
    end.
Qed.

Lemma subseq_In {A : Type} (l' l : list A) (x : A) :
  subseq l' l -> In x l' -> In x l.
Proof.
  induction 1 as [| y l' l _ IH | y l' l _ IH]; simpl; tauto.
Qed.

Lemma drop_duplicates_subseq_nodup {A K : Type}
    (dec : forall a b : K, {a = b} + {a <> b}) (key : A -> K) (l : list A) :
  subseq (drop_duplicates dec key l) l /\
  NoDup (map key (drop_duplicates dec key l)).
Proof. split; [apply dd_subseq | apply dd_nodup]. Qed.

(** C10.  [main] calls [parse_flange_rows] with no rating class, type or
    facing, so every row written has [rating_class = None], [type = WN] and
    [facing = RF], and no two rows written have the same [nps_inch] (a
    missing value counting as one value). *)
Theorem flange_output_one_row_per_nps (tables : list (option DataFrame))
    (out : list B165.row) :
  B165.main tables = Ok (Some out) ->
  Forall (fun r => B165.rating_class r = None /\ B165.type r = "WN" /\
                   B165.facing r = "RF") out /\
  (forall r, In r out ->
     B165.dedup_key r = (na_key (B165.nps_inch r), None, "WN", "RF")) /\
  NoDup (map (fun r => na_key (B165.nps_inch r)) out).
Proof.
  unfold B165.main. intros H.
  destruct (B165.collect_rows 0 tables) as [rows | e] eqn:Hall;
    cbn [bind] in H; [| discriminate].
  apply collect_rows_default in Hall.
  assert (Heq : out = drop_duplicates B165.key_eq_dec B165.dedup_key rows)
    by (destruct rows; [discriminate | now injection H]).
  subst out. clear H.
  destruct (drop_duplicates_subseq_nodup B165.key_eq_dec B165.dedup_key rows)
    as (Hsub & Hnd).
  assert (Hout : Forall default_context
                   (drop_duplicates B165.key_eq_dec B165.dedup_key rows)).
  { apply Forall_forall. intros r Hr. rewrite Forall_forall in Hall.
    apply Hall. eapply subseq_In; eassumption. }
  assert (Hkey : forall r,
            In r (drop_duplicates B165.key_eq_dec B165.dedup_key rows) ->
            B165.dedup_key r = (na_key (B165.nps_inch r), None, "WN", "RF")).
  { intros r Hr. rewrite Forall_forall in Hout.
    destruct (Hout r Hr) as (H1 & H2 & H3).
    unfold B165.dedup_key. now rewrite H1, H2, H3. }
  split; [exact Hout |]. split; [exact Hkey |].
  apply (NoDup_map_inv (fun k : option pyfloat => (k, @None Z, "WN", "RF"))).
  rewrite map_map.
  rewrite (map_ext_in _ B165.dedup_key); [exact Hnd |].
  intros r Hr. symmetry. now apply Hkey.
Qed.

(** Two accepted tables, one per pressure class, sharing the size 2: the
    three rows read collapse to one row per size. *)
Lemma flange_output_one_row_per_nps_witness :
  let header := [CVal "NPS"; CVal "Class"; CVal "Outside Diameter (in)"; CVal "BC (in)"] in
  let t150 := [header; [CVal "2"; CVal "150"; CVal "6.00"; CVal "4.75"];
                       [CVal "3"; CVal "150"; CVal "7.50"; CVal "6.00"]] in
  let t300 := [header; [CVal "2"; CVal "300"; CVal "6.50"; CVal "5.00"]] in
  match B165.main [Some t150; Some t300] with
  | Ok (Some out) =>
      List.length out = 2 /\
      NoDup (map (fun r => na_key (B165.nps_inch r)) out)
  | _ => False
  end.
Proof.
  cbv zeta.
  destruct (B165.main _) as [[out |] | e] eqn:E;
    [| vm_compute in E; discriminate E | vm_compute in E; discriminate E].
  split.
  - vm_compute in E. injection E as <-. reflexivity.
  - apply (flange_output_one_row_per_nps _ _ E).
Defined.

(** * Further properties of the scripts *)

(** ** Substrings *)

Lemma prefix_empty (s : string) : prefix EmptyString s = true.
Proof. now destruct s. Qed.

Lemma prefix_trans (a b s : string) :
  prefix a b = true -> prefix b s = true -> prefix a s = true.
Proof.
  revert b s. induction a as [| x a IH]; intros b s Hab Hbs.
  - apply prefix_empty.
  - destruct b as [| y b]; [discriminate |].
    destruct s as [| z s]; [discriminate |].
    rewrite prefix_cons in *.
    destruct (ascii_dec x y) as [-> |]; [| discriminate].
    destruct (ascii_dec y z) as [-> |]; [| discriminate].
    eapply IH; eassumption.
Qed.

Lemma contains_cons (n : string) (c : ascii) (s : string) :
  contains n (String c s) = prefix n (String c s) || contains n s.
Proof. reflexivity. Qed.

Lemma contains_empty_r (n : string) : contains n EmptyString = prefix n EmptyString.
Proof. simpl. apply orb_false_r. Qed.

Lemma contains_of_prefix (a b s : string) :
  prefix b s = true -> contains a b = true -> contains a s = true.
Proof.
  revert s. induction b as [| y b IH]; intros s Hbs Hab.
  - rewrite contains_empty_r in Hab.
    destruct s; [now rewrite contains_empty_r |].
    rewrite contains_cons. destruct a; [reflexivity | discriminate].
  - destruct s as [| z s]; [discriminate |].
    rewrite contains_cons in *.
    apply orb_prop in Hab. destruct Hab as [Hab | Hab].
    + now rewrite (prefix_trans _ _ _ Hab Hbs).
    + rewrite prefix_cons in Hbs. destruct (ascii_dec y z); [| discriminate].
      rewrite (IH _ Hbs Hab). apply orb_true_r.
Qed.

(** [a in b] and [b in s] give [a in s]. *)
Lemma contains_trans (a b s : string) :
  contains a b = true -> contains b s = true -> contains a s = true.
Proof.
  intros Hab. induction s as [| z s IH]; intros Hbs.
  - rewrite contains_empty_r in Hbs. eapply contains_of_prefix; eassumption.
  - rewrite contains_cons in Hbs. apply orb_prop in Hbs. destruct Hbs as [H | H].
    + eapply contains_of_prefix; eassumption.
    + rewrite contains_cons, (IH H). apply orb_true_r.
Qed.

Lemma prefix_before_space (n a b : string) :
  n <> EmptyString -> all_chars not_space n = true ->
  prefix n (a ++ String " " b) = true -> prefix n a = true.
Proof.
  revert a. induction n as [| x n IH]; intros a Hne Hsp H; [congruence |].
  simpl in Hsp. apply andb_prop in Hsp. destruct Hsp as [Hx Hn].
  destruct a as [| d a].
  - simpl append in H. rewrite prefix_cons in H.
    destruct (ascii_dec x " ") as [-> |]; [discriminate Hx | discriminate H].
  - change (String d a ++ String " " b)%string
      with (String d (a ++ String " " b)%string) in H.
    rewrite prefix_cons in *.
    destruct (ascii_dec x d); [| discriminate].
    destruct n as [| y n]; [apply prefix_empty |].
    apply IH; [discriminate | assumption | assumption].
Qed.

Lemma contains_across_space (n a b : string) :
  n <> EmptyString -> all_chars not_space n = true ->
  contains n (a ++ String " " b) = true ->
  contains n a = true \/ contains n b = true.
Proof.
  intros Hne Hsp. induction a as [| d a IH]; intros H.
  - simpl append in H. rewrite contains_cons in H.
    apply orb_prop in H. destruct H as [H | H]; [| now right].
    apply (prefix_before_space n EmptyString b) in H; try assumption.
    left. now rewrite contains_empty_r.
  - change (String d a ++ String " " b)%string
      with (String d (a ++ String " " b)%string) in H.
    rewrite contains_cons in H. apply orb_prop in H. destruct H as [H | H].
    + apply (prefix_before_space n (String d a) b) in H; try assumption.
      left. rewrite contains_cons, H. reflexivity.
    + destruct (IH H) as [Ha | Hb]; [left | now right].
      rewrite contains_cons, Ha. apply orb_true_r.
Qed.

(** A word without a space found in [" ".join(l)] lies in one element. *)
Lemma contains_join_space (n : string) (l : list string) :
  n <> EmptyString -> all_chars not_space n = true ->
  contains n (join_space l) = true ->
  exists s, In s l /\ contains n s = true.
Proof.
  intros Hne Hsp. induction l as [| s l IH]; intros H.
  - simpl in H. destruct n; [congruence | discriminate].
  - destruct l as [| s' l].
    + exists s. split; [now left | exact H].
    + change (join_space (s :: s' :: l))
        with (s ++ String " " (join_space (s' :: l)))%string in H.
      apply contains_across_space in H; try assumption.
      destruct H as [H | H].
      * exists s. split; [now left | exact H].
      * destruct (IH H) as (x & Hx & Hc). exists x. split; [now right | exact Hc].
Qed.

(** ** What the classifier guarantees to the row loop *)

Lemma normalise_header_In (first : list cell) (h : string) :
  In h (normalise_header first) -> h <> EmptyString ->
  exists c, In c first /\ is_nan c = false /\ h = strip (str c).
Proof.
  unfold normalise_header. intros H Hne. apply in_map_iff in H.
  destruct H as (c & Hh & Hc). exists c.
  destruct (is_nan c); [congruence |]. auto.
Qed.

Lemma contains_in_empty (n : string) :
  n <> EmptyString -> contains n EmptyString = false.
Proof. destruct n; [congruence | reflexivity]. Qed.

(** A header whose joined text names NPS has a cell that names it. *)
Lemma header_names_nps (first : list cell) :
  contains "nps" (header_str_of (normalise_header first))
    || contains "nominal pipe size" (header_str_of (normalise_header first)) = true ->
  exists h, In h (normalise_header first) /\ h <> EmptyString /\
    contains "nps" (lower h) || contains "nominal" (lower h) = true.
Proof.
  intros H. unfold header_str_of in H.
  assert (Hw : exists w, (w = "nps" \/ w = "nominal") /\
             contains w (join_space (map lower (normalise_header first))) = true).
  { apply orb_prop in H. destruct H as [H | H].
    - exists "nps". auto.
    - exists "nominal". split; [now right |].
      eapply contains_trans; [| exact H]. reflexivity. }
  destruct Hw as (w & Hw & Hc).
  apply contains_join_space in Hc;
    [| destruct Hw as [-> | ->]; discriminate
     | destruct Hw as [-> | ->]; reflexivity].
  destruct Hc as (s & Hs & Hc). apply in_map_iff in Hs.
  destruct Hs as (h & <- & Hh). exists h. split; [assumption |]. split.
  - intros ->. destruct Hw as [-> | ->]; discriminate.
  - destruct Hw as [-> | ->]; rewrite Hc; [reflexivity | apply orb_true_r].
Qed.

Lemma dropna_keeps_named_header (first : list cell) (rest : DataFrame) (c : cell) :
  In c first -> is_nan c = false ->
  dropna_all (first :: rest) = first :: dropna_all rest.
Proof.
  intros Hin Hc. unfold dropna_all. simpl.
  assert (E : forallb is_nan first = false).
  { destruct (forallb is_nan first) eqn:E; [| reflexivity].
    rewrite forallb_forall in E. rewrite (E c Hin) in Hc. discriminate. }
  now rewrite E.
Qed.

Lemma B165_resolve_columns_bound header k :
  (exists j c, nth_error header j = Some c /\ B165.rule_of (lower c) = Some k) ->
  exists a, B165.resolve_columns header k = Some a.
Proof.
  intros (j & c & Hn & Hc).
  destruct (B165.resolve_columns header k) as [a |] eqn:E; [now exists a |].
  exfalso. eapply B165_resolve_columns_unresolved; eassumption.
Qed.

Lemma B165_resolved_in_bounds header k j :
  B165.resolve_columns header k = Some j -> j < List.length header.
Proof.
  intros H. apply B165_resolve_columns_last in H.
  destruct H as (c & Hn & _). apply nth_error_Some. congruence.
Qed.

Lemma B3610_resolved_in_bounds header k j :
  B3610.resolve_columns header k = Some j -> j < List.length header.
Proof.
  intros H. apply B3610_resolve_columns_last in H.
  destruct H as (c & Hn & _). apply nth_error_Some. congruence.
Qed.

Lemma normalise_header_length (cols : list cell) :
  List.length (normalise_header cols) = List.length cols.
Proof. unfold normalise_header. apply length_map. Qed.

(** The shape of a table with a header that names NPS, for either script. *)
Lemma named_header_shape (df : DataFrame) (first : list cell) :
  iloc0 df = Ok first ->
  contains "nps" (header_str_of (normalise_header first))
    || contains "nominal pipe size" (header_str_of (normalise_header first)) = true ->
  exists rest h,
    df = first :: rest /\ dropna_all df = first :: dropna_all rest /\
    In h (normalise_header first) /\
    contains "nps" (lower h) || contains "nominal" (lower h) = true.
Proof.
  intros Hi Hn. destruct df as [| f rest]; [discriminate |].
  injection Hi as ->.
  destruct (header_names_nps _ Hn) as (h & Hh & Hne & Hc).
  destruct (normalise_header_In _ _ Hh Hne) as (c & Hin & Hnan & _).
  exists rest, h. split; [reflexivity |]. split; [| auto].
  eapply dropna_keeps_named_header; eassumption.
Qed.

(** What acceptance by a classifier guarantees. *)
Lemma B165_accepted_table_shape (df : DataFrame) :
  B165.looks_like_flange_table df = true ->
  exists first rest j,
    df = first :: rest /\ 4 <= List.length first /\
    dropna_all df = first :: dropna_all rest /\
    B165.resolve_columns (normalise_header first) B165.nps = Some j /\
    j < List.length first.
Proof.
  intros H. unfold B165.looks_like_flange_table in H.
  destruct (df_empty df || (shape1 df <? 4)) eqn:Hg; [discriminate |].
  apply orb_false_elim in Hg. destruct Hg as [_ Hw].
  destruct (iloc0 df) as [first | e] eqn:Hi; [| discriminate].
  cbv zeta in H. apply andb_prop in H. destruct H as [Hn _].
  destruct (named_header_shape _ _ Hi Hn) as (rest & h & -> & Hd & Hh & Hc).
  destruct (In_nth_error _ _ Hh) as (i & Hi').
  destruct (B165_resolve_columns_bound (normalise_header first) B165.nps)
    as (j & Hj).
  { exists i, h. split; [assumption |]. unfold B165.rule_of. now rewrite Hc. }
  exists first, rest, j. split_all; try assumption; try reflexivity.
  - simpl in Hw. apply Nat.ltb_ge in Hw. exact Hw.
  - rewrite <- (normalise_header_length first).
    eapply B165_resolved_in_bounds; eassumption.
Qed.

Lemma B3610_accepted_table_shape (df : DataFrame) :
  B3610.looks_like_pipe_table df = true ->
  exists first rest j,
    df = first :: rest /\ 4 <= List.length first /\
    dropna_all df = first :: dropna_all rest /\
    B3610.resolve_columns (normalise_header first) B3610.nps = Some j /\
    j < List.length first.
Proof.
  intros H. unfold B3610.looks_like_pipe_table in H.
  destruct (df_empty df || (shape1 df <? 4)) eqn:Hg; [discriminate |].
  apply orb_false_elim in Hg. destruct Hg as [_ Hw].
  destruct (iloc0 df) as [first | e] eqn:Hi; [| discriminate].
  cbv zeta in H. apply andb_prop in H. destruct H as [H _].
  apply andb_prop in H. destruct H as [Hn _].
  destruct (named_header_shape _ _ Hi Hn) as (rest & h & -> & Hd & Hh & Hc).
  destruct (In_nth_error _ _ Hh) as (i & Hi').
  destruct (B3610_resolve_columns_bound (normalise_header first) B3610.nps)
    as (j & Hj).
  { exists i, h. split; [assumption |]. unfold B3610.rule_of. now rewrite Hc. }
  exists first, rest, j. split_all; try assumption; try reflexivity.
  - simpl in Hw. apply Nat.ltb_ge in Hw. exact Hw.
  - rewrite <- (normalise_header_length first).
    eapply B3610_resolved_in_bounds; eassumption.
Qed.

(** X1.  A table accepted by either classifier has at least four columns;
    its first row is kept by [dropna] and so is the header the row loop
    reads; and the header loop binds the key [nps] to one of its columns. *)
Theorem accepted_table_has_nps_column :
  (forall df, B165.looks_like_flange_table df = true ->
     exists first rest j,
       df = first :: rest /\ 4 <= List.length first /\
       dropna_all df = first :: dropna_all rest /\
       B165.resolve_columns (normalise_header first) B165.nps = Some j /\
       j < List.length first) /\
  (forall df, B3610.looks_like_pipe_table df = true ->
     exists first rest j,
       df = first :: rest /\ 4 <= List.length first /\
       dropna_all df = first :: dropna_all rest /\
       B3610.resolve_columns (normalise_header first) B3610.nps = Some j /\
       j < List.length first).
Proof.
  split; [exact B165_accepted_table_shape | exact B3610_accepted_table_shape].
Qed.

(** The flange table [NPS | Class | OD (in) | BC (in)] with one data row:
    accepted, and its column 0 is the NPS column. *)
Lemma accepted_table_has_nps_column_witness :
  let df := [[CVal "NPS"; CVal "Class"; CVal "OD (in)"; CVal "BC (in)"];
             [CVal "2"; CVal "150"; CVal "6.00"; CVal "4.75"]] in
  B165.looks_like_flange_table df = true /\
  exists first rest j,
    df = first :: rest /\ 4 <= List.length first /\
    dropna_all df = first :: dropna_all rest /\
    B165.resolve_columns (normalise_header first) B165.nps = Some j /\
    j < List.length first.
Proof.
  cbv zeta. split; [vm_compute; reflexivity |].
  apply (proj1 accepted_table_has_nps_column). vm_compute. reflexivity.
Defined.

(** ** Stripping a string without whitespace *)

Lemma all_chars_rev (p : ascii -> bool) (s : string) : forall acc,
  all_chars p (rev_string acc s) = all_chars p s && all_chars p acc.
Proof.
  induction s as [| c s IH]; intros acc; simpl; [reflexivity |].
  rewrite IH. simpl. destruct (p c), (all_chars p s); reflexivity.
Qed.

Lemma rev_string_involutive (s : string) : forall acc,
  rev_string EmptyString (rev_string acc s) = rev_string s acc.
Proof.
  induction s as [| c s IH]; intros acc; simpl; [reflexivity |].
  now rewrite IH.
Qed.

Lemma lstrip_no_space (s : string) :
  all_chars (fun c => negb (is_space c)) s = true -> lstrip s = s.
Proof.
  destruct s as [| c s]; [reflexivity |]. simpl.
  destruct (is_space c); [discriminate | reflexivity].
Qed.

Lemma strip_no_space (s : string) :
  all_chars (fun c => negb (is_space c)) s = true -> strip s = s.
Proof.
  intros H. unfold strip, rstrip. rewrite (lstrip_no_space s H).
  rewrite lstrip_no_space by (now rewrite all_chars_rev, H).
  apply (rev_string_involutive s EmptyString).
Qed.

Lemma all_chars_impl (p q : ascii -> bool) (s : string) :
  (forall c, p c = true -> q c = true) ->
  all_chars p s = true -> all_chars q s = true.
Proof.
  intros Hpq. induction s as [| c s IH]; simpl; [reflexivity |].
  intros H. apply andb_prop in H. destruct H as [Hc Hs].
  now rewrite (Hpq c Hc), IH.
Qed.

Lemma all_chars_app (p : ascii -> bool) (a b : string) :
  all_chars p (a ++ b) = all_chars p a && all_chars p b.
Proof.
  induction a as [| c a IH]; simpl; [reflexivity |].
  now rewrite IH, andb_assoc.
Qed.

Lemma all_digits_all_chars (s : string) : all_digits s = all_chars is_digit s.
Proof. induction s as [| c s IH]; simpl; [reflexivity | now rewrite IH]. Qed.

(** ** The guard of the pipe DN cell *)

Lemma digit_or_dot_not_space (c : ascii) :
  digit_or_dot c = true -> negb (is_space c) = true.
Proof. destruct c as [[] [] [] [] [] [] [] []]; intros H; try discriminate H; reflexivity. Qed.

Lemma digit_or_dot_sign (c : ascii) (t : string) :
  digit_or_dot c = true -> sign (String c t) = (false, String c t).
Proof. destruct c as [[] [] [] [] [] [] [] []]; intros H; try discriminate H; reflexivity. Qed.

Lemma digit_or_dot_not_word (c : ascii) (t : string) :
  digit_or_dot c = true ->
  String.eqb (lower (String c t)) "inf" || String.eqb (lower (String c t)) "infinity" = false /\
  String.eqb (lower (String c t)) "nan" = false.
Proof.
  destruct c as [[] [] [] [] [] [] [] []]; intros H; try discriminate H;
    split; reflexivity.
Qed.

Lemma is_digit_digit_val (c : ascii) :
  is_digit c = true -> exists v, digit_val c = Some v.
Proof. unfold digit_val. intros ->. eauto. Qed.

Lemma digits_tail_digits (d : string) : forall acc cnt r,
  all_digits d = true ->
  r = EmptyString \/ (exists t, r = String "." t) ->
  exists m k, digits_tail acc cnt (d ++ r) = (m, k, r).
Proof.
  induction d as [| c d IH]; intros acc cnt r Hd Hr.
  - simpl append. destruct Hr as [-> | (t & ->)]; simpl; eauto.
  - simpl in Hd. apply andb_prop in Hd. destruct Hd as [Hc Hd].
    destruct (is_digit_digit_val c Hc) as (v & Hv).
    simpl. rewrite Hv. apply IH; assumption.
Qed.

Lemma append_empty_r (s : string) : (s ++ EmptyString)%string = s.
Proof. induction s as [| c s IH]; simpl; [reflexivity | now rewrite IH]. Qed.

Lemma digitpart_digits (d : string) (acc : Z) (r : string) :
  d <> EmptyString -> all_digits d = true ->
  r = EmptyString \/ (exists t, r = String "." t) ->
  exists m k, digitpart acc (d ++ r) = Some (m, k, r).
Proof.
  intros Hne Hd Hr. destruct d as [| c d]; [congruence |].
  simpl in Hd. apply andb_prop in Hd. destruct Hd as [Hc Hd].
  destruct (is_digit_digit_val c Hc) as (v & Hv).
  change (String c d ++ r)%string with (String c (d ++ r)%string).
  unfold digitpart. rewrite Hv.
  destruct (digits_tail_digits d (10 * acc + v)%Z 1%Z r Hd Hr) as (m & k & ->).
  eauto.
Qed.

(** The shape of a cell that passes the guard. *)
Lemma guard_shape (v : string) :
  all_digits (remove_first_char "." v) = true ->
  exists d r, v = (d ++ r)%string /\ all_digits d = true /\
    (r = EmptyString \/ exists d2, r = String "." d2 /\ all_digits d2 = true).
Proof.
  induction v as [| c v IH]; intros H.
  - exists EmptyString, EmptyString. auto.
  - simpl in H. destruct (Ascii.eqb_spec c ".") as [-> | Hc].
    + exists EmptyString, (String "." v). split; [reflexivity |].
      split; [reflexivity |]. right. eauto.
    + simpl in H. apply andb_prop in H. destruct H as [Hd H].
      destruct (IH H) as (d & r & -> & Hall & Hr).
      exists (String c d), r. split; [reflexivity |]. split; [| assumption].
      simpl. now rewrite Hd.
Qed.

Lemma is_digit_not_dot (c : ascii) : is_digit c = true -> Ascii.eqb c "." = false.
Proof. destruct c as [[] [] [] [] [] [] [] []]; intros H; try discriminate H; reflexivity. Qed.

Lemma remove_first_dot_digits (d r : string) :
  all_digits d = true ->
  remove_first_char "." (d ++ r) = (d ++ remove_first_char "." r)%string.
Proof.
  induction d as [| c d IH]; intros H; [reflexivity |].
  simpl in H. apply andb_prop in H. destruct H as [Hc Hd].
  simpl. rewrite (is_digit_not_dot c Hc). now rewrite IH.
Qed.

Lemma number_of_guarded (v : string) :
  isdigit (remove_first_char "." v) = true ->
  exists m k, number v = Some (m, k, EmptyString).
Proof.
  intros H.
  assert (Hall : all_digits (remove_first_char "." v) = true)
    by (unfold isdigit in H; destruct (remove_first_char "." v); [discriminate | exact H]).
  destruct (guard_shape v Hall) as (d & r & -> & Hd & Hr).
  destruct d as [| c d].
  - (* no integer digit: the cell is a dot followed by digits *)
    simpl append in *. destruct Hr as [-> | (d2 & -> & Hd2)]; [discriminate H |].
    simpl in H. destruct d2 as [| c2 d2]; [discriminate H |].
    destruct (digitpart_digits (String c2 d2) 0%Z EmptyString) as (m & k & E);
      [discriminate | assumption | now left |].
    rewrite append_empty_r in E.
    exists m, k. unfold number. cbn [digitpart digit_val is_digit in_range].
    cbv beta iota. exact E.
  - destruct (digitpart_digits (String c d) 0%Z r) as (m & k & E);
      [discriminate | assumption |
       destruct Hr as [-> | (d2 & -> & _)]; [now left | right; eauto] |].
    unfold number. rewrite E.
    destruct Hr as [-> | (d2 & -> & Hd2)].
    + eauto.
    + cbv beta iota. destruct d2 as [| c2 d2].
      * cbn [digitpart]. eauto.
      * destruct (digitpart_digits (String c2 d2) m EmptyString) as (m' & k' & E');
          [discriminate | assumption | now left |].
        rewrite append_empty_r in E'. rewrite E'. eauto.
Qed.

Lemma float_of_decimal_not_nan (neg : bool) (m e : Z) :
  float_of_decimal neg m e <> FNan.
Proof.
  unfold float_of_decimal, b64_round.
  repeat match goal with
  | |- context [if ?b then _ else _] => destruct b
  end; discriminate.
Qed.

(** A cell that passes the guard of the pipe DN is read by [float] as an
    unsigned decimal without exponent. *)
Lemma float_of_guarded_decimal (v : string) :
  isdigit (remove_first_char "." v) = true ->
  exists m k, number v = Some (m, k, EmptyString) /\
    float v = Ok (float_of_decimal false m (0 - k)).
Proof.
  intros H.
  destruct (number_of_guarded v H) as (m & k & Hn).
  assert (Hall : all_chars digit_or_dot v = true).
  { assert (Ha : all_digits (remove_first_char "." v) = true)
      by (unfold isdigit in H; destruct (remove_first_char "." v); [discriminate | exact H]).
    clear H Hn. induction v as [| c v IH]; [reflexivity |].
    simpl in Ha. simpl. unfold digit_or_dot at 1.
    destruct (Ascii.eqb c ".") eqn:E.
    - rewrite orb_true_r. simpl.
      rewrite all_digits_all_chars in Ha.
      eapply all_chars_impl; [| exact Ha].
      intros x Hx. unfold digit_or_dot. now rewrite Hx.
    - simpl in Ha. apply andb_prop in Ha. destruct Ha as [Hc Ha].
      rewrite Hc. simpl. now apply IH. }
  destruct v as [| c v]; [discriminate H |].
  assert (Hc : digit_or_dot c = true)
    by (simpl in Hall; now apply andb_prop in Hall).
  unfold float.
  rewrite strip_no_space
    by (eapply all_chars_impl; [apply digit_or_dot_not_space | exact Hall]).
  rewrite (digit_or_dot_sign c v Hc). unfold absfloatvalue.
  destruct (digit_or_dot_not_word c v Hc) as (-> & ->).
  rewrite Hn. cbn [exponent]. exists m, k. split; reflexivity.
Qed.

(** Such a cell is read as a finite number or an infinity. *)
Lemma float_of_guarded (v : string) :
  isdigit (remove_first_char "." v) = true ->
  exists f, float v = Ok f /\ f <> FNan.
Proof.
  intros H. destruct (float_of_guarded_decimal v H) as (m & k & _ & ->).
  eexists. split; [reflexivity | apply float_of_decimal_not_nan].
Qed.

(** ** Exceptions of the row loops *)

Lemma to_int_raise_iff (x : option string) (e : exn) :
  B165.to_int x = Raise e <->
  e = OverflowError /\
  exists s neg, x = Some s /\ float (strip (remove_char "," s)) = Ok (FInf neg).
Proof.
  split.
  - destruct x as [s |]; [| discriminate].
    intros H. destruct (to_int_raises_on_infinity s e H) as (-> & neg & Hf).
    eauto.
  - intros (-> & s & neg & -> & Hf). unfold B165.to_int. now rewrite Hf.
Qed.

Lemma isdigit_truthy (v : string) :
  isdigit (remove_first_char "." v) = true -> truthy v = true.
Proof. destruct v; [discriminate | reflexivity]. Qed.

Lemma dn_mm_of_raise_iff (x : option string) (e : exn) :
  B3610.dn_mm_of x = Raise e <->
  e = OverflowError /\
  exists v neg, x = Some v /\ isdigit (remove_first_char "." v) = true /\
    float v = Ok (FInf neg).
Proof.
  split.
  - destruct x as [v |]; [| discriminate]. unfold B3610.dn_mm_of.
    destruct (truthy v && isdigit (remove_first_char "." v)) eqn:G; [| discriminate].
    apply andb_prop in G. destruct G as [_ G].
    destruct (float_of_guarded v G) as (f & Hf & Hnan). rewrite Hf.
    destruct f as [q | neg |]; cbn [bind int]; [discriminate | | congruence].
    intros H. injection H as <-. eauto 6.
  - intros (-> & v & neg & -> & G & Hf). unfold B3610.dn_mm_of.
    now rewrite (isdigit_truthy v G), G, Hf.
Qed.

Ltac float_cells_return :=
  repeat match goal with
  | |- context [to_float ?x] =>
      let r := fresh "r" in destruct (to_float_returns x) as (r & ->)
  end.

Lemma parse_flange_row_raise_iff col_map rating_class flange_type facing vals e :
  B165.parse_flange_row col_map rating_class flange_type facing vals = Raise e <->
  cell_present col_map vals B165.nps = true /\ e = OverflowError /\
  exists s neg,
    (get col_map vals B165.dn = Some s \/ get col_map vals B165.num_bolts = Some s) /\
    float (strip (remove_char "," s)) = Ok (FInf neg).
Proof.
  unfold B165.parse_flange_row, cell_present.
  destruct (get col_map vals B165.nps) as [s0 |];
    [| split; [discriminate | intros (H & _); discriminate H]].
  destruct (truthy s0); cbn [negb];
    [| split; [discriminate | intros (H & _); discriminate H]].
  destruct (nps_inch_of_returns s0) as (r0 & ->).
  float_cells_return. cbn [bind].
  destruct (B165.to_int (get col_map vals B165.dn)) as [a | e1] eqn:E1; cbn [bind];
    [destruct (B165.to_int (get col_map vals B165.num_bolts)) as [b | e2] eqn:E2;
     cbn [bind] |].
  - split; [discriminate |].
    intros (_ & _ & s & neg & [Hg | Hg] & Hf); rewrite Hg in *;
      [ assert (X : B165.to_int (Some s) = Raise OverflowError)
          by (apply to_int_raise_iff; eauto); congruence
      | assert (X : B165.to_int (Some s) = Raise OverflowError)
          by (apply to_int_raise_iff; eauto); congruence ].
  - apply to_int_raise_iff in E2. destruct E2 as (-> & s & neg & Hg & Hf).
    split.
    + intros H. injection H as <-. split_all; eauto.
    + intros (_ & -> & _). reflexivity.
  - apply to_int_raise_iff in E1. destruct E1 as (-> & s & neg & Hg & Hf).
    split.
    + intros H. injection H as <-. split_all; eauto.
    + intros (_ & -> & _). reflexivity.
Qed.

Lemma parse_pipe_row_raise_iff col_map vals e :
  B3610.parse_pipe_row col_map vals = Raise e <->
  cell_present col_map vals B3610.nps = true /\ e = OverflowError /\
  exists v neg,
    get col_map vals B3610.dn = Some v /\
    isdigit (remove_first_char "." v) = true /\ float v = Ok (FInf neg).
Proof.
  unfold B3610.parse_pipe_row, cell_present.
  destruct (get col_map vals B3610.nps) as [s0 |];
    [| split; [discriminate | intros (H & _); discriminate H]].
  destruct (truthy s0); cbn [negb];
    [| split; [discriminate | intros (H & _); discriminate H]].
  destruct (nps_inch_of_returns s0) as (r0 & ->).
  float_cells_return. cbn [bind].
  destruct (B3610.dn_mm_of (get col_map vals B3610.dn)) as [a | e1] eqn:E1;
    cbn [bind].
  - split; [discriminate |].
    intros (_ & _ & v & neg & Hg & G & Hf). rewrite Hg in E1.
    assert (X : B3610.dn_mm_of (Some v) = Raise OverflowError)
      by (apply dn_mm_of_raise_iff; eauto 6).
    congruence.
  - apply dn_mm_of_raise_iff in E1. destruct E1 as (-> & v & neg & Hg & G & Hf).
    split.
    + intros H. injection H as <-. split_all; eauto 6.
    + intros (_ & -> & _). reflexivity.
Qed.



(** ** Exceptions of the drivers *)

Lemma B165_parse_data_raises col_map rc ft fc data : forall e,
  B165.parse_data col_map rc ft fc data = Raise e -> e = OverflowError.
Proof.
  induction data as [| vals data IH]; cbn [B165.parse_data]; intros e H;
    [discriminate |].
  destruct (B165.parse_flange_row col_map rc ft fc vals) as [o | e1] eqn:E1;
    cbn [bind] in H.
  - destruct (B165.parse_data col_map rc ft fc data) as [rows | e2];
      cbn [bind] in H; [discriminate |].
    injection H as <-. now apply IH.
  - injection H as <-. apply parse_flange_row_raise_iff in E1. tauto.
Qed.

Lemma B3610_parse_data_raises col_map data : forall e,
  B3610.parse_data col_map data = Raise e -> e = OverflowError.
Proof.
  induction data as [| vals data IH]; cbn [B3610.parse_data]; intros e H;
    [discriminate |].
  destruct (B3610.parse_pipe_row col_map vals) as [o | e1] eqn:E1;
    cbn [bind] in H.
  - destruct (B3610.parse_data col_map data) as [rows | e2];
      cbn [bind] in H; [discriminate |].
    injection H as <-. now apply IH.
  - injection H as <-. apply parse_pipe_row_raise_iff in E1. tauto.
Qed.

Lemma B165_accepted_parse_raises df e :
  B165.looks_like_flange_table df = true ->
  B165.parse_flange_rows df None None None = Raise e -> e = OverflowError.
Proof.
  intros Ha H.
  destruct (B165_accepted_table_shape df Ha) as (first & rest & j & _ & _ & Hd & _).
  unfold B165.parse_flange_rows in H. rewrite Hd in H. cbn [iloc0 bind tl] in H.
  eapply B165_parse_data_raises; eassumption.
Qed.

Lemma B3610_accepted_parse_raises df e :
  B3610.looks_like_pipe_table df = true ->
  B3610.parse_pipe_rows df = Raise e -> e = OverflowError.
Proof.
  intros Ha H.
  destruct (B3610_accepted_table_shape df Ha) as (first & rest & j & _ & _ & Hd & _).
  unfold B3610.parse_pipe_rows in H. rewrite Hd in H. cbn [iloc0 bind tl] in H.
  eapply B3610_parse_data_raises; eassumption.
Qed.



Lemma B165_parse_data_raise_iff col_map rc ft fc data e :
  B165.parse_data col_map rc ft fc data = Raise e <->
  exists vals, In vals data /\
    B165.parse_flange_row col_map rc ft fc vals = Raise e.
Proof.
  split.
  - revert e. induction data as [| vals data IH]; cbn [B165.parse_data];
      intros e H; [discriminate |].
    destruct (B165.parse_flange_row col_map rc ft fc vals) as [o | e1] eqn:E1;
      cbn [bind] in H.
    + destruct (B165.parse_data col_map rc ft fc data) as [rows | e2];
        cbn [bind] in H; [discriminate |].
      injection H as <-. destruct (IH _ eq_refl) as (v & Hin & Hv).
      exists v. split; [now right | exact Hv].
    + injection H as <-. exists vals. split; [now left | exact E1].
  - intros (vals & Hin & Hv).
    assert (He : e = OverflowError)
      by (apply parse_flange_row_raise_iff in Hv; tauto).
    subst e. induction data as [| v data IH]; [destruct Hin |].
    cbn [B165.parse_data].
    destruct (B165.parse_flange_row col_map rc ft fc v) as [o | e1] eqn:E1;
      cbn [bind].
    + destruct Hin as [-> | Hin]; [congruence |].
      rewrite (IH Hin). reflexivity.
    + apply parse_flange_row_raise_iff in E1. now destruct E1 as (_ & -> & _).
Qed.

Lemma B3610_parse_data_raise_iff col_map data e :
  B3610.parse_data col_map data = Raise e <->
  exists vals, In vals data /\ B3610.parse_pipe_row col_map vals = Raise e.
Proof.
  split.
  - revert e. induction data as [| vals data IH]; cbn [B3610.parse_data];
      intros e H; [discriminate |].
    destruct (B3610.parse_pipe_row col_map vals) as [o | e1] eqn:E1;
      cbn [bind] in H.
    + destruct (B3610.parse_data col_map data) as [rows | e2];
        cbn [bind] in H; [discriminate |].
      injection H as <-. destruct (IH _ eq_refl) as (v & Hin & Hv).
      exists v. split; [now right | exact Hv].
    + injection H as <-. exists vals. split; [now left | exact E1].
  - intros (vals & Hin & Hv).
    assert (He : e = OverflowError)
      by (apply parse_pipe_row_raise_iff in Hv; tauto).
    subst e. induction data as [| v data IH]; [destruct Hin |].
    cbn [B3610.parse_data].
    destruct (B3610.parse_pipe_row col_map v) as [o | e1] eqn:E1; cbn [bind].
    + destruct Hin as [-> | Hin]; [congruence |].
      rewrite (IH Hin). reflexivity.
    + apply parse_pipe_row_raise_iff in E1. now destruct E1 as (_ & -> & _).
Qed.

Lemma B165_accepted_not_empty df :
  B165.looks_like_flange_table df = true -> df_empty df = false.
Proof.
  unfold B165.looks_like_flange_table. now destruct (df_empty df).
Qed.

Lemma B3610_accepted_not_empty df :
  B3610.looks_like_pipe_table df = true -> df_empty df = false.
Proof.
  unfold B3610.looks_like_pipe_table. now destruct (df_empty df).
Qed.

Lemma B165_collect_rows_raises_at tables : forall i idx df,
  nth_error tables i = Some (Some df) ->
  B165.looks_like_flange_table df = true ->
  B165.parse_flange_rows df None None None = Raise OverflowError ->
  B165.collect_rows idx tables = Raise OverflowError.
Proof.
  induction tables as [| odf tables IH]; intros i idx df Hn Ha Hp;
    [now destruct i |].
  cbn [B165.collect_rows]. destruct i as [| i]; cbn [nth_error] in Hn.
  - injection Hn as ->. rewrite (B165_accepted_not_empty _ Ha), Ha, Hp.
    reflexivity.
  - rewrite (IH _ (S idx) _ Hn Ha Hp).
    match goal with |- bind ?m _ = _ => destruct m as [here | e1] eqn:E1 end;
      cbn [bind]; [reflexivity |].
    destruct odf as [df0 |]; [| discriminate].
    destruct (df_empty df0); [discriminate |].
    destruct (B165.looks_like_flange_table df0) eqn:Ha0; cbn [negb] in E1;
      [| discriminate].
    destruct (B165.parse_flange_rows df0 None None None) as [rows | e2] eqn:Hp0;
      cbn [bind] in E1; [discriminate |].
    injection E1 as <-. f_equal. eapply B165_accepted_parse_raises; eassumption.
Qed.

Lemma B3610_collect_rows_raises_at tables : forall i idx df,
  nth_error tables i = Some (Some df) ->
  B3610.looks_like_pipe_table df = true ->
  B3610.parse_pipe_rows df = Raise OverflowError ->
  B3610.collect_rows idx tables = Raise OverflowError.
Proof.
  induction tables as [| odf tables IH]; intros i idx df Hn Ha Hp;
    [now destruct i |].
  cbn [B3610.collect_rows]. destruct i as [| i]; cbn [nth_error] in Hn.
  - injection Hn as ->. rewrite (B3610_accepted_not_empty _ Ha), Ha, Hp.
    reflexivity.
  - rewrite (IH _ (S idx) _ Hn Ha Hp).
    match goal with |- bind ?m _ = _ => destruct m as [here | e1] eqn:E1 end;
      cbn [bind]; [reflexivity |].
    destruct odf as [df0 |]; [| discriminate].
    destruct (df_empty df0); [discriminate |].
    destruct (B3610.looks_like_pipe_table df0) eqn:Ha0; cbn [negb] in E1;
      [| discriminate].
    destruct (B3610.parse_pipe_rows df0) as [rows | e2] eqn:Hp0;
      cbn [bind] in E1; [discriminate |].
    injection E1 as <-. f_equal. eapply B3610_accepted_parse_raises; eassumption.
Qed.

Lemma B165_parse_rows_raise_iff df rc ft fc :
  B165.parse_flange_rows df rc ft fc = Raise OverflowError <->
  exists first data vals,
    dropna_all df = first :: data /\ In vals data /\
    B165.parse_flange_row (B165.resolve_columns (normalise_header first))
      rc ft fc vals = Raise OverflowError.
Proof.
  unfold B165.parse_flange_rows.
  destruct (dropna_all df) as [| first data]; cbn [iloc0 bind tl].
  - split; [discriminate | now intros (? & ? & ? & ? & _)].
  - rewrite B165_parse_data_raise_iff. split.
    + intros (vals & Hin & Hv). now exists first, data, vals.
    + intros (f & d & vals & Heq & Hin & Hv). injection Heq as <- <-.
      now exists vals.
Qed.

Lemma B3610_parse_rows_raise_iff df :
  B3610.parse_pipe_rows df = Raise OverflowError <->
  exists first data vals,
    dropna_all df = first :: data /\ In vals data /\
    B3610.parse_pipe_row (B3610.resolve_columns (normalise_header first)) vals
      = Raise OverflowError.
Proof.
  unfold B3610.parse_pipe_rows.
  destruct (dropna_all df) as [| first data]; cbn [iloc0 bind tl].
  - split; [discriminate | now intros (? & ? & ? & ? & _)].
  - rewrite B3610_parse_data_raise_iff. split.
    + intros (vals & Hin & Hv). now exists first, data, vals.
    + intros (f & d & vals & Heq & Hin & Hv). injection Heq as <- <-.
      now exists vals.
Qed.



(** ** The number of rows read from a table *)

Lemma B165_row_emitted col_map rc ft fc vals o :
  B165.parse_flange_row col_map rc ft fc vals = Ok o ->
  if cell_present col_map vals B165.nps then exists r, o = Some r else o = None.
Proof.
  unfold B165.parse_flange_row, cell_present.
  destruct (get col_map vals B165.nps) as [s0 |]; [| congruence].
  destruct (truthy s0); cbn [negb]; [| congruence].
  intros H. invert_binds H. injection H as <-. eauto.
Qed.

Lemma B3610_row_emitted col_map vals o :
  B3610.parse_pipe_row col_map vals = Ok o ->
  if cell_present col_map vals B3610.nps then exists r, o = Some r else o = None.
Proof.
  unfold B3610.parse_pipe_row, cell_present.
  destruct (get col_map vals B3610.nps) as [s0 |]; [| congruence].
  destruct (truthy s0); cbn [negb]; [| congruence].
  intros H. invert_binds H. injection H as <-. eauto.
Qed.

Lemma B165_parse_data_length col_map rc ft fc data : forall rows,
  B165.parse_data col_map rc ft fc data = Ok rows ->
  List.length rows =
  List.length (filter (fun vals => cell_present col_map vals B165.nps) data).
Proof.
  induction data as [| vals data IH]; cbn [B165.parse_data]; intros rows H.
  - injection H as <-. reflexivity.
  - destruct (B165.parse_flange_row col_map rc ft fc vals) as [o | e1] eqn:E1;
      cbn [bind] in H; [| discriminate].
    destruct (B165.parse_data col_map rc ft fc data) as [rows' | e2];
      cbn [bind] in H; [| discriminate].
    injection H as <-. apply B165_row_emitted in E1. cbn [filter].
    destruct (cell_present col_map vals B165.nps).
    + destruct E1 as (r & ->). simpl. f_equal. now apply IH.
    + subst o. now apply IH.
Qed.

Lemma B3610_parse_data_length col_map data : forall rows,
  B3610.parse_data col_map data = Ok rows ->
  List.length rows =
  List.length (filter (fun vals => cell_present col_map vals B3610.nps) data).
Proof.
  induction data as [| vals data IH]; cbn [B3610.parse_data]; intros rows H.
  - injection H as <-. reflexivity.
  - destruct (B3610.parse_pipe_row col_map vals) as [o | e1] eqn:E1;
      cbn [bind] in H; [| discriminate].
    destruct (B3610.parse_data col_map data) as [rows' | e2];
      cbn [bind] in H; [| discriminate].
    injection H as <-. apply B3610_row_emitted in E1. cbn [filter].
    destruct (cell_present col_map vals B3610.nps).
    + destruct E1 as (r & ->). simpl. f_equal. now apply IH.
    + subst o. now apply IH.
Qed.

Lemma filter_length_bound {A : Type} (p : A -> bool) (l : list A) :
  List.length (filter p l) <= List.length l.
Proof.
  induction l as [| x l IH]; simpl; [lia |]. destruct (p x); simpl; lia.
Qed.

(** X4.  When the row loop returns, it has read one row for each data row
    that is not blank and whose NPS cell is present, and dropped every
    other: the rows read are fewer than the rows of the table. *)
Theorem rows_read_count :
  (forall df rc ft fc rows,
     B165.parse_flange_rows df rc ft fc = Ok rows ->
     exists first data,
       dropna_all df = first :: data /\
       List.length rows =
       List.length (filter (fun vals =>
           cell_present (B165.resolve_columns (normalise_header first)) vals B165.nps)
         data) /\
       List.length rows < List.length df) /\
  (forall df rows,
     B3610.parse_pipe_rows df = Ok rows ->
     exists first data,
       dropna_all df = first :: data /\
       List.length rows =
       List.length (filter (fun vals =>
           cell_present (B3610.resolve_columns (normalise_header first)) vals B3610.nps)
         data) /\
       List.length rows < List.length df).
Proof.
  split.
  - intros df rc ft fc rows H. unfold B165.parse_flange_rows in H.
    pose proof (filter_length_bound (fun r => negb (forallb is_nan r)) df) as Hb.
    fold (dropna_all df) in Hb.
    destruct (dropna_all df) as [| first data]; [discriminate |].
    cbn [iloc0 bind tl] in H. apply B165_parse_data_length in H.
    exists first, data. split; [reflexivity |]. split; [exact H |].
    rewrite H.
    pose proof (filter_length_bound
      (fun vals => cell_present (B165.resolve_columns (normalise_header first))
                     vals B165.nps) data).
    simpl in Hb. lia.
  - intros df rows H. unfold B3610.parse_pipe_rows in H.
    pose proof (filter_length_bound (fun r => negb (forallb is_nan r)) df) as Hb.
    fold (dropna_all df) in Hb.
    destruct (dropna_all df) as [| first data]; [discriminate |].
    cbn [iloc0 bind tl] in H. apply B3610_parse_data_length in H.
    exists first, data. split; [reflexivity |]. split; [exact H |].
    rewrite H.
    pose proof (filter_length_bound
      (fun vals => cell_present (B3610.resolve_columns (normalise_header first))
                     vals B3610.nps) data).
    simpl in Hb. lia.
Qed.

(** A table with a blank row and a row without NPS: of its five rows two
    are read. *)
Lemma rows_read_count_witness :
  let df := [[CVal "NPS"; CVal "Class"; CVal "OD (in)"; CVal "BC (in)"];
             [CVal "2"; CVal "150"; CVal "6.00"; CVal "4.75"];
             [CNan; CNan; CNone; CNan];
             [CNan; CVal "150"; CVal "7.00"; CVal "5.50"];
             [CVal "3"; CVal "150"; CVal "7.50"; CVal "6.00"]] in
  match B165.parse_flange_rows df None None None with
  | Ok rows => List.length rows < List.length df
  | Raise _ => False
  end.
Proof.
  cbv zeta.
  destruct (B165.parse_flange_rows _ None None None) as [rows | e] eqn:E;
    [| vm_compute in E; discriminate E].
  destruct (proj1 rows_read_count _ _ _ _ _ E) as (first & data & _ & _ & H).
  exact H.
Defined.

(** ** Where the rows written come from *)

Lemma B165_parse_data_In col_map rc ft fc data : forall rows,
  B165.parse_data col_map rc ft fc data = Ok rows ->
  forall r, In r rows <->
    exists vals, In vals data /\
      B165.parse_flange_row col_map rc ft fc vals = Ok (Some r).
Proof.
  induction data as [| vals data IH]; cbn [B165.parse_data]; intros rows H r.
  - injection H as <-. split; [intros [] | now intros (? & [] & _)].
  - destruct (B165.parse_flange_row col_map rc ft fc vals) as [o | e1] eqn:E1;
      cbn [bind] in H; [| discriminate].
    destruct (B165.parse_data col_map rc ft fc data) as [rows' | e2];
      cbn [bind] in H; [| discriminate].
    injection H as <-. specialize (IH _ eq_refl r). split.
    + intros Hin.
      assert (Hc : o = Some r \/ In r rows')
        by (destruct o; [destruct Hin as [-> | Hin] |]; auto).
      destruct Hc as [-> | Hr]; [exists vals; split; [now left | exact E1] |].
      apply IH in Hr. destruct Hr as (v & Hv & Hp). exists v. split; [now right | exact Hp].
    + intros (v & [<- | Hv] & Hp).
      * rewrite E1 in Hp. injection Hp as ->. now left.
      * assert (Hr : In r rows') by (apply IH; now exists v).
        destruct o; [now right | exact Hr].
Qed.

Lemma B3610_parse_data_In col_map data : forall rows,
  B3610.parse_data col_map data = Ok rows ->
  forall r, In r rows <->
    exists vals, In vals data /\ B3610.parse_pipe_row col_map vals = Ok (Some r).
Proof.
  induction data as [| vals data IH]; cbn [B3610.parse_data]; intros rows H r.
  - injection H as <-. split; [intros [] | now intros (? & [] & _)].
  - destruct (B3610.parse_pipe_row col_map vals) as [o | e1] eqn:E1;
      cbn [bind] in H; [| discriminate].
    destruct (B3610.parse_data col_map data) as [rows' | e2];
      cbn [bind] in H; [| discriminate].
    injection H as <-. specialize (IH _ eq_refl r). split.
    + intros Hin.
      assert (Hc : o = Some r \/ In r rows')
        by (destruct o; [destruct Hin as [-> | Hin] |]; auto).
      destruct Hc as [-> | Hr]; [exists vals; split; [now left | exact E1] |].
      apply IH in Hr. destruct Hr as (v & Hv & Hp). exists v. split; [now right | exact Hp].
    + intros (v & [<- | Hv] & Hp).
      * rewrite E1 in Hp. injection Hp as ->. now left.
      * assert (Hr : In r rows') by (apply IH; now exists v).
        destruct o; [now right | exact Hr].
Qed.

Lemma B165_parse_rows_In df rows :
  B165.parse_flange_rows df None None None = Ok rows ->
  forall r, In r rows <->
    exists first data vals,
      dropna_all df = first :: data /\ In vals data /\
      B165.parse_flange_row (B165.resolve_columns (normalise_header first))
        None None None vals = Ok (Some r).
Proof.
  unfold B165.parse_flange_rows.
  destruct (dropna_all df) as [| first data]; cbn [iloc0 bind tl];
    [discriminate |].
  intros H r. rewrite (B165_parse_data_In _ _ _ _ _ _ H). split.
  - intros (vals & Hin & Hp). now exists first, data, vals.
  - intros (f & d & vals & Heq & Hin & Hp). injection Heq as <- <-.
    now exists vals.
Qed.

Lemma B3610_parse_rows_In df rows :
  B3610.parse_pipe_rows df = Ok rows ->
  forall r, In r rows <->
    exists first data vals,
      dropna_all df = first :: data /\ In vals data /\
      B3610.parse_pipe_row (B3610.resolve_columns (normalise_header first)) vals
        = Ok (Some r).
Proof.
  unfold B3610.parse_pipe_rows.
  destruct (dropna_all df) as [| first data]; cbn [iloc0 bind tl];
    [discriminate |].
  intros H r. rewrite (B3610_parse_data_In _ _ _ H). split.
  - intros (vals & Hin & Hp). now exists first, data, vals.
  - intros (f & d & vals & Heq & Hin & Hp). injection Heq as <- <-.
    now exists vals.
Qed.

Lemma B165_collect_rows_In tables : forall idx rows,
  B165.collect_rows idx tables = Ok rows ->
  forall r, In r rows <->
    exists i df rows0 r0,
      nth_error tables i = Some (Some df) /\
      B165.looks_like_flange_table df = true /\
      B165.parse_flange_rows df None None None = Ok rows0 /\
      In r0 rows0 /\ r = B165.stamp (idx + i) r0.
Proof.
  induction tables as [| odf tables IH]; cbn [B165.collect_rows];
    intros idx rows H r.
  - injection H as <-. split; [intros [] |].
    intros (i & ? & ? & ? & Hn & _). now destruct i.
  - match type of H with bind ?m _ = _ => destruct m as [here | e1] eqn:E1 end;
      cbn [bind] in H; [| discriminate].
    destruct (B165.collect_rows (S idx) tables) as [rest | e2] eqn:E2;
      cbn [bind] in H; [| discriminate].
    injection H as <-. specialize (IH _ _ E2 r). rewrite in_app_iff. split.
    + intros [Hh | Hr].
      * destruct odf as [df |]; [| injection E1 as <-; destruct Hh].
        destruct (df_empty df); [injection E1 as <-; destruct Hh |].
        destruct (B165.looks_like_flange_table df) eqn:Ha; cbn [negb] in E1;
          [| injection E1 as <-; destruct Hh].
        destruct (B165.parse_flange_rows df None None None) as [rows0 | e]
          eqn:Hp; cbn [bind] in E1; [| discriminate].
        injection E1 as <-. apply in_map_iff in Hh.
        destruct Hh as (r0 & <- & Hr0).
        exists 0, df, rows0, r0. rewrite Nat.add_0_r. auto.
      * apply IH in Hr.
        destruct Hr as (i & df & rows0 & r0 & Hn & Ha & Hp & Hr0 & ->).
        exists (S i), df, rows0, r0. rewrite Nat.add_succ_r. auto.
    + intros (i & df & rows0 & r0 & Hn & Ha & Hp & Hr0 & ->).
      destruct i as [| i]; cbn [nth_error] in Hn.
      * injection Hn as ->.
        rewrite (B165_accepted_not_empty _ Ha), Ha, Hp in E1.
        cbn [negb bind] in E1. injection E1 as <-. left.
        rewrite Nat.add_0_r. now apply in_map.
      * right. apply IH. exists i, df, rows0, r0.
        rewrite Nat.add_succ_r. auto.
Qed.

Lemma B3610_collect_rows_In tables : forall idx rows,
  B3610.collect_rows idx tables = Ok rows ->
  forall r, In r rows <->
    exists i df rows0 r0,
      nth_error tables i = Some (Some df) /\
      B3610.looks_like_pipe_table df = true /\
      B3610.parse_pipe_rows df = Ok rows0 /\
      In r0 rows0 /\ r = B3610.stamp (idx + i) r0.
Proof.
  induction tables as [| odf tables IH]; cbn [B3610.collect_rows];
    intros idx rows H r.
  - injection H as <-. split; [intros [] |].
    intros (i & ? & ? & ? & Hn & _). now destruct i.
  - match type of H with bind ?m _ = _ => destruct m as [here | e1] eqn:E1 end;
      cbn [bind] in H; [| discriminate].
    destruct (B3610.collect_rows (S idx) tables) as [rest | e2] eqn:E2;
      cbn [bind] in H; [| discriminate].
    injection H as <-. specialize (IH _ _ E2 r). rewrite in_app_iff. split.
    + intros [Hh | Hr].
      * destruct odf as [df |]; [| injection E1 as <-; destruct Hh].
        destruct (df_empty df); [injection E1 as <-; destruct Hh |].
        destruct (B3610.looks_like_pipe_table df) eqn:Ha; cbn [negb] in E1;
          [| injection E1 as <-; destruct Hh].
        destruct (B3610.parse_pipe_rows df) as [rows0 | e]
          eqn:Hp; cbn [bind] in E1; [| discriminate].
        injection E1 as <-. apply in_map_iff in Hh.
        destruct Hh as (r0 & <- & Hr0).
        exists 0, df, rows0, r0. rewrite Nat.add_0_r. auto.
      * apply IH in Hr.
        destruct Hr as (i & df & rows0 & r0 & Hn & Ha & Hp & Hr0 & ->).
        exists (S i), df, rows0, r0. rewrite Nat.add_succ_r. auto.
    + intros (i & df & rows0 & r0 & Hn & Ha & Hp & Hr0 & ->).
      destruct i as [| i]; cbn [nth_error] in Hn.
      * injection Hn as ->.
        rewrite (B3610_accepted_not_empty _ Ha), Ha, Hp in E1.
        cbn [negb bind] in E1. injection E1 as <-. left.
        rewrite Nat.add_0_r. now apply in_map.
      * right. apply IH. exists i, df, rows0, r0.
        rewrite Nat.add_succ_r. auto.
Qed.

(** When [main] returns, every accepted table has been read. *)
Lemma B165_collect_rows_reads tables : forall idx rows i df,
  B165.collect_rows idx tables = Ok rows ->
  nth_error tables i = Some (Some df) ->
  B165.looks_like_flange_table df = true ->
  exists rows0, B165.parse_flange_rows df None None None = Ok rows0.
Proof.
  intros idx rows i df H Hn Ha.
  destruct (B165.parse_flange_rows df None None None) as [rows0 | e] eqn:Hp;
    [now exists rows0 |].
  pose proof (B165_accepted_parse_raises _ _ Ha Hp) as ->.
  rewrite (B165_collect_rows_raises_at tables i idx df Hn Ha Hp) in H.
  discriminate.
Qed.

Lemma B3610_collect_rows_reads tables : forall idx rows i df,
  B3610.collect_rows idx tables = Ok rows ->
  nth_error tables i = Some (Some df) ->
  B3610.looks_like_pipe_table df = true ->
  exists rows0, B3610.parse_pipe_rows df = Ok rows0.
Proof.
  intros idx rows i df H Hn Ha.
  destruct (B3610.parse_pipe_rows df) as [rows0 | e] eqn:Hp;
    [now exists rows0 |].
  pose proof (B3610_accepted_parse_raises _ _ Ha Hp) as ->.
  rewrite (B3610_collect_rows_raises_at tables i idx df Hn Ha Hp) in H.
  discriminate.
Qed.

Lemma B165_main_inv tables out :
  B165.main tables = Ok (Some out) ->
  exists all_rows,
    B165.collect_rows 0 tables = Ok all_rows /\ all_rows <> [] /\
    out = drop_duplicates B165.key_eq_dec B165.dedup_key all_rows.
Proof.
  unfold B165.main. intros H.
  destruct (B165.collect_rows 0 tables) as [rows | e]; cbn [bind] in H;
    [| discriminate].
  exists rows. destruct rows; [discriminate |].
  injection H as <-. repeat split. discriminate.
Qed.

Lemma B3610_main_inv tables out :
  B3610.main tables = Ok (Some out) ->
  exists all_rows,
    B3610.collect_rows 0 tables = Ok all_rows /\ all_rows <> [] /\
    out = drop_duplicates B3610.key_eq_dec B3610.dedup_key all_rows.
Proof.
  unfold B3610.main. intros H.
  destruct (B3610.collect_rows 0 tables) as [rows | e]; cbn [bind] in H;
    [| discriminate].
  exists rows. destruct rows; [discriminate |].
  injection H as <-. repeat split. discriminate.
Qed.

Lemma B165_stamp_key idx r : B165.dedup_key (B165.stamp idx r) = B165.dedup_key r.
Proof. reflexivity. Qed.

Lemma B3610_stamp_key idx r : B3610.dedup_key (B3610.stamp idx r) = B3610.dedup_key r.
Proof. reflexivity. Qed.

Lemma nodup_key_unique {A K : Type} (key : A -> K) (l : list A) (x y : A) :
  NoDup (map key l) -> In x l -> In y l -> key x = key y -> x = y.
Proof.
  induction l as [| a l IH]; simpl; [tauto |].
  intros Hnd. inversion Hnd as [| ? ? Ha Hnd']; subst.
  intros [-> | Hx] [-> | Hy] Hk; auto.
  - exfalso. apply Ha. rewrite Hk. now apply in_map.
  - exfalso. apply Ha. rewrite <- Hk. now apply in_map.
Qed.

Lemma B165_written_row_origin tables out r :
  B165.main tables = Ok (Some out) -> In r out ->
  exists i df first data vals r0,
    nth_error tables i = Some (Some df) /\
    B165.looks_like_flange_table df = true /\
    dropna_all df = first :: data /\ In vals data /\
    B165.parse_flange_row (B165.resolve_columns (normalise_header first))
      None None None vals = Ok (Some r0) /\
    r = B165.stamp i r0.
Proof.
  intros H Hr. destruct (B165_main_inv _ _ H) as (all_rows & Hc & _ & ->).
  apply (subseq_In _ _ _ (dd_subseq _ _ _ _)) in Hr.
  apply (B165_collect_rows_In _ _ _ Hc) in Hr.
  destruct Hr as (i & df & rows0 & r0 & Hn & Ha & Hp & Hr0 & ->).
  apply (B165_parse_rows_In _ _ Hp) in Hr0.
  destruct Hr0 as (first & data & vals & Hd & Hin & Hv).
  exists i, df, first, data, vals, r0. cbn [Nat.add]. split_all; auto.
Qed.

Lemma B3610_written_row_origin tables out r :
  B3610.main tables = Ok (Some out) -> In r out ->
  exists i df first data vals r0,
    nth_error tables i = Some (Some df) /\
    B3610.looks_like_pipe_table df = true /\
    dropna_all df = first :: data /\ In vals data /\
    B3610.parse_pipe_row (B3610.resolve_columns (normalise_header first)) vals
      = Ok (Some r0) /\
    r = B3610.stamp i r0.
Proof.
  intros H Hr. destruct (B3610_main_inv _ _ H) as (all_rows & Hc & _ & ->).
  apply (subseq_In _ _ _ (dd_subseq _ _ _ _)) in Hr.
  apply (B3610_collect_rows_In _ _ _ Hc) in Hr.
  destruct Hr as (i & df & rows0 & r0 & Hn & Ha & Hp & Hr0 & ->).
  apply (B3610_parse_rows_In _ _ Hp) in Hr0.
  destruct Hr0 as (first & data & vals & Hd & Hin & Hv).
  exists i, df, first, data, vals, r0. cbn [Nat.add]. split_all; auto.
Qed.

(** X5.  Every row written comes from a data row of a table that [main]
    accepted: it is the row read there, with the label [Table_<i>] of the
    position [i] of the table in the list and no page. *)
Theorem written_row_origin :
  (forall tables out r,
     B165.main tables = Ok (Some out) -> In r out ->
     exists i df first data vals r0,
       nth_error tables i = Some (Some df) /\
       B165.looks_like_flange_table df = true /\
       dropna_all df = first :: data /\ In vals data /\
       B165.parse_flange_row (B165.resolve_columns (normalise_header first))
         None None None vals = Ok (Some r0) /\
       r = B165.stamp i r0 /\
       B165.b165_table r = ("Table_" ++ str_nat i)%string /\
       B165.b165_page r = None) /\
  (forall tables out r,
     B3610.main tables = Ok (Some out) -> In r out ->
     exists i df first data vals r0,
       nth_error tables i = Some (Some df) /\
       B3610.looks_like_pipe_table df = true /\
       dropna_all df = first :: data /\ In vals data /\
       B3610.parse_pipe_row (B3610.resolve_columns (normalise_header first)) vals
         = Ok (Some r0) /\
       r = B3610.stamp i r0 /\
       B3610.b3610_table r = ("Table_" ++ str_nat i)%string /\
       B3610.b3610_page r = None).
Proof.
  split; intros tables out r H Hr.
  - destruct (B165_written_row_origin _ _ _ H Hr)
      as (i & df & first & data & vals & r0 & Hn & Ha & Hd & Hin & Hv & ->).
    exists i, df, first, data, vals, r0. split_all; auto.
  - destruct (B3610_written_row_origin _ _ _ H Hr)
      as (i & df & first & data & vals & r0 & Hn & Ha & Hd & Hin & Hv & ->).
    exists i, df, first, data, vals, r0. split_all; auto.
Qed.

(** A missing table followed by an accepted one: the first row written
    bears the label of position 1. *)
Lemma written_row_origin_witness :
  let t := [[CVal "NPS"; CVal "Class"; CVal "Outside Diameter (in)"; CVal "BC (in)"];
            [CVal "2"; CVal "150"; CVal "6.00"; CVal "4.75"]] in
  match B165.main [None; Some t] with
  | Ok (Some (r :: _)) => B165.b165_table r = "Table_1"
  | _ => False
  end.
Proof.
  cbv zeta.
  destruct (B165.main _) as [[[| r out] |] | e] eqn:E;
    try (vm_compute in E; discriminate E).
  destruct (proj1 written_row_origin _ _ r E (or_introl eq_refl))
    as (i & df & first & data & vals & r0 & Hn & _ & _ & _ & _ & _ & Ht & _).
  destruct i as [| [| i]]; [discriminate Hn | exact Ht | now destruct i].
Defined.

(** X6.  No data row is lost but to a row of the same key: when [main]
    writes, each row read from a data row of an accepted table has its
    deduplication key on exactly one row written. *)
Theorem read_row_key_is_written :
  (forall tables out i df first data vals r0,
     B165.main tables = Ok (Some out) ->
     nth_error tables i = Some (Some df) ->
     B165.looks_like_flange_table df = true ->
     dropna_all df = first :: data -> In vals data ->
     B165.parse_flange_row (B165.resolve_columns (normalise_header first))
       None None None vals = Ok (Some r0) ->
     exists r, In r out /\ B165.dedup_key r = B165.dedup_key r0 /\
       forall r', In r' out -> B165.dedup_key r' = B165.dedup_key r0 -> r' = r) /\
  (forall tables out i df first data vals r0,
     B3610.main tables = Ok (Some out) ->
     nth_error tables i = Some (Some df) ->
     B3610.looks_like_pipe_table df = true ->
     dropna_all df = first :: data -> In vals data ->
     B3610.parse_pipe_row (B3610.resolve_columns (normalise_header first)) vals
       = Ok (Some r0) ->
     exists r, In r out /\ B3610.dedup_key r = B3610.dedup_key r0 /\
       forall r', In r' out -> B3610.dedup_key r' = B3610.dedup_key r0 -> r' = r).
Proof.
  split; intros tables out i df first data vals r0 H Hn Ha Hd Hin Hv.
  - destruct (B165_main_inv _ _ H) as (all_rows & Hc & _ & ->).
    destruct (B165_collect_rows_reads _ _ _ _ _ Hc Hn Ha) as (rows0 & Hp).
    assert (Hr0 : In r0 rows0)
      by (apply (B165_parse_rows_In _ _ Hp); now exists first, data, vals).
    assert (Hall : In (B165.stamp i r0) all_rows)
      by (apply (B165_collect_rows_In _ _ _ Hc); now exists i, df, rows0, r0).
    destruct (dd_complete B165.key_eq_dec B165.dedup_key all_rows [] _ Hall)
      as (r & Hr & Hk); [intros [] |].
    exists r. split; [exact Hr |]. split; [now rewrite Hk |].
    intros r' Hr' Hk'.
    apply (nodup_key_unique B165.dedup_key
             (drop_duplicates B165.key_eq_dec B165.dedup_key all_rows));
      [apply dd_nodup | assumption | assumption |].
    rewrite Hk', Hk. reflexivity.
  - destruct (B3610_main_inv _ _ H) as (all_rows & Hc & _ & ->).
    destruct (B3610_collect_rows_reads _ _ _ _ _ Hc Hn Ha) as (rows0 & Hp).
    assert (Hr0 : In r0 rows0)
      by (apply (B3610_parse_rows_In _ _ Hp); now exists first, data, vals).
    assert (Hall : In (B3610.stamp i r0) all_rows)
      by (apply (B3610_collect_rows_In _ _ _ Hc); now exists i, df, rows0, r0).
    destruct (dd_complete B3610.key_eq_dec B3610.dedup_key all_rows [] _ Hall)
      as (r & Hr & Hk); [intros [] |].
    exists r. split; [exact Hr |]. split; [now rewrite Hk |].
    intros r' Hr' Hk'.
    apply (nodup_key_unique B3610.dedup_key
             (drop_duplicates B3610.key_eq_dec B3610.dedup_key all_rows));
      [apply dd_nodup | assumption | assumption |].
    rewrite Hk', Hk. reflexivity.
Qed.

(** Two accepted tables sharing the size 2: the row read for size 2 in the
    second table has its key on one row written. *)
Lemma read_row_key_is_written_witness :
  let header := [CVal "NPS"; CVal "Class"; CVal "Outside Diameter (in)"; CVal "BC (in)"] in
  let t150 := [header; [CVal "2"; CVal "150"; CVal "6.00"; CVal "4.75"];
                       [CVal "3"; CVal "150"; CVal "7.50"; CVal "6.00"]] in
  let t300 := [header; [CVal "2"; CVal "300"; CVal "6.50"; CVal "5.00"]] in
  match B165.main [Some t150; Some t300],
        B165.parse_flange_row (B165.resolve_columns (normalise_header header))
          None None None [CVal "2"; CVal "300"; CVal "6.50"; CVal "5.00"] with
  | Ok (Some out), Ok (Some r0) =>
      exists r, In r out /\ B165.dedup_key r = B165.dedup_key r0 /\
        forall r', In r' out -> B165.dedup_key r' = B165.dedup_key r0 -> r' = r
  | _, _ => False
  end.
Proof.
  cbv zeta.
  destruct (B165.main _) as [[out |] | e] eqn:E;
    [| vm_compute in E; discriminate E | vm_compute in E; discriminate E].
  destruct (B165.parse_flange_row _ None None None _) as [[r0 |] | e] eqn:E0;
    [| vm_compute in E0; discriminate E0 | vm_compute in E0; discriminate E0].
  apply (proj1 read_row_key_is_written _ _ 1 _
           [CVal "NPS"; CVal "Class"; CVal "Outside Diameter (in)"; CVal "BC (in)"]
           [[CVal "2"; CVal "300"; CVal "6.50"; CVal "5.00"]]
           [CVal "2"; CVal "300"; CVal "6.50"; CVal "5.00"] _ E eq_refl);
    [vm_compute; reflexivity | vm_compute; reflexivity | | exact E0].
  left. reflexivity.
Defined.

(** ** When [main] writes nothing *)

Lemma B165_row_skipped col_map rc ft fc vals :
  cell_present col_map vals B165.nps = false ->
  B165.parse_flange_row col_map rc ft fc vals = Ok None.
Proof.
  unfold cell_present, B165.parse_flange_row.
  destruct (get col_map vals B165.nps) as [s |]; [| reflexivity].
  now intros ->.
Qed.

Lemma B3610_row_skipped col_map vals :
  cell_present col_map vals B3610.nps = false ->
  B3610.parse_pipe_row col_map vals = Ok None.
Proof.
  unfold cell_present, B3610.parse_pipe_row.
  destruct (get col_map vals B3610.nps) as [s |]; [| reflexivity].
  now intros ->.
Qed.

Lemma B165_parse_data_nil col_map rc ft fc data :
  (forall vals, In vals data -> cell_present col_map vals B165.nps = false) ->
  B165.parse_data col_map rc ft fc data = Ok [].
Proof.
  induction data as [| vals data IH]; intros H; cbn [B165.parse_data];
    [reflexivity |].
  rewrite B165_row_skipped by (apply H; now left).
  cbn [bind]. rewrite IH by (intros v Hv; apply H; now right). reflexivity.
Qed.

Lemma B3610_parse_data_nil col_map data :
  (forall vals, In vals data -> cell_present col_map vals B3610.nps = false) ->
  B3610.parse_data col_map data = Ok [].
Proof.
  induction data as [| vals data IH]; intros H; cbn [B3610.parse_data];
    [reflexivity |].
  rewrite B3610_row_skipped by (apply H; now left).
  cbn [bind]. rewrite IH by (intros v Hv; apply H; now right). reflexivity.
Qed.

Lemma B165_collect_rows_nil tables : forall idx,
  (forall i df, nth_error tables i = Some (Some df) ->
     B165.looks_like_flange_table df = true ->
     B165.parse_flange_rows df None None None = Ok []) ->
  B165.collect_rows idx tables = Ok [].
Proof.
  induction tables as [| odf tables IH]; intros idx H; cbn [B165.collect_rows];
    [reflexivity |].
  rewrite (IH (S idx)) by (intros i df; apply (H (S i) df)).
  destruct odf as [df |]; [| reflexivity].
  destruct (df_empty df); [reflexivity |].
  destruct (B165.looks_like_flange_table df) eqn:Ha; [| reflexivity].
  cbn [negb]. now rewrite (H 0 df eq_refl Ha).
Qed.

Lemma B3610_collect_rows_nil tables : forall idx,
  (forall i df, nth_error tables i = Some (Some df) ->
     B3610.looks_like_pipe_table df = true ->
     B3610.parse_pipe_rows df = Ok []) ->
  B3610.collect_rows idx tables = Ok [].
Proof.
  induction tables as [| odf tables IH]; intros idx H; cbn [B3610.collect_rows];
    [reflexivity |].
  rewrite (IH (S idx)) by (intros i df; apply (H (S i) df)).
  destruct odf as [df |]; [| reflexivity].
  destruct (df_empty df); [reflexivity |].
  destruct (B3610.looks_like_pipe_table df) eqn:Ha; [| reflexivity].
  cbn [negb]. now rewrite (H 0 df eq_refl Ha).
Qed.

Lemma B165_main_none tables :
  B165.main tables = Ok None <-> B165.collect_rows 0 tables = Ok [].
Proof.
  unfold B165.main.
  destruct (B165.collect_rows 0 tables) as [[| r rows] | e]; cbn [bind];
    split; intros H; try reflexivity; discriminate.
Qed.

Lemma B3610_main_none tables :
  B3610.main tables = Ok None <-> B3610.collect_rows 0 tables = Ok [].
Proof.
  unfold B3610.main.
  destruct (B3610.collect_rows 0 tables) as [[| r rows] | e]; cbn [bind];
    split; intros H; try reflexivity; discriminate.
Qed.

Lemma drop_duplicates_not_nil {A K : Type}
    (dec : forall a b : K, {a = b} + {a <> b}) (key : A -> K) (l : list A) :
  l <> [] -> drop_duplicates dec key l <> [].
Proof. destruct l; [congruence | discriminate]. Qed.

(** X7.  [main] returns on its warning, writing nothing, exactly when no
    accepted table has, among the non-blank rows below its header, a row
    with an NPS cell; whenever it writes, it writes at least one row. *)
Theorem main_writes_nothing_iff_no_nps_row :
  (forall tables,
     B165.main tables = Ok None <->
     forall i df first data vals,
       nth_error tables i = Some (Some df) ->
       B165.looks_like_flange_table df = true ->
       dropna_all df = first :: data -> In vals data ->
       cell_present (B165.resolve_columns (normalise_header first)) vals B165.nps
         = false) /\
  (forall tables out, B165.main tables = Ok (Some out) -> out <> []) /\
  (forall tables,
     B3610.main tables = Ok None <->
     forall i df first data vals,
       nth_error tables i = Some (Some df) ->
       B3610.looks_like_pipe_table df = true ->
       dropna_all df = first :: data -> In vals data ->
       cell_present (B3610.resolve_columns (normalise_header first)) vals B3610.nps
         = false) /\
  (forall tables out, B3610.main tables = Ok (Some out) -> out <> []).
Proof.
  split_all.
  - intros tables. rewrite B165_main_none. split.
    + intros Hc i df first data vals Hn Ha Hd Hin.
      destruct (B165_collect_rows_reads _ _ _ _ _ Hc Hn Ha) as (rows0 & Hp).
      destruct (B165.parse_flange_row
                  (B165.resolve_columns (normalise_header first))
                  None None None vals) as [o | e] eqn:Hv.
      * pose proof (B165_row_emitted _ _ _ _ _ _ Hv) as He.
        destruct (cell_present _ vals B165.nps); [| reflexivity].
        destruct He as (r0 & ->). exfalso.
        assert (Hx : In (B165.stamp (0 + i) r0) []).
        { apply (B165_collect_rows_In _ _ _ Hc). exists i, df, rows0, r0.
          split_all; auto.
          apply (B165_parse_rows_In _ _ Hp). now exists first, data, vals. }
        destruct Hx.
      * exfalso.
        assert (Hr : B165.parse_flange_rows df None None None = Raise OverflowError).
        { apply B165_parse_rows_raise_iff. exists first, data, vals.
          split_all; auto.
          pose proof Hv as Hv'. apply parse_flange_row_raise_iff in Hv'.
          destruct Hv' as (_ & -> & _). exact Hv. }
        congruence.
    + intros H. apply B165_collect_rows_nil. intros i df Hn Ha.
      destruct (B165_accepted_table_shape df Ha)
        as (first & rest & j & _ & _ & Hd & _).
      unfold B165.parse_flange_rows. rewrite Hd. cbn [iloc0 bind tl].
      apply B165_parse_data_nil. intros vals Hin. eapply H; eassumption.
  - intros tables out H. destruct (B165_main_inv _ _ H) as (rows & _ & Hne & ->).
    now apply drop_duplicates_not_nil.
  - intros tables. rewrite B3610_main_none. split.
    + intros Hc i df first data vals Hn Ha Hd Hin.
      destruct (B3610_collect_rows_reads _ _ _ _ _ Hc Hn Ha) as (rows0 & Hp).
      destruct (B3610.parse_pipe_row
                  (B3610.resolve_columns (normalise_header first)) vals)
        as [o | e] eqn:Hv.
      * pose proof (B3610_row_emitted _ _ _ Hv) as He.
        destruct (cell_present _ vals B3610.nps); [| reflexivity].
        destruct He as (r0 & ->). exfalso.
        assert (Hx : In (B3610.stamp (0 + i) r0) []).
        { apply (B3610_collect_rows_In _ _ _ Hc). exists i, df, rows0, r0.
          split_all; auto.
          apply (B3610_parse_rows_In _ _ Hp). now exists first, data, vals. }
        destruct Hx.
      * exfalso.
        assert (Hr : B3610.parse_pipe_rows df = Raise OverflowError).
        { apply B3610_parse_rows_raise_iff. exists first, data, vals.
          split_all; auto.
          pose proof Hv as Hv'. apply parse_pipe_row_raise_iff in Hv'.
          destruct Hv' as (_ & -> & _). exact Hv. }
        congruence.
    + intros H. apply B3610_collect_rows_nil. intros i df Hn Ha.
      destruct (B3610_accepted_table_shape df Ha)
        as (first & rest & j & _ & _ & Hd & _).
      unfold B3610.parse_pipe_rows. rewrite Hd. cbn [iloc0 bind tl].
      apply B3610_parse_data_nil. intros vals Hin. eapply H; eassumption.
  - intros tables out H. destruct (B3610_main_inv _ _ H) as (rows & _ & Hne & ->).
    now apply drop_duplicates_not_nil.
Qed.

(** A rejected table and an accepted one whose only data row has no NPS
    cell: nothing is written. *)
Lemma main_writes_nothing_iff_no_nps_row_witness :
  B165.main
    [Some [[CVal "Item"; CVal "Qty"]];
     Some [[CVal "NPS"; CVal "Class"; CVal "OD (in)"; CVal "BC (in)"];
           [CNan; CVal "150"; CVal "6.00"; CVal "4.75"]]]
  = Ok None.
Proof.
  apply (proj1 main_writes_nothing_iff_no_nps_row).
  intros i df first data vals Hn Ha Hd Hin.
  destruct i as [| [| i]]; cbn [nth_error] in Hn.
  - injection Hn as <-. vm_compute in Ha. discriminate Ha.
  - injection Hn as <-. vm_compute in Hd. injection Hd as <- <-.
    destruct Hin as [<- | []]. vm_compute. reflexivity.
  - now destruct i.
Defined.

(** ** The header row *)

Lemma dropna_all_blank (above below : DataFrame) (blank : list cell) :
  forallb is_nan blank = true ->
  dropna_all (above ++ blank :: below) = dropna_all (above ++ below).
Proof.
  intros Hb. unfold dropna_all. rewrite !filter_app. cbn [filter].
  now rewrite Hb.
Qed.

(** X8.  The classifiers read the first row of the table, the row loops
    the first row that is not blank: a table whose first row is blank is
    rejected, whatever follows, although the row loop reads a table with a
    blank row, at any place, as the table without it. *)
Theorem blank_first_row_rejected :
  (forall first rest,
     forallb is_nan first = true ->
     B165.looks_like_flange_table (first :: rest) = false) /\
  (forall above blank below rc ft fc,
     forallb is_nan blank = true ->
     B165.parse_flange_rows (above ++ blank :: below) rc ft fc =
     B165.parse_flange_rows (above ++ below) rc ft fc) /\
  (forall first rest,
     forallb is_nan first = true ->
     B3610.looks_like_pipe_table (first :: rest) = false) /\
  (forall above blank below,
     forallb is_nan blank = true ->
     B3610.parse_pipe_rows (above ++ blank :: below) =
     B3610.parse_pipe_rows (above ++ below)).
Proof.
  split_all.
  - intros first rest Hb.
    destruct (B165.looks_like_flange_table (first :: rest)) eqn:Ha;
      [exfalso | reflexivity].
    destruct (B165_accepted_table_shape _ Ha)
      as (f & r & j & Heq & _ & Hd & _).
    injection Heq as <- <-. unfold dropna_all in Hd. cbn [filter] in Hd.
    rewrite Hb in Hd. cbn [negb] in Hd.
    apply (f_equal (@List.length _)) in Hd. simpl in Hd. lia.
  - intros above blank below rc ft fc Hb. unfold B165.parse_flange_rows.
    now rewrite dropna_all_blank.
  - intros first rest Hb.
    destruct (B3610.looks_like_pipe_table (first :: rest)) eqn:Ha;
      [exfalso | reflexivity].
    destruct (B3610_accepted_table_shape _ Ha)
      as (f & r & j & Heq & _ & Hd & _).
    injection Heq as <- <-. unfold dropna_all in Hd. cbn [filter] in Hd.
    rewrite Hb in Hd. cbn [negb] in Hd.
    apply (f_equal (@List.length _)) in Hd. simpl in Hd. lia.
  - intros above blank below Hb. unfold B3610.parse_pipe_rows.
    now rewrite dropna_all_blank.
Qed.

(** A blank line above a flange table that is accepted without it. *)
Lemma blank_first_row_rejected_witness :
  let t := [[CVal "NPS"; CVal "Class"; CVal "OD (in)"; CVal "BC (in)"];
            [CVal "2"; CVal "150"; CVal "6.00"; CVal "4.75"]] in
  B165.looks_like_flange_table t = true /\
  B165.looks_like_flange_table ([CNan; CNan; CNone; CNan] :: t) = false /\
  B165.parse_flange_rows ([CNan; CNan; CNone; CNan] :: t) None None None =
  B165.parse_flange_rows t None None None.
Proof.
  cbv zeta. split; [vm_compute; reflexivity |]. split.
  - apply (proj1 blank_first_row_rejected). reflexivity.
  - apply (proj1 (proj2 blank_first_row_rejected) []). reflexivity.
Defined.

Lemma forallb_map {A B : Type} (f : A -> B) (p : B -> bool) (l : list A) :
  forallb p (map f l) = forallb (fun x => p (f x)) l.
Proof. induction l as [| x l IH]; simpl; [reflexivity | now rewrite IH]. Qed.

Lemma B165_resolve_from_lower (h h' : list string) : forall idx m,
  map lower h = map lower h' ->
  B165.resolve_from idx h m = B165.resolve_from idx h' m.
Proof.
  revert h'. induction h as [| c h IH]; intros [| c' h'] idx m H;
    try discriminate; [reflexivity |].
  cbn [map] in H. injection H as Hc Hh. cbn [B165.resolve_from].
  unfold B165.resolve_step. rewrite Hc. now apply IH.
Qed.

Lemma B3610_resolve_from_lower (h h' : list string) : forall idx m,
  map lower h = map lower h' ->
  B3610.resolve_from idx h m = B3610.resolve_from idx h' m.
Proof.
  revert h'. induction h as [| c h IH]; intros [| c' h'] idx m H;
    try discriminate; [reflexivity |].
  cbn [map] in H. injection H as Hc Hh. cbn [B3610.resolve_from].
  unfold B3610.resolve_step. rewrite Hc. now apply IH.
Qed.

(** X9.  Header matching ignores case and surrounding blanks: the verdict
    of the classifiers and the result of the row loops depend on the header
    row only through which cells are missing and the lower-cased, stripped
    text of the others. *)
Theorem header_read_up_to_case_and_blanks :
  (forall first first' rest rc ft fc,
     map is_nan first = map is_nan first' ->
     map lower (normalise_header first) = map lower (normalise_header first') ->
     B165.looks_like_flange_table (first :: rest) =
     B165.looks_like_flange_table (first' :: rest) /\
     B165.parse_flange_rows (first :: rest) rc ft fc =
     B165.parse_flange_rows (first' :: rest) rc ft fc) /\
  (forall first first' rest,
     map is_nan first = map is_nan first' ->
     map lower (normalise_header first) = map lower (normalise_header first') ->
     B3610.looks_like_pipe_table (first :: rest) =
     B3610.looks_like_pipe_table (first' :: rest) /\
     B3610.parse_pipe_rows (first :: rest) = B3610.parse_pipe_rows (first' :: rest)).
Proof.
  split.
  - intros first first' rest rc ft fc Hn Hl.
    assert (Hlen : List.length first = List.length first')
      by (rewrite <- (length_map is_nan first), Hn; apply length_map).
    assert (Hb : forallb is_nan first = forallb is_nan first')
      by (transitivity (forallb (fun b => b) (map is_nan first));
          [symmetry | rewrite Hn]; apply (forallb_map is_nan (fun b => b))).
    split.
    + unfold B165.looks_like_flange_table, df_empty, shape1, iloc0,
        header_str_of.
      rewrite Hlen, Hl. reflexivity.
    + unfold B165.parse_flange_rows, dropna_all. cbn [filter]. rewrite Hb.
      destruct (negb (forallb is_nan first')); [| reflexivity].
      cbn [iloc0 bind tl]. unfold B165.resolve_columns.
      now rewrite (B165_resolve_from_lower _ _ 0 B165.col_map_init Hl).
  - intros first first' rest Hn Hl.
    assert (Hlen : List.length first = List.length first')
      by (rewrite <- (length_map is_nan first), Hn; apply length_map).
    assert (Hb : forallb is_nan first = forallb is_nan first')
      by (transitivity (forallb (fun b => b) (map is_nan first));
          [symmetry | rewrite Hn]; apply (forallb_map is_nan (fun b => b))).
    split.
    + unfold B3610.looks_like_pipe_table, df_empty, shape1, iloc0,
        header_str_of.
      rewrite Hlen, Hl. reflexivity.
    + unfold B3610.parse_pipe_rows, dropna_all. cbn [filter]. rewrite Hb.
      destruct (negb (forallb is_nan first')); [| reflexivity].
      cbn [iloc0 bind tl]. unfold B3610.resolve_columns.
      now rewrite (B3610_resolve_from_lower _ _ 0 B3610.col_map_init Hl).
Qed.

(** The pipe header in capitals and padded, against the same in lower
    case. *)
Lemma header_read_up_to_case_and_blanks_witness :
  let row := [CVal "2"; CVal "2.375"; CVal "0.154"; CVal "40"] in
  B3610.parse_pipe_rows
    [[CVal " NPS"; CVal "OUTSIDE DIAMETER (IN) "; CVal "Wall (in)"; CVal "SCHEDULE"];
     row] =
  B3610.parse_pipe_rows
    [[CVal "nps"; CVal "outside diameter (in)"; CVal "wall (in)"; CVal "schedule"];
     row].
Proof.
  cbv zeta. apply (proj2 header_read_up_to_case_and_blanks); reflexivity.
Defined.

(** ** [strip] applied twice *)

Lemma rev_string_snoc (r : string) (c : ascii) : forall acc,
  rev_string acc (r ++ String c EmptyString) = String c (rev_string acc r).
Proof.
  induction r as [| x r IH]; intros acc; simpl; [reflexivity | apply IH].
Qed.

Lemma rev_rev (s : string) :
  rev_string EmptyString (rev_string EmptyString s) = s.
Proof. now rewrite rev_string_involutive. Qed.

Lemma rev_string_cons (c : ascii) (t : string) :
  rev_string EmptyString (String c t) =
  (rev_string EmptyString t ++ String c EmptyString)%string.
Proof.
  rewrite <- (rev_rev (rev_string EmptyString t ++ String c EmptyString)).
  rewrite rev_string_snoc, rev_rev. reflexivity.
Qed.

Lemma lstrip_snoc (a : string) (c : ascii) :
  lstrip (a ++ String c EmptyString) =
  match lstrip a with
  | EmptyString => lstrip (String c EmptyString)
  | r => (r ++ String c EmptyString)%string
  end.
Proof.
  induction a as [| x a IH]; [reflexivity |].
  change (String x a ++ String c EmptyString)%string
    with (String x (a ++ String c EmptyString)).
  cbn [lstrip]. destruct (is_space x); [exact IH | reflexivity].
Qed.

Lemma rev_string_not_empty (s : string) : forall acc,
  acc <> EmptyString -> rev_string acc s <> EmptyString.
Proof.
  induction s as [| c s IH]; intros acc H; simpl; [exact H |].
  apply IH. discriminate.
Qed.

(** [rstrip], from the left. *)
Lemma rstrip_cons (c : ascii) (t : string) :
  rstrip (String c t) =
  match rstrip t with
  | EmptyString => if is_space c then EmptyString else String c EmptyString
  | r => String c r
  end.
Proof.
  unfold rstrip. rewrite rev_string_cons, lstrip_snoc.
  destruct (lstrip (rev_string EmptyString t)) as [| x r] eqn:E.
  - cbn [lstrip rev_string]. destruct (is_space c); reflexivity.
  - rewrite rev_string_snoc.
    destruct (rev_string EmptyString (String x r)) eqn:E2; [| reflexivity].
    exfalso. simpl in E2. revert E2. apply rev_string_not_empty. discriminate.
Qed.

Lemma rstrip_empty : rstrip EmptyString = EmptyString.
Proof. reflexivity. Qed.

Lemma lstrip_rstrip (s : string) : lstrip (rstrip s) = rstrip (lstrip s).
Proof.
  induction s as [| c t IH]; [reflexivity |].
  cbn [lstrip]. destruct (is_space c) eqn:Hc.
  - rewrite rstrip_cons, Hc. rewrite <- IH.
    destruct (rstrip t) as [| x r]; [reflexivity |].
    cbn [lstrip]. rewrite Hc. reflexivity.
  - rewrite rstrip_cons, Hc.
    destruct (rstrip t) as [| x r]; cbn [lstrip]; rewrite Hc; reflexivity.
Qed.

Lemma lstrip_idem (s : string) : lstrip (lstrip s) = lstrip s.
Proof.
  induction s as [| c t IH]; [reflexivity |].
  cbn [lstrip]. destruct (is_space c) eqn:Hc; [exact IH |].
  cbn [lstrip]. now rewrite Hc.
Qed.

Lemma rstrip_idem (s : string) : rstrip (rstrip s) = rstrip s.
Proof.
  unfold rstrip. now rewrite rev_rev, lstrip_idem.
Qed.

Lemma strip_idem (s : string) : strip (strip s) = strip s.
Proof.
  unfold strip. rewrite lstrip_rstrip, lstrip_idem. apply rstrip_idem.
Qed.

Lemma get_stripped {F : Type} (col_map : F -> option nat) (vals : list cell)
    (k : F) (s : string) :
  get col_map vals k = Some s -> strip s = s.
Proof.
  unfold get. destruct (col_map k) as [idx |]; [| discriminate].
  destruct (nth_error vals idx) as [val |]; [| discriminate].
  destruct (is_nan val); [discriminate |].
  intros H. injection H as <-. apply strip_idem.
Qed.

(** ** The fields of a pipe row *)

Lemma pressure_series_range (schedule : string) :
  In (B3610.pressure_series_from_schedule schedule)
     ["STD"; "XS"; "XXS"; EmptyString].
Proof.
  unfold B3610.pressure_series_from_schedule. cbv zeta.
  repeat match goal with
  | |- context [if ?b then _ else _] => destruct b
  end; simpl; auto.
Qed.

Lemma truthy_not_empty (s : string) : truthy s = true <-> s <> EmptyString.
Proof. destruct s; simpl; split; congruence. Qed.

Lemma B3610_row_fields col_map vals r :
  B3610.parse_pipe_row col_map vals = Ok (Some r) ->
  get col_map vals B3610.nps = Some (B3610.nps_display r) /\
  B3610.nps_display r <> EmptyString /\
  nps_inch_of (B3610.nps_display r) = Ok (B3610.nps_inch r) /\
  B3610.schedule_ r = B3610.or_empty (get col_map vals B3610.schedule) /\
  B3610.pressure_series r =
  B3610.pressure_series_from_schedule (B3610.schedule_ r).
Proof.
  unfold B3610.parse_pipe_row. intros H.
  destruct (get col_map vals B3610.nps) as [nps_raw |] eqn:Hnps;
    [| discriminate].
  destruct (truthy nps_raw) eqn:Ht; cbn [negb] in H; [| discriminate].
  invert_binds H. injection H as <-. cbn.
  rewrite (get_stripped _ _ _ _ Hnps). split_all; auto.
  now apply truthy_not_empty.
Qed.

(** X10.  Every pipe row written has a display size that is not empty and
    has no blank at either end, from which [nps_inch] is computed; its
    schedule has no blank at either end, and its pressure series is the
    series of that schedule, one of STD, XS, XXS and the empty string. *)
Theorem written_pipe_row_fields (tables : list (option DataFrame))
    (out : list B3610.row) (r : B3610.row) :
  B3610.main tables = Ok (Some out) -> In r out ->
  B3610.nps_display r <> EmptyString /\
  strip (B3610.nps_display r) = B3610.nps_display r /\
  nps_inch_of (B3610.nps_display r) = Ok (B3610.nps_inch r) /\
  strip (B3610.schedule_ r) = B3610.schedule_ r /\
  B3610.pressure_series r =
  B3610.pressure_series_from_schedule (B3610.schedule_ r) /\
  In (B3610.pressure_series r) ["STD"; "XS"; "XXS"; EmptyString].
Proof.
  intros H Hr.
  destruct (B3610_written_row_origin _ _ _ H Hr)
    as (i & df & first & data & vals & r0 & _ & _ & _ & _ & Hv & ->).
  destruct (B3610_row_fields _ _ _ Hv) as (Hd & Hne & Hi & Hs & Hp).
  cbn [B3610.stamp B3610.nps_display B3610.nps_inch B3610.schedule_
       B3610.pressure_series].
  split_all; auto.
  - eapply get_stripped; eassumption.
  - rewrite Hs.
    destruct (get _ vals B3610.schedule) as [s |] eqn:Hg; [| reflexivity].
    eapply get_stripped; eassumption.
  - rewrite Hp. apply pressure_series_range.
Qed.

(** A pipe table with one row of schedule 40. *)
Lemma written_pipe_row_fields_witness :
  match B3610.main
          [Some [[CVal "NPS"; CVal "Outside Diameter (in)"; CVal "Wall (in)";
                  CVal "Schedule"];
                 [CVal " 2 "; CVal "2.375"; CVal "0.154"; CVal "40"]]] with
  | Ok (Some (r :: _)) =>
      B3610.nps_display r <> EmptyString /\
      nps_inch_of (B3610.nps_display r) = Ok (B3610.nps_inch r) /\
      B3610.pressure_series r =
      B3610.pressure_series_from_schedule (B3610.schedule_ r)
  | _ => False
  end.
Proof.
  destruct (B3610.main _) as [[[| r out] |] | e] eqn:E;
    try (vm_compute in E; discriminate E).
  destruct (written_pipe_row_fields _ _ r E (or_introl eq_refl))
    as (H1 & _ & H3 & _ & H5 & _).
  split_all; assumption.
Defined.

(** ** The sign of the pipe DN *)

Lemma digit_val_nonneg (c : ascii) (v : Z) :
  digit_val c = Some v -> (0 <= v)%Z.
Proof.
  unfold digit_val. destruct (is_digit c); [| discriminate].
  intros H. injection H as <-. apply Nat2Z.is_nonneg.
Qed.

Lemma digits_tail_nonneg (n : nat) : forall s acc cnt m k r,
  String.length s <= n ->
  digits_tail acc cnt s = (m, k, r) -> (0 <= acc)%Z -> (0 <= m)%Z.
Proof.
  induction n as [| n IH]; intros s acc cnt m k r Hlen H Hacc.
  - destruct s; [| simpl in Hlen; lia]. simpl in H. congruence.
  - destruct s as [| c t]; [simpl in H; congruence |].
    simpl in Hlen. cbn [digits_tail] in H.
    destruct (digit_val c) as [v |] eqn:Hv.
    + apply (IH t _ _ _ _ _ ltac:(lia) H).
      pose proof (digit_val_nonneg _ _ Hv). lia.
    + destruct (Ascii.eqb c "_"); [| congruence].
      destruct t as [| c2 t2]; [congruence |].
      destruct (digit_val c2) as [v2 |] eqn:Hv2; [| congruence].
      simpl in Hlen.
      apply (IH t2 _ _ _ _ _ ltac:(lia) H).
      pose proof (digit_val_nonneg _ _ Hv2). lia.
Qed.

Lemma digitpart_nonneg (acc : Z) (s : string) (m k : Z) (r : string) :
  digitpart acc s = Some (m, k, r) -> (0 <= acc)%Z -> (0 <= m)%Z.
Proof.
  unfold digitpart. destruct s as [| c t]; [discriminate |].
  destruct (digit_val c) as [v |] eqn:Hv; [| discriminate].
  intros H Hacc.
  assert (H' : digits_tail (10 * acc + v) 1 t = (m, k, r)) by congruence.
  apply (digits_tail_nonneg (String.length t) t _ _ _ _ _ (le_n _) H').
  pose proof (digit_val_nonneg _ _ Hv). lia.
Qed.

Lemma number_nonneg (s : string) (m k : Z) (r : string) :
  number s = Some (m, k, r) -> (0 <= m)%Z.
Proof.
  unfold number.
  destruct (digitpart 0 s) as [[[i c] u] |] eqn:E.
  - pose proof (digitpart_nonneg _ _ _ _ _ E (Z.le_refl 0)) as Hi.
    assert (Hdot : forall t, u = String "." t ->
              match digitpart i t with
              | Some (m0, k0, r0) => Some (m0, k0, r0)
              | None => Some (i, 0%Z, t)
              end = Some (m, k, r) -> (0 <= m)%Z).
    { intros t _ H. destruct (digitpart i t) as [[[m0 k0] r0] |] eqn:E2.
      - injection H as <- _ _. eapply digitpart_nonneg; eassumption.
      - injection H as <- _ _. exact Hi. }
    destruct u as [| a t]; [intros H; now injection H as <- _ _ |].
    destruct (Ascii.eqb_spec a ".") as [-> | Hne].
    + apply (Hdot t eq_refl).
    + intros H.
      assert (Hs : Some (i, 0%Z, String a t) = Some (m, k, r)).
      { destruct a as [[] [] [] [] [] [] [] []];
          first [exact H | exfalso; apply Hne; reflexivity]. }
      now injection Hs as <- _ _.
  - destruct s as [| a t]; [discriminate |].
    destruct (Ascii.eqb_spec a ".") as [-> | Hne].
    + intros H. eapply digitpart_nonneg; [exact H | lia].
    + intros H. exfalso.
      destruct a as [[] [] [] [] [] [] [] []];
        first [discriminate H | apply Hne; reflexivity].
Qed.

Lemma Qred_num_nonneg (q : Q) : (0 <= Qnum q)%Z -> (0 <= Qnum (Qred q))%Z.
Proof.
  intros H. pose proof (Qred_correct q) as E. unfold Qeq in E.
  pose proof (Pos2Z.is_pos (Qden q)). pose proof (Pos2Z.is_pos (Qden (Qred q))).
  nia.
Qed.

Lemma b64_mantissa_nonneg (n d ex : Z) :
  (0 <= n)%Z -> (0 < d)%Z -> (0 <= b64_mantissa n d ex)%Z.
Proof.
  intros Hn Hd. unfold b64_mantissa, b64_scale.
  assert (Hdiv : forall a b, (0 <= a)%Z -> (0 < b)%Z -> (0 <= a / b)%Z)
    by (intros; now apply Z.div_pos).
  destruct (0 <=? ex)%Z eqn:Hex.
  - apply Z.leb_le in Hex.
    assert (Hb : (0 < d * 2 ^ ex)%Z)
      by (apply Z.mul_pos_pos; [assumption | now apply Z.pow_pos_nonneg]).
    specialize (Hdiv n _ Hn Hb).
    repeat match goal with
    | |- context [if ?b then _ else _] => destruct b
    end; lia.
  - assert (Ha : (0 <= n * 2 ^ (- ex))%Z)
      by (apply Z.mul_nonneg_nonneg; [assumption | apply Z.pow_nonneg; lia]).
    specialize (Hdiv _ d Ha Hd).
    repeat match goal with
    | |- context [if ?b then _ else _] => destruct b
    end; lia.
Qed.

Lemma Q_of_scaled_nonneg (m ex : Z) :
  (0 <= m)%Z -> (0 <= Qnum (Q_of_scaled m ex))%Z.
Proof.
  intros Hm. unfold Q_of_scaled.
  destruct (0 <=? ex)%Z; apply Qred_num_nonneg; cbn [Qnum]; [| exact Hm].
  apply Z.mul_nonneg_nonneg; [exact Hm | apply Z.pow_nonneg; lia].
Qed.

Lemma b64_round_nonneg (n d : Z) (q : Q) :
  (0 <= n)%Z -> (0 < d)%Z -> b64_round false n d = FFin q -> (0 <= Qnum q)%Z.
Proof.
  intros Hn Hd. unfold b64_round.
  destruct (n =? 0)%Z; [intros H; injection H as <-; simpl; lia |].
  cbv zeta.
  destruct (1024 <=? _)%Z; [discriminate |].
  intros H. injection H as <-.
  apply Q_of_scaled_nonneg. now apply b64_mantissa_nonneg.
Qed.

Lemma float_of_decimal_nonneg (m e : Z) (q : Q) :
  (0 <= m)%Z -> float_of_decimal false m e = FFin q -> (0 <= Qnum q)%Z.
Proof.
  intros Hm. unfold float_of_decimal.
  destruct (0 <=? e)%Z eqn:He.
  - apply b64_round_nonneg; [| lia].
    apply Z.mul_nonneg_nonneg; [exact Hm | apply Z.pow_nonneg; lia].
  - apply Z.leb_gt in He.
    apply b64_round_nonneg; [exact Hm | apply Z.pow_pos_nonneg; lia].
Qed.

Lemma trunc_nonneg (q : Q) : (0 <= Qnum q)%Z -> (0 <= trunc q)%Z.
Proof. intros H. unfold trunc. apply Z.quot_pos; [exact H | lia]. Qed.

Lemma dn_mm_of_nonneg (x : option string) (z : Z) :
  B3610.dn_mm_of x = Ok (Some z) -> (0 <= z)%Z.
Proof.
  unfold B3610.dn_mm_of. destruct x as [v |]; [| discriminate].
  destruct (truthy v); cbn [andb]; [| discriminate].
  destruct (isdigit (remove_first_char "." v)) eqn:Hg; [| discriminate].
  destruct (float_of_guarded_decimal v Hg) as (m & k & Hn & ->).
  cbn [bind].
  destruct (float_of_decimal false m (0 - k)) as [q | neg |] eqn:Hf;
    cbn [int bind]; try discriminate.
  intros H. injection H as <-. apply trunc_nonneg.
  eapply float_of_decimal_nonneg; [| exact Hf].
  eapply number_nonneg; eassumption.
Qed.

Lemma B3610_row_dn col_map vals r :
  B3610.parse_pipe_row col_map vals = Ok (Some r) ->
  B3610.dn_mm_of (get col_map vals B3610.dn) = Ok (B3610.dn_mm r).
Proof.
  unfold B3610.parse_pipe_row. intros H.
  destruct (get col_map vals B3610.nps) as [nps_raw |]; [| discriminate].
  destruct (negb (truthy nps_raw)); [discriminate |].
  invert_binds H. injection H as <-. reflexivity.
Qed.

(** X11.  The pipe script never writes a negative DN: the guard on the DN
    cell lets only unsigned decimals reach [int(float(...))].  The flange
    script, which has no such guard, turns the cell [-5] into the DN -5. *)
Theorem pipe_dn_is_not_negative :
  (forall x z, B3610.dn_mm_of x = Ok (Some z) -> (0 <= z)%Z) /\
  (forall tables out r z,
     B3610.main tables = Ok (Some out) -> In r out ->
     B3610.dn_mm r = Some z -> (0 <= z)%Z) /\
  B165.to_int (Some "-5") = Ok (Some (-5)%Z).
Proof.
  split_all.
  - apply dn_mm_of_nonneg.
  - intros tables out r z H Hr Hz.
    destruct (B3610_written_row_origin _ _ _ H Hr)
      as (i & df & first & data & vals & r0 & _ & _ & _ & _ & Hv & ->).
    apply B3610_row_dn in Hv. cbn [B3610.stamp B3610.dn_mm] in Hz.
    rewrite Hz in Hv. eapply dn_mm_of_nonneg; eassumption.
  - vm_compute. reflexivity.
Qed.

(** The DN cell [65.] passes the guard and is written as 65. *)
Lemma pipe_dn_is_not_negative_witness :
  B3610.dn_mm_of (Some "65.") = Ok (Some 65%Z) /\ (0 <= 65)%Z.
Proof.
  split; [vm_compute; reflexivity |].
  apply (proj1 pipe_dn_is_not_negative (Some "65.")). vm_compute. reflexivity.
Defined.

(** ** The two scripts on one table *)

Ltac case_chain :=
  repeat match goal with
  | |- context [if ?b then _ else _] => destruct b
  end.

Lemma rule_of_nps_agree (l : string) :
  B165.rule_of l = Some B165.nps <-> B3610.rule_of l = Some B3610.nps.
Proof.
  unfold B165.rule_of, B3610.rule_of.
  destruct (contains "nps" l || contains "nominal" l); [tauto |].
  destruct (startswith l "dn"); [split; discriminate |].
  destruct (contains "outside" l && (contains "in" l || contains "inch" l));
    [split; discriminate |].
  case_chain; split; discriminate.
Qed.

Lemma rule_of_dn_agree (l : string) :
  B165.rule_of l = Some B165.dn <-> B3610.rule_of l = Some B3610.dn.
Proof.
  unfold B165.rule_of, B3610.rule_of.
  destruct (contains "nps" l || contains "nominal" l); [split; discriminate |].
  destruct (startswith l "dn"); [tauto |].
  destruct (contains "outside" l && (contains "in" l || contains "inch" l));
    [split; discriminate |].
  case_chain; split; discriminate.
Qed.

Lemma rule_of_od_agree (l : string) :
  B165.rule_of l = Some B165.od <-> B3610.rule_of l = Some B3610.od_in.
Proof.
  unfold B165.rule_of, B3610.rule_of.
  destruct (contains "nps" l || contains "nominal" l); [split; discriminate |].
  destruct (startswith l "dn"); [split; discriminate |].
  destruct (contains "outside" l && (contains "in" l || contains "inch" l));
    [tauto |].
  case_chain; split; discriminate.
Qed.

Lemma resolve_columns_agree (header : list string) (k : B165.field)
    (k' : B3610.field) :
  (forall l, B165.rule_of l = Some k <-> B3610.rule_of l = Some k') ->
  B165.resolve_columns header k = B3610.resolve_columns header k'.
Proof.
  intros Hr.
  assert (Hj : forall j, B165.resolve_columns header k = Some j <->
                         B3610.resolve_columns header k' = Some j).
  { intros j. rewrite B165_resolve_columns_last, B3610_resolve_columns_last.
    split; intros (c & Hn & Hc & Hl); exists c; split_all; auto.
    - now apply Hr.
    - intros j' c' Hlt Hn' Hc'. apply (Hl j' c' Hlt Hn'). now apply Hr.
    - now apply Hr.
    - intros j' c' Hlt Hn' Hc'. apply (Hl j' c' Hlt Hn'). now apply Hr. }
  destruct (B165.resolve_columns header k) as [j |].
  - symmetry. now apply Hj.
  - destruct (B3610.resolve_columns header k') as [j |]; [| reflexivity].
    now apply Hj.
Qed.

(** X12.  The flange classifier accepts every table the pipe classifier
    accepts, and on any header the two header loops bind the keys for NPS,
    DN and the outside diameter in inches to the same columns: the flange
    script reads a pipe table as flanges of the same sizes. *)
Theorem pipe_table_is_read_as_flange_table :
  (forall df, B3610.looks_like_pipe_table df = true ->
     B165.looks_like_flange_table df = true) /\
  (forall header,
     B165.resolve_columns header B165.nps = B3610.resolve_columns header B3610.nps /\
     B165.resolve_columns header B165.dn = B3610.resolve_columns header B3610.dn /\
     B165.resolve_columns header B165.od = B3610.resolve_columns header B3610.od_in).
Proof.
  split.
  - intros df. unfold B3610.looks_like_pipe_table, B165.looks_like_flange_table.
    destruct (df_empty df || (shape1 df <? 4)); [discriminate |].
    destruct (iloc0 df) as [first | e]; [| discriminate].
    cbv zeta. intros H. apply andb_prop in H. destruct H as [H _].
    apply andb_prop in H. destruct H as [-> ->].
    cbn [andb]. now rewrite orb_true_r.
  - intros header. split_all; apply resolve_columns_agree.
    + apply rule_of_nps_agree.
    + apply rule_of_dn_agree.
    + apply rule_of_od_agree.
Qed.

(** A pipe table, accepted by the flange classifier as well. *)
Lemma pipe_table_is_read_as_flange_table_witness :
  B165.looks_like_flange_table
    [[CVal "NPS"; CVal "Outside Diameter (in)"; CVal "Wall (in)"; CVal "Schedule"];
     [CVal "2"; CVal "2.375"; CVal "0.154"; CVal "40"]] = true.
Proof.
  apply (proj1 pipe_table_is_read_as_flange_table). vm_compute. reflexivity.
Defined.

(** ** The table label *)

Lemma digit_val_digit_char (n : nat) :
  digit_val (digit_char n) = Some (Z.of_nat (n mod 10)).
Proof.
  unfold digit_val, digit_char, is_digit, in_range.
  pose proof (Nat.mod_upper_bound n 10 ltac:(lia)) as Hm.
  rewrite nat_ascii_embedding by lia.
  replace (48 <=? 48 + n mod 10) with true by (symmetry; apply Nat.leb_le; lia).
  replace (48 + n mod 10 <=? 57) with true by (symmetry; apply Nat.leb_le; lia).
  cbn [andb]. do 2 f_equal. lia.
Qed.

(** Reading back the digits that [str] writes in front of [acc]. *)
Lemma str_nat_aux_read (fuel : nat) : forall n acc a c,
  n < fuel ->
  exists p, (0 < p)%Z /\
    digits_tail a c (str_nat_aux fuel n acc) =
    digits_tail (a * 10 ^ p + Z.of_nat n)%Z (c + p)%Z acc.
Proof.
  induction fuel as [| f IH]; intros n acc a c Hn; [lia |].
  cbn [str_nat_aux]. cbv zeta.
  pose proof (Nat.div_mod_eq n 10) as Hdm.
  destruct (n <? 10) eqn:Hlt.
  - apply Nat.ltb_lt in Hlt. exists 1%Z. split; [lia |].
    cbn [digits_tail]. rewrite digit_val_digit_char.
    rewrite (Nat.mod_small n 10 Hlt). f_equal. lia.
  - apply Nat.ltb_ge in Hlt.
    assert (Hq : n / 10 < f).
    { pose proof (Nat.div_lt n 10 ltac:(lia) ltac:(lia)). lia. }
    destruct (IH (n / 10) (String (digit_char n) acc) a c Hq) as (p & Hp & ->).
    exists (p + 1)%Z. split; [lia |].
    cbn [digits_tail]. rewrite digit_val_digit_char.
    rewrite Z.pow_add_r by lia. f_equal; [| lia].
    assert (Hz : Z.of_nat n =
                 (10 * Z.of_nat (n / 10) + Z.of_nat (n mod 10))%Z) by lia.
    rewrite Hz. change (10 ^ 1)%Z with 10%Z. ring.
Qed.

Lemma str_nat_read (n : nat) :
  exists p, digits_tail 0 0 (str_nat n) = (Z.of_nat n, p, EmptyString).
Proof.
  unfold str_nat.
  destruct (str_nat_aux_read (S n) n EmptyString 0%Z 0%Z (Nat.lt_succ_diag_r n))
    as (p & _ & ->).
  exists p. reflexivity.
Qed.

Lemma str_nat_injective (i j : nat) : str_nat i = str_nat j -> i = j.
Proof.
  intros H. destruct (str_nat_read i) as (p & Hi).
  destruct (str_nat_read j) as (q & Hj).
  rewrite H in Hi. rewrite Hi in Hj. injection Hj as Hz _.
  now apply Nat2Z.inj.
Qed.

Lemma table_label_injective (i j : nat) :
  ("Table_" ++ str_nat i)%string = ("Table_" ++ str_nat j)%string -> i = j.
Proof.
  intros H. apply str_nat_injective. cbn [append] in H. now injection H.
Qed.

(** X13.  The label identifies the table: two rows written with the same
    label [Table_<i>] were both read from data rows of the table at
    position [i] of the extracted list. *)
Theorem same_label_same_table :
  (forall tables out r r',
     B165.main tables = Ok (Some out) -> In r out -> In r' out ->
     B165.b165_table r = B165.b165_table r' ->
     exists i df first data vals vals' r0 r0',
       nth_error tables i = Some (Some df) /\
       dropna_all df = first :: data /\ In vals data /\ In vals' data /\
       B165.parse_flange_row (B165.resolve_columns (normalise_header first))
         None None None vals = Ok (Some r0) /\
       B165.parse_flange_row (B165.resolve_columns (normalise_header first))
         None None None vals' = Ok (Some r0') /\
       r = B165.stamp i r0 /\ r' = B165.stamp i r0') /\
  (forall tables out r r',
     B3610.main tables = Ok (Some out) -> In r out -> In r' out ->
     B3610.b3610_table r = B3610.b3610_table r' ->
     exists i df first data vals vals' r0 r0',
       nth_error tables i = Some (Some df) /\
       dropna_all df = first :: data /\ In vals data /\ In vals' data /\
       B3610.parse_pipe_row (B3610.resolve_columns (normalise_header first)) vals
         = Ok (Some r0) /\
       B3610.parse_pipe_row (B3610.resolve_columns (normalise_header first)) vals'
         = Ok (Some r0') /\
       r = B3610.stamp i r0 /\ r' = B3610.stamp i r0').
Proof.
  split; intros tables out r r' H Hr Hr' Hl.
  - destruct (B165_written_row_origin _ _ _ H Hr)
      as (i & df & first & data & vals & r0 & Hn & _ & Hd & Hin & Hv & ->).
    destruct (B165_written_row_origin _ _ _ H Hr')
      as (j & df' & first' & data' & vals' & r0' & Hn' & _ & Hd' & Hin' & Hv' & ->).
    cbn [B165.stamp B165.b165_table] in Hl.
    apply table_label_injective in Hl. subst j.
    rewrite Hn in Hn'. injection Hn' as <-.
    rewrite Hd in Hd'. injection Hd' as <- <-.
    exists i, df, first, data, vals, vals', r0, r0'. split_all; auto.
  - destruct (B3610_written_row_origin _ _ _ H Hr)
      as (i & df & first & data & vals & r0 & Hn & _ & Hd & Hin & Hv & ->).
    destruct (B3610_written_row_origin _ _ _ H Hr')
      as (j & df' & first' & data' & vals' & r0' & Hn' & _ & Hd' & Hin' & Hv' & ->).
    cbn [B3610.stamp B3610.b3610_table] in Hl.
    apply table_label_injective in Hl. subst j.
    rewrite Hn in Hn'. injection Hn' as <-.
    rewrite Hd in Hd'. injection Hd' as <- <-.
    exists i, df, first, data, vals, vals', r0, r0'. split_all; auto.
Qed.

(** Two rows written from one pipe table. *)
Lemma same_label_same_table_witness :
  match B3610.main
          [Some [[CVal "NPS"; CVal "Outside Diameter (in)"; CVal "Wall (in)";
                  CVal "Schedule"];
                 [CVal "2"; CVal "2.375"; CVal "0.154"; CVal "40"];
                 [CVal "2"; CVal "2.375"; CVal "0.218"; CVal "80"]]] with
  | Ok (Some [r; r']) =>
      exists i r0 r0', r = B3610.stamp i r0 /\ r' = B3610.stamp i r0'
  | _ => False
  end.
Proof.
  destruct (B3610.main _) as [[[| r [| r' [| r'' out]]] |] | e] eqn:E;
    try (vm_compute in E; discriminate E).
  assert (Hl : B3610.b3610_table r = B3610.b3610_table r')
    by (vm_compute in E; injection E as <- <-; reflexivity).
  destruct (proj2 same_label_same_table _ _ r r' E
              (or_introl eq_refl) (or_intror (or_introl eq_refl)) Hl)
    as (i & _ & _ & _ & _ & _ & r0 & r0' & _ & _ & _ & _ & _ & _ & H1 & H2).
  exists i, r0, r0'. split; [exact H1 | exact H2].
Defined.
